(** * ZTNET: member reconciliation and member lifecycle

    A shallow embedding of the member procedures of
    [src/server/api/routers/memberRouter.ts] (create, Update,
    UpdateDatabaseOnly, stash, delete, bulkDeleteStashed, getMemberAnotations,
    removeMemberAnotations) and of the two network queries of the network
    router that look at member rows (getUserNetworks, and the member merge,
    the route comparison and the duplicated targets of getNetworkById).

    The relational store is a record of tables, each table a list of rows in
    insertion order.  A procedure is a computation in a state-and-exception
    monad over a world made of the store, the ZeroTier controller and the
    trace of the outward effects performed so far.  A raised exception keeps
    the world reached so far: nothing in the router runs in a transaction. *)

From Stdlib Require Import List String Bool Arith Lia ZArith DecimalString.
Import ListNotations.
Open Scope string_scope.
Open Scope list_scope.


(** ** Rows of the store (prisma/schema.prisma) *)

(** [network_members].  The three flags are declared [Boolean? @default(false)];
    every writer of the router stores a boolean, so a row read back holds one.
    The date columns, the autoincrement [nodeid] and the connectivity columns
    play no part in the procedures below and are left out. *)
Record network_members := mk_member {
  nm_id : string;
  nm_nwid : string;
  nm_authorized : bool;
  nm_deleted : bool;
  nm_permanentlyDeleted : bool;
  nm_name : option string;
  nm_description : option string;
  nm_address : option string
}.

Record network := mk_network {
  nw_nwid : string;
  nw_name : option string;
  nw_authorId : option string;
  nw_organizationId : option string
}.

Record UserOptions := mk_userOptions {
  uo_userId : string;
  uo_renameNodeGlobally : bool;
  uo_addMemberIdAsName : bool
}.

Record OrganizationSettings := mk_orgSettings {
  os_organizationId : string;
  os_renameNodeGlobally : bool
}.

Inductive Role := READ_ONLY | USER | ADMIN.

Record UserOrganizationRole := mk_userOrgRole {
  uor_userId : string;
  uor_organizationId : string;
  uor_role : Role
}.

(** The input of Update, [updateParams]: every field is optional. *)
Record UpdateParams := mk_updateParams {
  up_name : option string;
  up_description : option string;
  up_activeBridge : option bool;
  up_noAutoAssignIps : option bool;
  up_ipAssignments : option (list string);
  up_authorized : option bool;
  up_capabilities : option (list Z);
  up_tags : option (list (Z * Z))
}.

Definition noParams : UpdateParams :=
  mk_updateParams None None None None None None None None.

(** The input of UpdateDatabaseOnly. *)
Record DbOnlyParams := mk_dbOnlyParams {
  dp_deleted : option bool;
  dp_description : option string
}.

(** What a procedure writes to the activity log. *)
Inductive LogAction :=
| LogCreated (id nwid : string)
| LogUpdated (memberId nwid : string) (p : UpdateParams)
| LogUpdatedDbOnly (id nwid : string) (p : DbOnlyParams)
| LogStashed (id nwid : string)
| LogDeleted (id nwid : string)
| LogBulkDeleted (count : nat) (nwid : string)
| LogRemovedNotation (notationId nodeid : Z).

Record activityLog := mk_activityLog {
  al_action : LogAction;
  al_performedById : string;
  al_organizationId : option string
}.

Record DB := mk_DB {
  tbl_network_members : list network_members;
  tbl_network : list network;
  tbl_userOptions : list UserOptions;
  tbl_organizationSettings : list OrganizationSettings;
  tbl_userOrganizationRole : list UserOrganizationRole;
  tbl_activityLog : list activityLog
}.

Definition with_members (f : list network_members -> list network_members)
  (d : DB) : DB :=
  mk_DB (f (tbl_network_members d)) (tbl_network d) (tbl_userOptions d)
        (tbl_organizationSettings d) (tbl_userOrganizationRole d)
        (tbl_activityLog d).

Definition with_activityLog (f : list activityLog -> list activityLog)
  (d : DB) : DB :=
  mk_DB (tbl_network_members d) (tbl_network d) (tbl_userOptions d)
        (tbl_organizationSettings d) (tbl_userOrganizationRole d)
        (f (tbl_activityLog d)).

Definition with_organizationSettings
  (f : list OrganizationSettings -> list OrganizationSettings) (d : DB) : DB :=
  mk_DB (tbl_network_members d) (tbl_network d) (tbl_userOptions d)
        (f (tbl_organizationSettings d)) (tbl_userOrganizationRole d)
        (tbl_activityLog d).

(** Field updates of a member row. *)
Definition set_deleted (b : bool) (m : network_members) : network_members :=
  mk_member (nm_id m) (nm_nwid m) (nm_authorized m) b (nm_permanentlyDeleted m)
            (nm_name m) (nm_description m) (nm_address m).

Definition set_permanentlyDeleted (b : bool) (m : network_members) :=
  mk_member (nm_id m) (nm_nwid m) (nm_authorized m) (nm_deleted m) b
            (nm_name m) (nm_description m) (nm_address m).

Definition set_name (n : option string) (m : network_members) :=
  mk_member (nm_id m) (nm_nwid m) (nm_authorized m) (nm_deleted m)
            (nm_permanentlyDeleted m) n (nm_description m) (nm_address m).

Definition set_description (s : option string) (m : network_members) :=
  mk_member (nm_id m) (nm_nwid m) (nm_authorized m) (nm_deleted m)
            (nm_permanentlyDeleted m) (nm_name m) s (nm_address m).

Definition set_authorized (b : bool) (m : network_members) :=
  mk_member (nm_id m) (nm_nwid m) b (nm_deleted m)
            (nm_permanentlyDeleted m) (nm_name m) (nm_description m)
            (nm_address m).

(** A field of a Prisma [data] object that may be missing: missing leaves the
    column as it is. *)
Definition opt_apply {A B : Type} (o : option A) (f : A -> B -> B) (x : B) : B :=
  match o with
  | Some a => f a x
  | None => x
  end.

(** ** Queries on the member table *)

(** The compound unique key [id_nwid] of the schema. *)
Definition has_key (i n : string) (m : network_members) : bool :=
  (nm_id m =? i) && (nm_nwid m =? n).

(** [findUnique] / [findFirst]: the first row that matches. *)
Definition findFirst {A : Type} (p : A -> bool) (t : list A) : option A :=
  find p t.

(** [findMany]: the rows that match, in table order. *)
Definition findMany {A : Type} (p : A -> bool) (t : list A) : list A :=
  filter p t.

(** [updateMany]: every matching row is rewritten. *)
Definition updateMany {A : Type} (p : A -> bool) (f : A -> A) (t : list A)
  : list A :=
  map (fun r => if p r then f r else r) t.

Definition deleteMany {A : Type} (p : A -> bool) (t : list A) : list A :=
  filter (fun r => negb (p r)) t.

Definition count_rows {A : Type} (p : A -> bool) (t : list A) : nat :=
  List.length (filter p t).

(** The relation filter [nwid_ref: { ... }]: the row's network satisfies [p]. *)
Definition nwid_ref (nets : list network) (p : network -> bool)
  (m : network_members) : bool :=
  match findFirst (fun n => nw_nwid n =? nm_nwid m) nets with
  | Some n => p n
  | None => false
  end.

Definition opt_string_eqb (a b : option string) : bool :=
  match a, b with
  | Some x, Some y => x =? y
  | None, None => true
  | _, _ => false
  end.

Definition is_some {A : Type} (o : option A) : bool :=
  match o with Some _ => true | None => false end.

(** JavaScript truthiness of an optional string: missing and empty are falsy. *)
Definition truthy (o : option string) : bool :=
  match o with
  | Some s => negb (s =? "")
  | None => false
  end.

(** [a || b] on optional strings used as a default: [a] when it is truthy. *)
Definition or_else (a : option string) (b : string) : string :=
  match a with
  | Some s => if s =? "" then b else s
  | None => b
  end.

(** ** The outside world *)

(** Modelled from the spec: [MemberEntity] (~/types/local/member) is the flat
    record of controller-known fields that the controller client returns:
    identity, authorization, IP assignments, tags, capabilities, physical
    address and connectivity status. *)
Record MemberEntity := mk_entity {
  me_id : string;
  me_authorized : bool;
  me_ipAssignments : list string;
  me_tags : list (Z * Z);
  me_capabilities : list Z;
  me_physicalAddress : option string;
  me_online : bool
}.

Inductive TRPCCode := BAD_REQUEST | FORBIDDEN | UNAUTHORIZED | NOT_FOUND.

(** What a procedure can throw. *)
Inductive Exn :=
| TRPCError (code : TRPCCode) (message : string)
| ThrownError (message : string)       (* raised by [throwError] *)
| PrismaError (message : string)       (* a failed store operation *)
| ExternalError (message : string).    (* raised by a collaborator *)

Definition exn_message (e : Exn) : string :=
  match e with
  | TRPCError _ m => m
  | ThrownError m => m
  | PrismaError m => m
  | ExternalError m => m
  end.

(** The [updateParams] handed to [ztController.member_update]: the payload
    itself, wrapped in [{ config: ... }] for ZeroTier Central, or
    [{ hidden: false }] when create runs against Central. *)
Inductive CtrlParams :=
| Plain (p : UpdateParams)
| Config (p : UpdateParams)
| Hidden (b : bool).

Inductive Changes :=
| ChangedPayload (p : UpdateParams)
| ChangedDbOnly (p : DbOnlyParams)
| ChangedStashed.

(** The argument of [sendWebhook], one constructor per hook type. *)
Inductive Hook :=
| NETWORK_JOIN (organizationId : option string) (memberId networkId : string)
| MEMBER_CONFIG_CHANGED (organizationId : option string)
    (memberId userId userEmail networkId : string) (changes : Changes)
| MEMBER_DELETED (organizationId : option string)
    (deletedMemberId userId userEmail networkId : string).

Inductive AdminEvent := NODE_ADDED | NODE_DELETED | NODE_PERMANENTLY_DELETED.

(** The argument of [sendOrganizationAdminNotification]. *)
Record AdminNotification := mk_notification {
  an_organizationId : string;
  an_eventType : AdminEvent;
  an_actor : option (string * string);     (* actorEmail, actorName *)
  an_networkId : string;
  an_networkName : string;
  an_nodeId : string;
  an_nodeName : string
}.

(** A write on [network_members] that took place. *)
Inductive MemberWrite :=
| WUnstash (id nwid : string)               (* create, row already there *)
| WCreate (id nwid : string)                (* create, new row *)
| WRenameOther (id nwid : string)           (* Update, another network *)
| WUpdateFields (id nwid : string)          (* Update, the edited network *)
| WDbOnly (id nwid : string)                (* UpdateDatabaseOnly *)
| WStash (id nwid : string)                 (* stash: deleted = true *)
| WPermanentlyDelete (id nwid : string)     (* delete of a stashed row *)
| WDelete (id nwid : string)                (* delete of an active row *)
| WBulkPermanentlyDelete (nwid : string) (ids : list string).

Inductive Event :=
| EvControllerUpdate (nwid memberId : string) (central : bool)
    (p : CtrlParams) (ok : bool)
| EvControllerDelete (nwid memberId : string) (central : bool) (ok : bool)
| EvMemberWrite (w : MemberWrite)
| EvWebhook (h : Hook) (ok : bool)
| EvAdminNotification (n : AdminNotification) (ok : bool)
| EvConsole (message : string).

Record SessionUser := mk_user {
  user_id : string;
  user_email : string;
  user_name : string
}.

Section Router.

(** The state of the ZeroTier controller and the answer of ZeroTier Central to
    a network listing are left open. *)
Variable Controller : Type.
Variable CentralNetworks : Type.

(** The collaborators whose code is not part of the router: the controller
    client (~/utils/ztApi), the webhook and e-mail senders, the role check
    (~/utils/role) and the IP syntax check (../utils/ipUtils).  A sender or a
    controller call that answers [inl message] has thrown. *)
Record Externals := mk_externals {
  zt_member_update : Controller -> string -> string -> bool -> CtrlParams ->
                     (string + MemberEntity) * Controller;
  zt_member_delete : Controller -> string -> string -> bool ->
                     (string + unit) * Controller;
  zt_get_controller_networks : Controller -> (string + CentralNetworks);
  ext_sendWebhook : Hook -> option string;
  ext_sendOrganizationAdminNotification : AdminNotification -> option string;
  ext_checkUserOrganizationRole :
    SessionUser -> string -> Role -> list UserOrganizationRole -> bool;
  isValidIP : string -> bool
}.

(** The same collaborators with another webhook sender, or another e-mail
    sender. *)
Definition with_sendWebhook (f : Hook -> option string) (X : Externals)
  : Externals :=
  mk_externals (zt_member_update X) (zt_member_delete X)
    (zt_get_controller_networks X) f
    (ext_sendOrganizationAdminNotification X)
    (ext_checkUserOrganizationRole X) (isValidIP X).

Definition with_sendOrganizationAdminNotification
  (f : AdminNotification -> option string) (X : Externals) : Externals :=
  mk_externals (zt_member_update X) (zt_member_delete X)
    (zt_get_controller_networks X) (ext_sendWebhook X) f
    (ext_checkUserOrganizationRole X) (isValidIP X).

Variable E : Externals.

Record World := mk_world {
  db : DB;
  zt : Controller;
  trace : list Event      (* oldest event first *)
}.

(** ** The monad of procedures *)

Definition M (A : Type) : Type := World -> (Exn + A) * World.

Definition ret {A : Type} (a : A) : M A := fun w => (inr a, w).

Definition bind {A B : Type} (m : M A) (k : A -> M B) : M B :=
  fun w =>
    match m w with
    | (inr a, w') => k a w'
    | (inl e, w') => (inl e, w')
    end.

Definition throw {A : Type} (e : Exn) : M A := fun w => (inl e, w).

(** [try { m } catch (e) { h e }] *)
Definition try_catch {A : Type} (m : M A) (h : Exn -> M A) : M A :=
  fun w =>
    match m w with
    | (inr a, w') => (inr a, w')
    | (inl e, w') => h e w'
    end.

Notation "x <- m ;; k" := (bind m (fun x => k))
  (at level 61, m at next level, right associativity).
Notation "m ;;; k" := (bind m (fun _ => k))
  (at level 61, right associativity).

Definition when_ (b : bool) (m : M unit) : M unit :=
  if b then m else ret tt.

Fixpoint for_each {A : Type} (l : list A) (body : A -> M unit) : M unit :=
  match l with
  | [] => ret tt
  | x :: rest => body x ;;; for_each rest body
  end.

Definition getDB : M DB := fun w => (inr (db w), w).

Definition modifyDB (f : DB -> DB) : M unit :=
  fun w => (inr tt, mk_world (f (db w)) (zt w) (trace w)).

Definition emit (e : Event) : M unit :=
  fun w => (inr tt, mk_world (db w) (zt w) (trace w ++ [e])).

(** [throwError(message)] of ~/server/helpers/errorHandler, as its call sites
    use it ([return throwError("Network not found!")]): it raises. *)
Definition throwError {A : Type} (message : string) : M A :=
  throw (ThrownError message).

Definition console (message : string) : M unit := emit (EvConsole message).

(** *** Collaborators as computations *)

Definition member_update (nwid memberId : string) (central : bool)
  (p : CtrlParams) : M MemberEntity :=
  fun w =>
    match zt_member_update E (zt w) nwid memberId central p with
    | (inr r, c) =>
        (inr r, mk_world (db w) c
                  (trace w ++ [EvControllerUpdate nwid memberId central p true]))
    | (inl msg, c) =>
        (inl (ExternalError msg), mk_world (db w) c
                  (trace w ++ [EvControllerUpdate nwid memberId central p false]))
    end.

Definition member_delete (nwid memberId : string) (central : bool) : M unit :=
  fun w =>
    match zt_member_delete E (zt w) nwid memberId central with
    | (inr r, c) =>
        (inr r, mk_world (db w) c
                  (trace w ++ [EvControllerDelete nwid memberId central true]))
    | (inl msg, c) =>
        (inl (ExternalError msg), mk_world (db w) c
                  (trace w ++ [EvControllerDelete nwid memberId central false]))
    end.

Definition sendWebhook (h : Hook) : M unit :=
  match ext_sendWebhook E h with
  | None => emit (EvWebhook h true)
  | Some msg => emit (EvWebhook h false) ;;; throw (ExternalError msg)
  end.

Definition sendOrganizationAdminNotification (n : AdminNotification) : M unit :=
  match ext_sendOrganizationAdminNotification E n with
  | None => emit (EvAdminNotification n true)
  | Some msg => emit (EvAdminNotification n false) ;;; throw (ExternalError msg)
  end.

(** The webhook of a procedure: a failure is thrown again with its message. *)
Definition webhook_or_throw (h : Hook) : M unit :=
  try_catch (sendWebhook h) (fun error => throwError (exn_message error)).

(** [checkUserOrganizationRole]: throws when the session user lacks the role. *)
Definition checkUserOrganizationRole (u : SessionUser) (organizationId : string)
  (minimumRequiredRole : Role) : M unit :=
  d <- getDB ;;
  if ext_checkUserOrganizationRole E u organizationId minimumRequiredRole
       (tbl_userOrganizationRole d)
  then ret tt
  else throw (TRPCError FORBIDDEN "You do not have the required permissions").

(** *** Store operations as computations *)

Definition activityLog_create (a : LogAction) (u : SessionUser)
  (organizationId : option string) : M unit :=
  modifyDB (with_activityLog
              (fun t => t ++ [mk_activityLog a (user_id u) organizationId])).

(** A [where] clause may look at the network a row belongs to ([nwid_ref]),
    so it is given the network table. *)
Definition Where : Type := list network -> network_members -> bool.

Definition members_findFirst (p : Where) : M (option network_members) :=
  d <- getDB ;; ret (findFirst (p (tbl_network d)) (tbl_network_members d)).

Definition members_findUnique (i n : string) : M (option network_members) :=
  members_findFirst (fun _ => has_key i n).

Definition members_findMany (p : Where) : M (list network_members) :=
  d <- getDB ;; ret (findMany (p (tbl_network d)) (tbl_network_members d)).

(** [network_members.update({ where: { id_nwid }, data })]: throws when the
    row is missing, returns the row as written otherwise. *)
Definition members_update (i n : string) (f : network_members -> network_members)
  (ev : MemberWrite) : M network_members :=
  d <- getDB ;;
  match findFirst (has_key i n) (tbl_network_members d) with
  | None => throw (PrismaError "Record to update not found")
  | Some r =>
      modifyDB (with_members (updateMany (has_key i n) f)) ;;;
      emit (EvMemberWrite ev) ;;;
      ret (f r)
  end.

(** [network_members.updateMany]: returns the number of rows written. *)
Definition members_updateMany (p : network_members -> bool)
  (f : network_members -> network_members) (ev : MemberWrite) : M nat :=
  d <- getDB ;;
  modifyDB (with_members (updateMany p f)) ;;;
  emit (EvMemberWrite ev) ;;;
  ret (count_rows p (tbl_network_members d)).

(** [network_members.create]: the unique key [id_nwid] refuses a second row,
    and [connect] needs the network row. *)
Definition members_create (r : network_members) (ev : MemberWrite) : M unit :=
  d <- getDB ;;
  if is_some (findFirst (has_key (nm_id r) (nm_nwid r)) (tbl_network_members d))
  then throw (PrismaError "Unique constraint failed on the fields: (id,nwid)")
  else if is_some (findFirst (fun n => nw_nwid n =? nm_nwid r) (tbl_network d))
  then modifyDB (with_members (fun t => t ++ [r])) ;;;
       emit (EvMemberWrite ev)
  else throw (PrismaError "No network record found for a connect").

(** [network_members.delete({ where: { id_nwid } })]: throws when the row is
    missing. *)
Definition members_delete (i n : string) (ev : MemberWrite) : M unit :=
  d <- getDB ;;
  match findFirst (has_key i n) (tbl_network_members d) with
  | None => throw (PrismaError "Record to delete does not exist")
  | Some _ =>
      modifyDB (with_members (deleteMany (has_key i n))) ;;;
      emit (EvMemberWrite ev)
  end.

Definition network_findUnique (n : string) : M (option network) :=
  d <- getDB ;; ret (findFirst (fun r => nw_nwid r =? n) (tbl_network d)).

Definition userOptions_findFirst (userId : string) : M (option UserOptions) :=
  d <- getDB ;;
  ret (findFirst (fun r => uo_userId r =? userId) (tbl_userOptions d)).

Definition organizationSettings_findUnique (organizationId : string)
  : M (option OrganizationSettings) :=
  d <- getDB ;;
  ret (findFirst (fun r => os_organizationId r =? organizationId)
         (tbl_organizationSettings d)).

(** [organizationSettings.upsert({ where, update: {}, create: { organizationId } })]:
    the row as it is, or a new row with the schema defaults. *)
Definition organizationSettings_upsert (organizationId : string)
  : M OrganizationSettings :=
  o <- organizationSettings_findUnique organizationId ;;
  match o with
  | Some r => ret r
  | None =>
      let r := mk_orgSettings organizationId false in
      modifyDB (with_organizationSettings (fun t => t ++ [r])) ;;;
      ret r
  end.

(** [userOptions?.renameNodeGlobally || false] and the like. *)
Definition opt_flag {A : Type} (f : A -> bool) (o : option A) : bool :=
  match o with
  | Some r => f r
  | None => false
  end.

(** ** create *)

Definition is_hex_digit (c : Ascii.ascii) : bool :=
  let n := Ascii.nat_of_ascii c in
  (((48 <=? n) && (n <=? 57)) || ((97 <=? n) && (n <=? 102))
   || ((65 <=? n) && (n <=? 70)))%nat.

(** [/^[0-9a-fA-F]{10}$/.test(id)] *)
Definition isValidZeroTierNetworkId (id : string) : bool :=
  (String.length id =? 10)%nat && forallb is_hex_digit (list_ascii_of_string id).

(** [if (input.organizationId)]: an organization id that is present and not
    the empty string. *)
Definition given (organizationId : option string) : option string :=
  match organizationId with
  | Some o => if o =? "" then None else Some o
  | None => None
  end.

Record CreateInput := mk_createInput {
  ci_organizationId : option string;
  ci_id : string;
  ci_nwid : string;
  ci_central : bool
}.

Inductive CreateResult :=
| CreatedCentral (r : MemberEntity)     (* what the controller answered *)
| Unstashed (m : network_members)       (* the row that was already there *)
| CreatedNew.                           (* the handler returns undefined *)

(** The [where] clauses of the global-name lookups. *)
Definition personal_scope (userId : string) (n : network) : bool :=
  opt_string_eqb (nw_authorId n) (Some userId)
  && negb (is_some (nw_organizationId n)).

Definition organization_scope (organizationId : string) (n : network) : bool :=
  opt_string_eqb (nw_organizationId n) (Some organizationId).

Definition named_elsewhere (id : string) (scope : network -> bool)
  (exclude : option string) : Where :=
  fun nets m =>
    (nm_id m =? id) && negb (nm_deleted m) && nwid_ref nets scope m
    && match exclude with
       | Some nwid => negb (nm_nwid m =? nwid)
       | None => true
       end
    && is_some (nm_name m).

(** [if (existingMember?.name) memberName = existingMember.name] *)
Definition take_name (existingMember : option network_members)
  (memberName : option string) : option string :=
  match existingMember with
  | Some r => if truthy (nm_name r) then nm_name r else memberName
  | None => memberName
  end.

(** The organization admin e-mail of create, inside its own try/catch. *)
Definition notify_node_added (organizationId : option string)
  (id nwid : string) (memberName : option string) : M unit :=
  match given organizationId with
  | Some org =>
      try_catch
        (network <- network_findUnique nwid ;;
         sendOrganizationAdminNotification
           (mk_notification org NODE_ADDED None nwid
              (or_else (match network with
                        | Some n => nw_name n
                        | None => None
                        end) nwid)
              id (or_else memberName id)))
        (fun _ => console "Failed to send node added notification:")
  | None => ret tt
  end.

(** The name a row gets from the global-naming option, looked up in the other
    networks of the same owner; [memberName] when there is none. *)
Definition global_name (u : SessionUser) (organizationId : option string)
  (id : string) (exclude : option string) (memberName : option string)
  : M (option string) :=
  match given organizationId with
  | None =>
      existingMember <-
        members_findFirst
          (named_elsewhere id (personal_scope (user_id u)) exclude) ;;
      ret (take_name existingMember memberName)
  | Some org =>
      organizationOptions <- organizationSettings_findUnique org ;;
      if opt_flag os_renameNodeGlobally organizationOptions
      then
        existingMember <-
          members_findFirst
            (named_elsewhere id (organization_scope org) exclude) ;;
        ret (take_name existingMember memberName)
      else ret memberName
  end.

Definition create (u : SessionUser) (input : CreateInput) : M CreateResult :=
  let id := ci_id input in
  let nwid := ci_nwid input in
  if negb (isValidZeroTierNetworkId id)
  then throw (TRPCError BAD_REQUEST "Invalid ZeroTier network id provided.")
  else
  match given (ci_organizationId input) with
  | Some org => checkUserOrganizationRole u org USER
  | None => ret tt
  end ;;;
  activityLog_create (LogCreated id nwid) u (given (ci_organizationId input)) ;;;
  if ci_central input
  then
    r <- member_update nwid id true (Hidden false) ;;
    ret (CreatedCentral r)
  else
  member <- members_findUnique id nwid ;;
  match member with
  | Some member =>
      userOptions <- userOptions_findFirst (user_id u) ;;
      memberName <-
        (if opt_flag uo_renameNodeGlobally userOptions
         then global_name u (ci_organizationId input) id (Some nwid)
                (nm_name member)
         else if opt_flag uo_addMemberIdAsName userOptions
         then ret (Some id)
         else ret (nm_name member)) ;;
      updatedMember <-
        members_update id nwid
          (fun r => set_name memberName
                      (set_permanentlyDeleted false (set_deleted false r)))
          (WUnstash id nwid) ;;
      notify_node_added (ci_organizationId input) id nwid memberName ;;;
      ret (Unstashed updatedMember)
  | None =>
      webhook_or_throw
      (NETWORK_JOIN (ci_organizationId input) id nwid) ;;;
      userOptions <- userOptions_findFirst (user_id u) ;;
      memberName <-
        (if opt_flag uo_renameNodeGlobally userOptions
         then global_name u (ci_organizationId input) id None None
         else ret None) ;;
      let memberName :=
        if negb (truthy memberName) && opt_flag uo_addMemberIdAsName userOptions
        then Some id else memberName in
      members_create
        (mk_member id nwid false false false memberName None (Some id))
        (WCreate id nwid) ;;;
      notify_node_added (ci_organizationId input) id nwid memberName ;;;
      ret CreatedNew
  end.

(** ** Update *)

Record UpdateInput := mk_updateInput {
  ui_nwid : string;
  ui_memberId : string;
  ui_central : bool;
  ui_organizationId : option string;
  ui_updateParams : UpdateParams
}.

(** The rows of the other networks that a global rename reaches. *)
Definition other_networks_with_member (memberId nwid : string)
  (scope : network -> bool) : Where :=
  fun nets m =>
    (nm_id m =? memberId) && negb (nm_deleted m)
    && negb (nm_nwid m =? nwid) && nwid_ref nets scope m.

(** The loop over [networksWithMember]: for each other network, first the
    controller, then the store.  The router has this loop twice, once for
    personal networks, where [data] also carries the description, and once for
    organization networks, where it carries the name alone.  The controller
    call gets the whole [updateParams] and no [central]. *)
Definition rename_in_other_networks (memberId : string)
  (updateParams : UpdateParams) (name : string) (with_description : bool)
  (networksWithMember : list network_members) : M unit :=
  for_each networksWithMember
    (fun row =>
       let networkId := nm_nwid row in
       member_update networkId memberId false (Plain updateParams) ;;;
       members_updateMany
         (fun m => (nm_id m =? memberId) && (nm_nwid m =? networkId)
                   && negb (nm_deleted m))
         (fun m =>
            let m' := set_name (Some name) m in
            if with_description
            then opt_apply (up_description updateParams)
                   (fun d => set_description (Some d)) m'
            else m')
         (WRenameOther memberId networkId) ;;;
       ret tt).

(** The filter over [ipAssignments] before the payload is sent. *)
Definition invalidIPs (p : UpdateParams) : list string :=
  match up_ipAssignments p with
  | Some value => filter (fun ip => negb (isValidIP E ip)) value
  | None => []
  end.

(** [databaseUpdateData]: the columns the store keeps. *)
Definition databaseUpdateData (payload updateParams : UpdateParams)
  (m : network_members) : network_members :=
  opt_apply (up_description updateParams) (fun d => set_description (Some d))
    (opt_apply (up_authorized payload) set_authorized
       (opt_apply (up_name payload) (fun n => set_name (Some n)) m)).

(** [Object.keys(databaseUpdateData).length > 0] *)
Definition has_database_fields (payload updateParams : UpdateParams) : bool :=
  is_some (up_name payload) || is_some (up_authorized payload)
  || is_some (up_description updateParams).

(** "Handle global name updates ONLY when global naming is enabled": the
    name goes to the other networks, not to the current one. *)
Definition global_name_update (u : SessionUser) (input : UpdateInput)
  (userOptions : option UserOptions) : M unit :=
  let nwid := ui_nwid input in
  let memberId := ui_memberId input in
  let updateParams := ui_updateParams input in
  match up_name updateParams with
  | Some name =>
      if name =? "" then ret tt
      else
        let shouldUpdateNameGlobally :=
          opt_flag uo_renameNodeGlobally userOptions in
        match given (ui_organizationId input) with
        | None =>
            if shouldUpdateNameGlobally
            then
              networksWithMember <-
                members_findMany
                  (other_networks_with_member memberId nwid
                     (personal_scope (user_id u))) ;;
              rename_in_other_networks memberId updateParams name true
                networksWithMember
            else ret tt
        | Some org =>
            organizationOptions <- organizationSettings_upsert org ;;
            if os_renameNodeGlobally organizationOptions
            then
              networksWithMember <-
                members_findMany
                  (other_networks_with_member memberId nwid
                     (organization_scope org)) ;;
              rename_in_other_networks memberId updateParams name false
                networksWithMember
            else ret tt
        end
  | None => ret tt
  end.

(** "Prepare payload": the copy of [updateParams], refused when one of the
    [ipAssignments] is not an IP address. *)
Definition prepare_payload (updateParams : UpdateParams) : M UpdateParams :=
  if (0 <? List.length (invalidIPs updateParams))%nat
  then throw (TRPCError BAD_REQUEST "Invalid IP addresses provided")
  else ret updateParams.

(** "Update database for non-central networks" *)
Definition update_database (input : UpdateInput) (payload : UpdateParams)
  : M unit :=
  let nwid := ui_nwid input in
  let memberId := ui_memberId input in
  if negb (ui_central input)
  then
    dbMember <- members_findUnique memberId nwid ;;
    match dbMember with
    | Some _ =>
        if has_database_fields payload (ui_updateParams input)
        then
          members_update memberId nwid
            (databaseUpdateData payload (ui_updateParams input))
            (WUpdateFields memberId nwid) ;;;
          ret tt
        else ret tt
    | None => ret tt
    end
  else ret tt.

(** "Send organization admin notification for node (member) authorization
    changes": an e-mail when the node is de-authorized, in its own try/catch. *)
Definition notify_node_deauthorized (u : SessionUser) (input : UpdateInput)
  (payload : UpdateParams) : M unit :=
  let nwid := ui_nwid input in
  let memberId := ui_memberId input in
  match given (ui_organizationId input), up_authorized payload with
  | Some org, Some authorized =>
      try_catch
        (if negb authorized
         then
           network <- network_findUnique nwid ;;
           member <- members_findUnique memberId nwid ;;
           sendOrganizationAdminNotification
             (mk_notification org NODE_DELETED
                (Some (user_email u, user_name u)) nwid
                (or_else (match network with
                          | Some n => nw_name n
                          | None => None
                          end) nwid)
                memberId
                (or_else (match member with
                          | Some r => nm_name r
                          | None => None
                          end)
                   (or_else (up_name payload) memberId)))
         else ret tt)
        (fun _ => ret tt)
  | _, _ => ret tt
  end.

(** The part of Update that handles the network being edited: the payload,
    the controller, the store, the webhook and the e-mail. *)
Definition update_current_network (u : SessionUser) (input : UpdateInput)
  : M MemberEntity :=
  let nwid := ui_nwid input in
  let memberId := ui_memberId input in
  let central := ui_central input in
  let organizationId := ui_organizationId input in
  payload <- prepare_payload (ui_updateParams input) ;;
  let finalUpdateParams := if central then Config payload else Plain payload in
  updatedMember <-
    try_catch
      (member_update nwid memberId central finalUpdateParams)
      (fun _ =>
         throw (TRPCError FORBIDDEN
                  "Member does not exsist in the network, did you add this device manually?")) ;;
  update_database input payload ;;;
  webhook_or_throw
    (MEMBER_CONFIG_CHANGED organizationId memberId (user_id u)
       (user_email u) nwid (ChangedPayload payload)) ;;;
  notify_node_deauthorized u input payload ;;;
  ret updatedMember.

Definition Update (u : SessionUser) (input : UpdateInput) : M MemberEntity :=
  match given (ui_organizationId input) with
  | Some org => checkUserOrganizationRole u org USER
  | None => ret tt
  end ;;;
  activityLog_create
    (LogUpdated (ui_memberId input) (ui_nwid input) (ui_updateParams input)) u
    (given (ui_organizationId input)) ;;;
  userOptions <- userOptions_findFirst (user_id u) ;;
  global_name_update u input userOptions ;;;
  update_current_network u input.

(** ** UpdateDatabaseOnly *)

Record DbOnlyInput := mk_dbOnlyInput {
  di_nwid : string;
  di_id : string;
  di_organizationId : option string;
  di_updateParams : DbOnlyParams
}.

(** [network.update] with a nested [networkMembers.update]: both the network
    row and the member row must be there. *)
Definition UpdateDatabaseOnly (u : SessionUser) (input : DbOnlyInput)
  : M (option network_members) :=
  let nwid := di_nwid input in
  let id := di_id input in
  match given (di_organizationId input) with
  | Some org => checkUserOrganizationRole u org USER
  | None => ret tt
  end ;;;
  activityLog_create (LogUpdatedDbOnly id nwid (di_updateParams input)) u
    (given (di_organizationId input)) ;;;
  network <- network_findUnique nwid ;;
  response <-
    match network with
    | None => throw (PrismaError "Record to update not found")
    | Some _ =>
        members_update id nwid
          (fun m =>
             opt_apply (dp_description (di_updateParams input))
               (fun d => set_description (Some d))
               (opt_apply (dp_deleted (di_updateParams input)) set_deleted m))
          (WDbOnly id nwid) ;;;
        (* include: { networkMembers: { where: { id } } }, then [0] *)
        members_findFirst (fun _ m => (nm_nwid m =? nwid) && (nm_id m =? id))
    end ;;
  webhook_or_throw
      (MEMBER_CONFIG_CHANGED (di_organizationId input) id (user_id u)
          (user_email u) nwid (ChangedDbOnly (di_updateParams input))) ;;;
  ret response.

(** ** stash *)

Record StashInput := mk_stashInput {
  si_organizationId : option string;
  si_nwid : string;
  si_id : string
}.

Definition deauthorize : UpdateParams :=
  mk_updateParams None None None None (Some []) (Some false) (Some []) (Some []).

Definition stash (u : SessionUser) (input : StashInput)
  : M (option MemberEntity) :=
  let nwid := si_nwid input in
  let id := si_id input in
  match given (si_organizationId input) with
  | Some org => checkUserOrganizationRole u org USER
  | None => ret tt
  end ;;;
  activityLog_create (LogStashed id nwid) u (given (si_organizationId input)) ;;;
  (* the member is de-authorized before it is marked deleted; the try/catch
     covers a member that is in the store but not on the controller *)
  response <-
    try_catch
      (r <- Update u (mk_updateInput nwid id false (si_organizationId input)
                        deauthorize) ;;
       ret (Some r))
      (fun _ => console "error" ;;; ret None) ;;
  (* network.update({ where: { nwid }, data: { networkMembers: { updateMany } } })
     with its own .catch *)
  try_catch
    (network <- network_findUnique nwid ;;
     match network with
     | None => throw (PrismaError "Record to update not found")
     | Some n =>
         members_updateMany
           (fun m => (nm_nwid m =? nw_nwid n) && (nm_id m =? id)
                     && (nm_nwid m =? nwid))
           (set_deleted true) (WStash id nwid) ;;;
         ret tt
     end)
    (fun err => console (exn_message err)) ;;;
  webhook_or_throw
      (MEMBER_CONFIG_CHANGED (si_organizationId input) id (user_id u)
          (user_email u) nwid ChangedStashed) ;;;
  ret response.

(** ** delete *)

Record DeleteInput := mk_deleteInput {
  de_organizationId : option string;
  de_central : bool;
  de_nwid : string;
  de_id : string
}.

Inductive DeleteResult :=
| DeletedTrue          (* { deleted: true } *)
| DeletedRow.          (* the regular path returns undefined *)

(** The organization admin e-mail of delete, inside its own try/catch. *)
Definition notify_permanently_deleted (organizationId : option string)
  (id nwid : string) (nodeName : M (option string)) : M unit :=
  match given organizationId with
  | Some org =>
      try_catch
        (network <- network_findUnique nwid ;;
         name <- nodeName ;;
         sendOrganizationAdminNotification
           (mk_notification org NODE_PERMANENTLY_DELETED None nwid
              (or_else (match network with
                        | Some n => nw_name n
                        | None => None
                        end) nwid)
              id (or_else name id)))
        (fun _ =>
           console "Failed to send node permanently deleted notification:")
  | None => ret tt
  end.

Definition delete (u : SessionUser) (input : DeleteInput) : M DeleteResult :=
  let nwid := de_nwid input in
  let id := de_id input in
  match given (de_organizationId input) with
  | Some org => checkUserOrganizationRole u org USER
  | None => ret tt
  end ;;;
  activityLog_create (LogDeleted id nwid) u (given (de_organizationId input)) ;;;
  (* is the member already stashed (deleted = true) in the store? *)
  existingMember <- members_findFirst (fun _ => has_key id nwid) ;;
  (* if not, it is removed from the controller first *)
  (if negb (opt_flag nm_deleted existingMember)
   then member_delete nwid id (de_central input)
   else ret tt) ;;;
  if de_central input then ret DeletedTrue
  else if opt_flag nm_deleted existingMember
  then
    (* already stashed: kept in the store, marked permanently deleted *)
    members_update id nwid (set_permanentlyDeleted true)
      (WPermanentlyDelete id nwid) ;;;
    notify_permanently_deleted (de_organizationId input) id nwid
      (member <- members_findFirst (fun _ => has_key id nwid) ;;
       ret (match member with
            | Some r => nm_name r
            | None => None
            end)) ;;;
    ret DeletedTrue
  else
    (* regular deletion: the row is removed *)
    members_delete id nwid (WDelete id nwid) ;;;
    notify_permanently_deleted (de_organizationId input) id nwid
      (ret (match existingMember with
            | Some r => nm_name r
            | None => None
            end)) ;;;
    webhook_or_throw
      (MEMBER_DELETED (de_organizationId input) id (user_id u)
            (user_email u) nwid) ;;;
    ret DeletedRow.

(** ** bulkDeleteStashed *)

Record BulkInput := mk_bulkInput {
  bi_nwid : string;
  bi_organizationId : option string
}.

Record BulkResult := mk_bulkResult {
  deletedCount : nat;
  message : string
}.

Definition show_nat (n : nat) : string :=
  NilEmpty.string_of_uint (Nat.to_uint n).

Definition bulkDeleteStashed (u : SessionUser) (input : BulkInput)
  : M BulkResult :=
  let nwid := bi_nwid input in
  let organizationId := bi_organizationId input in
  d <- getDB ;;
  (* the network, with the permission check *)
  network <-
    match given organizationId with
    | Some org =>
        match findFirst
                (fun r => (uor_userId r =? user_id u)
                          && (uor_organizationId r =? org))
                (tbl_userOrganizationRole d) with
        | None =>
            throw (TRPCError UNAUTHORIZED
                     "User is not a member of this organization.")
        | Some _ =>
            ret (findFirst
                   (fun n => (nw_nwid n =? nwid)
                             && opt_string_eqb (nw_organizationId n) (Some org))
                   (tbl_network d))
        end
    | None =>
        ret (findFirst
               (fun n => (nw_nwid n =? nwid)
                         && opt_string_eqb (nw_authorId n) (Some (user_id u)))
               (tbl_network d))
    end ;;
  match network with
  | None => throw (TRPCError NOT_FOUND "Network not found or access denied.")
  | Some _ =>
      (* all members that are stashed (deleted = true) *)
      membersToDelete <-
        members_findMany (fun _ m => (nm_nwid m =? nwid) && nm_deleted m) ;;
      if (List.length membersToDelete =? 0)%nat
      then ret (mk_bulkResult 0 "No stashed members found to delete.")
      else
        let memberIds := map nm_id membersToDelete in
        (* marked permanently deleted instead of removed *)
        count <-
          members_updateMany
            (fun m => (nm_nwid m =? nwid)
                      && existsb (fun i => i =? nm_id m) memberIds
                      && nm_deleted m)
            (set_permanentlyDeleted true)
            (WBulkPermanentlyDelete nwid memberIds) ;;
        activityLog_create (LogBulkDeleted count nwid) u (given organizationId) ;;;
        try_catch
          (sendWebhook
             (MEMBER_DELETED organizationId "bulk" (user_id u) (user_email u)
                nwid))
          (fun _ => console "Failed to send bulk delete webhook:") ;;;
        ret (mk_bulkResult count
               ("Successfully marked " ++ show_nat count
                ++ " stashed members as permanently deleted. They will not reappear as new nodes if they reconnect.")%string)
  end.

(** ** getUserNetworks (network router) *)

Definition get_controller_networks : M CentralNetworks :=
  fun w =>
    match zt_get_controller_networks E (zt w) with
    | inr r => (inr r, w)
    | inl msg => (inl (ExternalError msg), w)
    end.

(** [networkMembers: { select: { id, deleted, authorized } }] *)
Record MemberSelect := mk_select {
  ms_id : string;
  ms_deleted : bool;
  ms_authorized : bool
}.

Record MemberCounts := mk_counts {
  authorized : nat;
  total : nat;
  display : string
}.

Record NetworkWithMemberCount := mk_networkWithCount {
  nwc_network : network;
  networkMembers : list MemberSelect;
  memberCounts : MemberCounts
}.

Inductive UserNetworks :=
| ControllerNetworks (c : CentralNetworks)
| StoreNetworks (networks : list NetworkWithMemberCount).

(** The relation [network.networkMembers]: the member rows of one network. *)
Definition include_networkMembers (d : DB) (n : network) : list MemberSelect :=
  map (fun m => mk_select (nm_id m) (nm_deleted m) (nm_authorized m))
      (findMany (fun m => nm_nwid m =? nw_nwid n) (tbl_network_members d)).

Definition count_members (members : list MemberSelect) : MemberCounts :=
  let authorizedCount :=
    List.length (filter (fun m => ms_authorized m && negb (ms_deleted m)) members) in
  let totalCount :=
    List.length (filter (fun m => negb (ms_deleted m)) members) in
  mk_counts authorizedCount totalCount
    (show_nat authorizedCount ++ " (" ++ show_nat totalCount ++ ")")%string.

Definition getUserNetworks (u : SessionUser) (central : bool) : M UserNetworks :=
  if central
  then r <- get_controller_networks ;; ret (ControllerNetworks r)
  else
    d <- getDB ;;
    let rawNetworks :=
      findMany (fun n => opt_string_eqb (nw_authorId n) (Some (user_id u)))
        (tbl_network d) in
    ret (StoreNetworks
           (map (fun network =>
                   let members := include_networkMembers d network in
                   mk_networkWithCount network members (count_members members))
                rawNetworks)).

End Router.

Arguments mk_externals {Controller CentralNetworks} _ _ _ _ _ _ _.
Arguments zt_member_update {Controller CentralNetworks} e _ _ _ _ _.
Arguments zt_member_delete {Controller CentralNetworks} e _ _ _ _.
Arguments zt_get_controller_networks {Controller CentralNetworks} e _.
Arguments ext_sendWebhook {Controller CentralNetworks} e _.
Arguments ext_sendOrganizationAdminNotification {Controller CentralNetworks} e _.
Arguments ext_checkUserOrganizationRole {Controller CentralNetworks} e _ _ _ _.
Arguments isValidIP {Controller CentralNetworks} e _.
Arguments mk_world {Controller} db zt trace.
Arguments db {Controller} w.
Arguments zt {Controller} w.
Arguments trace {Controller} w.
Arguments ret {Controller A} a _.
Arguments bind {Controller A B} m k _.
Arguments throw {Controller A} e _.
Arguments try_catch {Controller A} m h _.
Arguments when_ {Controller} b m _.
Arguments for_each {Controller A} l body _.
Arguments getDB {Controller} _.
Arguments modifyDB {Controller} f _.
Arguments emit {Controller} e _.
Arguments throwError {Controller A} message _.
Arguments console {Controller} message _.
Arguments activityLog_create {Controller} a u organizationId _.
Arguments members_findFirst {Controller} p _.
Arguments members_findUnique {Controller} i n _.
Arguments members_findMany {Controller} p _.
Arguments members_update {Controller} i n f ev _.
Arguments members_updateMany {Controller} p f ev _.
Arguments members_create {Controller} r ev _.
Arguments members_delete {Controller} i n ev _.
Arguments network_findUnique {Controller} n _.
Arguments userOptions_findFirst {Controller} userId _.
Arguments organizationSettings_findUnique {Controller} organizationId _.
Arguments organizationSettings_upsert {Controller} organizationId _.
Arguments global_name {Controller} u organizationId id exclude memberName _.
Arguments update_database {Controller} input payload _.
Arguments with_sendWebhook {Controller CentralNetworks} f X.
Arguments with_sendOrganizationAdminNotification
  {Controller CentralNetworks} f X.
Arguments member_update {Controller CentralNetworks} E nwid memberId central p _.
Arguments member_delete {Controller CentralNetworks} E nwid memberId central _.
Arguments sendWebhook {Controller CentralNetworks} E h _.
Arguments sendOrganizationAdminNotification {Controller CentralNetworks} E n _.
Arguments webhook_or_throw {Controller CentralNetworks} E h _.
Arguments checkUserOrganizationRole {Controller CentralNetworks}
  E u organizationId minimumRequiredRole _.
Arguments notify_node_added {Controller CentralNetworks}
  E organizationId id nwid memberName _.
Arguments create {Controller CentralNetworks} E u input _.
Arguments rename_in_other_networks {Controller CentralNetworks}
  E memberId updateParams name with_description networksWithMember _.
Arguments invalidIPs {Controller CentralNetworks} E p.
Arguments global_name_update {Controller CentralNetworks} E u input userOptions _.
Arguments prepare_payload {Controller CentralNetworks} E updateParams _.
Arguments notify_node_deauthorized {Controller CentralNetworks}
  E u input payload _.
Arguments update_current_network {Controller CentralNetworks} E u input _.
Arguments Update {Controller CentralNetworks} E u input _.
Arguments UpdateDatabaseOnly {Controller CentralNetworks} E u input _.
Arguments stash {Controller CentralNetworks} E u input _.
Arguments notify_permanently_deleted {Controller CentralNetworks}
  E organizationId id nwid nodeName _.
Arguments delete {Controller CentralNetworks} E u input _.
Arguments bulkDeleteStashed {Controller CentralNetworks} E u input _.
Arguments get_controller_networks {Controller CentralNetworks} E _.
Arguments getUserNetworks {Controller CentralNetworks} E u central _.
Arguments ControllerNetworks {CentralNetworks} c.
Arguments StoreNetworks {CentralNetworks} networks.

(** ** getMemberAnotations and removeMemberAnotations

    The labels of members: [Notation] rows, and the join table
    [NetworkMemberNotation] whose key is (notationId, nodeid).  The two
    tables are passed along with the world. *)

Record Notation := mk_notation {
  nt_id : Z;
  nt_name : string;
  nt_color : option string;
  nt_nwid : string
}.

Record NetworkMemberNotation := mk_memberNotation {
  nmn_notationId : Z;
  nmn_nodeid : Z
}.

Record Annotations := mk_annotations {
  tbl_networkMemberNotation : list NetworkMemberNotation;
  tbl_notation : list Notation
}.

Definition notationId_nodeid (notationId nodeid : Z)
  (l : NetworkMemberNotation) : bool :=
  (nmn_notationId l =? notationId)%Z && (nmn_nodeid l =? nodeid)%Z.


Record RemoveAnotationInput := mk_removeAnotationInput {
  ra_organizationId : option string;
  ra_notationId : Z;
  ra_nodeid : Z
}.

Definition removeMemberAnotations {Controller CentralNetworks : Type}
  (E : Externals Controller CentralNetworks) (u : SessionUser)
  (input : RemoveAnotationInput) (a : Annotations) (w : World Controller)
  : (Exn + unit) * (Annotations * World Controller) :=
  let notationId := ra_notationId input in
  let nodeid := ra_nodeid input in
  match bind
          (match given (ra_organizationId input) with
           | Some org => checkUserOrganizationRole E u org USER
           | None => ret tt
           end)
          (fun _ =>
             activityLog_create (LogRemovedNotation notationId nodeid) u
               (given (ra_organizationId input))) w with
  | (inl e, w1) => (inl e, (a, w1))
  | (inr _, w1) =>
      (* networkMemberNotation.delete({ where: { notationId_nodeid } }) *)
      if is_some (findFirst (notationId_nodeid notationId nodeid)
                    (tbl_networkMemberNotation a))
      then
        let links :=
          deleteMany (notationId_nodeid notationId nodeid)
            (tbl_networkMemberNotation a) in
        (* is the notation still used by any other member? *)
        let otherNotations :=
          findMany (fun l => (nmn_notationId l =? notationId)%Z) links in
        if (List.length otherNotations =? 0)%nat
        then
          (* notation.delete({ where: { id } }) *)
          if is_some (findFirst (fun n => (nt_id n =? notationId)%Z)
                        (tbl_notation a))
          then
            (inr tt,
             (mk_annotations links
                (deleteMany (fun n => (nt_id n =? notationId)%Z)
                   (tbl_notation a)), w1))
          else
            (inl (PrismaError "Record to delete does not exist"),
             (mk_annotations links (tbl_notation a), w1))
        else (inr tt, (mk_annotations links (tbl_notation a), w1))
      else (inl (PrismaError "Record to delete does not exist"), (a, w1))
  end.

(** ** getNetworkById (network router): the member merge

    The part of the query between the fetch of [allDatabaseMembers] and the
    copy of [mergedMembersMap] into [mergedMembers].  Its two inputs are the
    store and [membersWithStatusAndPeers], the controller's members as
    [syncMemberPeersAndStatus] returned them. *)

(** A value of [mergedMembersMap]. *)
Inductive MergedMember :=
| Merged (controllerMember : MemberEntity) (member : network_members)
    (* { ...controllerMember, ...member }: the store's fields win *)
| DatabaseOnly (member : network_members)
| ControllerOnly (member : MemberEntity).

(** [Map.prototype.set]: a key already present keeps its place. *)
Fixpoint map_set {V : Type} (k : string) (v : V) (m : list (string * V))
  : list (string * V) :=
  match m with
  | [] => [(k, v)]
  | (k', v') :: rest =>
      if k' =? k then (k, v) :: rest else (k', v') :: map_set k v rest
  end.

Definition map_values {V : Type} (m : list (string * V)) : list V :=
  map snd m.

Definition allDatabaseMembers (d : DB) (nwid : string) : list network_members :=
  findMany (fun m => nm_nwid m =? nwid) (tbl_network_members d).

Definition zombieMembers (d : DB) (nwid : string) : list network_members :=
  filter (fun member => nm_deleted member && negb (nm_permanentlyDeleted member))
    (allDatabaseMembers d nwid).

Definition permanentlyDeletedMemberIds (d : DB) (nwid : string) : list string :=
  map nm_id
    (findMany (fun m => (nm_nwid m =? nwid) && nm_permanentlyDeleted m)
       (tbl_network_members d)).

(** The first loop: the store's members. *)
Definition add_database_member (membersWithStatusAndPeers : list MemberEntity)
  (mergedMembersMap : list (string * MergedMember)) (member : network_members)
  : list (string * MergedMember) :=
  let controllerMember :=
    find (fun m => me_id m =? nm_id member) membersWithStatusAndPeers in
  match controllerMember with
  | Some c =>
      if negb (nm_deleted member)
      then map_set (nm_id member) (Merged c member) mergedMembersMap
      else mergedMembersMap
  | None =>
      if negb (nm_deleted member)
      then map_set (nm_id member) (DatabaseOnly member) mergedMembersMap
      else mergedMembersMap
  end.

(** The second loop: the controller's members that the store does not have. *)
Definition add_controller_member (all : list network_members)
  (permanentlyDeleted : list string)
  (mergedMembersMap : list (string * MergedMember)) (member : MemberEntity)
  : list (string * MergedMember) :=
  if negb (existsb (fun dbMember => nm_id dbMember =? me_id member) all)
  then
    if negb (existsb (fun i => i =? me_id member) permanentlyDeleted)
    then map_set (me_id member) (ControllerOnly member) mergedMembersMap
    else mergedMembersMap
  else mergedMembersMap.

Definition mergedMembers (d : DB) (nwid : string)
  (membersWithStatusAndPeers : list MemberEntity) : list MergedMember :=
  let all := allDatabaseMembers d nwid in
  let map1 :=
    fold_left (add_database_member membersWithStatusAndPeers) all [] in
  let map2 :=
    fold_left (add_controller_member all (permanentlyDeletedMemberIds d nwid))
      membersWithStatusAndPeers map1 in
  map_values map2.

(** The store row behind a merged member, when it has one. *)
Definition database_row (m : MergedMember) : option network_members :=
  match m with
  | Merged _ member => Some member
  | DatabaseOnly member => Some member
  | ControllerOnly _ => None
  end.

Definition merged_id (m : MergedMember) : string :=
  match m with
  | Merged _ member => nm_id member
  | DatabaseOnly member => nm_id member
  | ControllerOnly member => me_id member
  end.

(** ** getNetworkById (network router): the routes

    The comparison that decides whether the store's routes are synchronised
    with the controller's, and the list of duplicated targets.  A route is
    keyed by its target and its gateway. *)

Record RoutesEntity := mk_route {
  rt_target : string;
  rt_via : option string
}.

(** [new Set(values)]: each value once, in the order of first insertion. *)
Definition set_has (s : list string) (k : string) : bool :=
  existsb (fun x => x =? k) s.

Definition set_add (s : list string) (k : string) : list string :=
  if set_has s k then s else s ++ [k].

Definition new_Set (values : list string) : list string :=
  fold_left set_add values [].

(** The key of a route: [target|via], with null for a gateway that is
    missing or empty. *)
Definition route_key (r : RoutesEntity) : string :=
  (rt_target r ++ "|" ++ or_else (rt_via r) "null")%string.

(** [routes?.map(...) || []] *)
Definition route_keys (routes : option (list RoutesEntity)) : list string :=
  match routes with
  | Some rs => map route_key rs
  | None => []
  end.

Definition routesAreDifferent (databaseRoutes controllerRoutes
  : option (list RoutesEntity)) : bool :=
  let dbRouteKeys := new_Set (route_keys databaseRoutes) in
  let ztRouteKeys := new_Set (route_keys controllerRoutes) in
  negb (List.length dbRouteKeys =? List.length ztRouteKeys)%nat
  || negb (forallb (fun key => set_has ztRouteKeys key) dbRouteKeys).

(** A row of the duplicate-routes query: another network of the user and the
    routes of it that the query matched. *)
Record DuplicateRoutes := mk_duplicateRoutes {
  dr_authorId : string;
  dr_name : string;
  dr_routes : list RoutesEntity
}.

Definition uniqueDuplicatedIPs (targetIPs : list string)
  (duplicateRoutes : list DuplicateRoutes) : list string :=
  let duplicatedIPs :=
    flat_map
      (fun network =>
         map rt_target
           (filter (fun route => existsb (fun ip => ip =? rt_target route)
                                   targetIPs)
              (dr_routes network)))
      duplicateRoutes in
  new_Set duplicatedIPs.

(** ** A concrete installation, for the examples *)

Module Example.

(** Modelled from the spec: the controller keeps the (network, member) pairs
    it knows; [updateMember] and [deleteMember] are keyed by network
    identifier and member identifier and fail for a member the controller
    does not have. *)
Definition Ctrl : Type := list (string * string).

Definition knows (c : Ctrl) (nwid memberId : string) : bool :=
  existsb (fun p => (fst p =? nwid) && (snd p =? memberId)) c.

Definition ctrl_update (c : Ctrl) (nwid memberId : string) (central : bool)
  (p : CtrlParams) : (string + MemberEntity) * Ctrl :=
  if knows c nwid memberId
  then (inr (mk_entity memberId
               (match p with
                | Plain q | Config q =>
                    match up_authorized q with Some b => b | None => true end
                | Hidden _ => true
                end) [] [] [] None true), c)
  else (inl "404 member not found", c).

Definition ctrl_delete (c : Ctrl) (nwid memberId : string) (central : bool)
  : (string + unit) * Ctrl :=
  if knows c nwid memberId
  then (inr tt,
        filter (fun p => negb ((fst p =? nwid) && (snd p =? memberId))) c)
  else (inl "404 member not found", c).

(** A stand-in for the IP syntax check: digits, hex letters, dots and colons,
    at least one character. *)
Definition ip_char (c : Ascii.ascii) : bool :=
  is_hex_digit c || (Ascii.nat_of_ascii c =? 46)%nat
  || (Ascii.nat_of_ascii c =? 58)%nat.

Definition looks_like_ip (s : string) : bool :=
  negb (s =? "") && forallb ip_char (list_ascii_of_string s).

(** The role check against the role table: the user has a role in the
    organization, and it is not read-only when USER is asked for. *)
Definition has_role (u : SessionUser) (organizationId : string) (r : Role)
  (roles : list UserOrganizationRole) : bool :=
  match findFirst (fun x => (uor_userId x =? user_id u)
                            && (uor_organizationId x =? organizationId)) roles with
  | Some x =>
      match r, uor_role x with
      | READ_ONLY, _ => true
      | USER, READ_ONLY => false
      | USER, _ => true
      | ADMIN, ADMIN => true
      | ADMIN, _ => false
      end
  | None => false
  end.

(** The installation: whether webhooks are delivered and whether the e-mail
    goes out are the two switches. *)
Definition externals (webhooks_up mail_up : bool) : Externals Ctrl unit :=
  mk_externals ctrl_update ctrl_delete (fun _ => inr tt)
    (fun _ => if webhooks_up then None else Some "webhook endpoint unreachable")
    (fun _ => if mail_up then None else Some "Email is not configured!")
    has_role looks_like_ip.

Definition alice : SessionUser := mk_user "alice" "alice@example.org" "Alice".

Definition member (id nwid : string) (deleted permanentlyDeleted : bool)
  (name : string) : network_members :=
  mk_member id nwid true deleted permanentlyDeleted (Some name) None (Some id).

Definition personal_network (nwid : string) : network :=
  mk_network nwid (Some nwid) (Some "alice") None.

Definition org_network (nwid org : string) : network :=
  mk_network nwid (Some nwid) (Some "alice") (Some org).

Definition store (members : list network_members) (global_naming : bool) : DB :=
  mk_DB members
    [personal_network "N1"; personal_network "N2"; org_network "N3" "acme"]
    [mk_userOptions "alice" global_naming false]
    [mk_orgSettings "acme" false]
    [mk_userOrgRole "alice" "acme" ADMIN]
    [].

Definition world (members : list network_members) (global_naming : bool)
  (c : Ctrl) : World Ctrl :=
  mk_world (store members global_naming) c [].

(** A laptop that has joined two personal networks of Alice and one network
    of the organization, known to the controller in all three. *)
Definition laptop : string := "a1b2c3d4e5".

Definition controller : Ctrl := [("N1", laptop); ("N2", laptop); ("N3", laptop)].

Definition home (global_naming : bool) : World Ctrl :=
  world [member laptop "N1" false false "laptop";
         member laptop "N2" false false "laptop";
         member laptop "N3" false false "laptop"]
    global_naming controller.

(** The same store in front of a controller that has lost the laptop. *)
Definition forgotten : World Ctrl :=
  world [member laptop "N1" false false "laptop"] false [].

(** The laptop's rows with global naming on, in front of a controller that
    has lost the laptop in N2. *)
Definition unplugged : World Ctrl :=
  mk_world (db (home true)) [("N1", laptop); ("N3", laptop)] [].

(** The laptop stashed in N1, then deleted: its row is permanently deleted. *)
Definition stashed (global_naming : bool) : World Ctrl :=
  snd (stash (externals true true) alice (mk_stashInput None "N1" laptop)
         (home global_naming)).

Definition gone (global_naming : bool) : World Ctrl :=
  snd (delete (externals true true) alice
         (mk_deleteInput None false "N1" laptop) (stashed global_naming)).

(** Then shown again through UpdateDatabaseOnly with [{ deleted: false }]:
    the row is not flagged deleted and still permanently deleted. *)
Definition shown_again : World Ctrl :=
  snd (UpdateDatabaseOnly (externals true true) alice
         (mk_dbOnlyInput "N1" laptop None (mk_dbOnlyParams (Some false) None))
         (gone false)).

Definition rename (nwid name : string) (ips : option (list string))
  : UpdateInput :=
  mk_updateInput nwid laptop false None
    (mk_updateParams (Some name) None None None ips None None None).

Definition reported : list MemberEntity :=
  [mk_entity laptop true [] [] [] None true;
   mk_entity "ffffffffff" false [] [] [] None true].

(** A stranger to Alice's networks. *)
Definition bob : SessionUser := mk_user "bob" "bob@example.org" "Bob".

(** The controller knows a device in N1 that the store has no row for. *)
Definition newcomer : string := "00000000aa".

Definition joined : World Ctrl :=
  mk_world (db (home false)) [("N1", newcomer)] [].

(** Two notations: the first on two members, the second on one. *)
Definition labels : Annotations :=
  mk_annotations
    [mk_memberNotation 1 10; mk_memberNotation 1 11; mk_memberNotation 2 10]
    [mk_notation 1 "servers" None "N1"; mk_notation 2 "lab" None "N1"].

(** The laptop's row in a network, with the given flags. *)
Definition laptop_row (nwid : string) (authorized deleted permanentlyDeleted : bool)
  : network_members :=
  mk_member laptop nwid authorized deleted permanentlyDeleted (Some "laptop")
    None (Some laptop).

End Example.

(** * Statements *)

(** What [memberCounts] is said to be for a network of the answer, when the
    rows that satisfy [hidden] are the ones not to be counted. *)
Definition memberCounts_of (hidden : network_members -> bool) (d : DB)
  (n : NetworkWithMemberCount) : Prop :=
  let rows :=
    findMany (fun m => nm_nwid m =? nw_nwid (nwc_network n))
      (tbl_network_members d) in
  let shown := filter (fun m => negb (hidden m)) rows in
  authorized (memberCounts n)
    = count_rows (fun m => nm_authorized m && negb (nm_deleted m)) rows
  /\ total (memberCounts n) = count_rows (fun m => negb (nm_deleted m)) rows
  /\ display (memberCounts n)
     = (show_nat (authorized (memberCounts n)) ++ " ("
        ++ show_nat (total (memberCounts n)) ++ ")")%string
  /\ authorized (memberCounts n) <= total (memberCounts n)
  /\ authorized (memberCounts n)
     = count_rows (fun m => nm_authorized m && negb (nm_deleted m)) shown
  /\ total (memberCounts n) = count_rows (fun m => negb (nm_deleted m)) shown.


(** The role check of a procedure passes: the call is made for no
    organization, or the session user has the USER role in it. *)
Definition role_ok {Controller CentralNetworks : Type}
  (E : Externals Controller CentralNetworks) (u : SessionUser)
  (organizationId : option string) (d : DB) : Prop :=
  match given organizationId with
  | Some org =>
      ext_checkUserOrganizationRole E u org USER (tbl_userOrganizationRole d)
      = true
  | None => True
  end.

(** bulkDeleteStashed finds the network with the caller's permission: for an
    organization call the user has a role in the organization and the network
    belongs to it, for a personal call the user is the author. *)
Definition may_bulk_delete (u : SessionUser) (input : BulkInput) (d : DB)
  : Prop :=
  match given (bi_organizationId input) with
  | Some org =>
      (exists role,
          findFirst (fun r => (uor_userId r =? user_id u)
                              && (uor_organizationId r =? org))
            (tbl_userOrganizationRole d) = Some role)
      /\ exists n,
          findFirst (fun n => (nw_nwid n =? bi_nwid input)
                              && opt_string_eqb (nw_organizationId n) (Some org))
            (tbl_network d) = Some n
  | None =>
      exists n,
        findFirst (fun n => (nw_nwid n =? bi_nwid input)
                            && opt_string_eqb (nw_authorId n) (Some (user_id u)))
          (tbl_network d) = Some n
  end.

(** The STASHED -> PERMANENTLY_DELETED transition on one row of network
    [nwid]; any other row is left as it is. *)
Definition permanently_delete_if_stashed (nwid : string) (m : network_members)
  : network_members :=
  if (nm_nwid m =? nwid) && nm_deleted m
  then set_permanentlyDeleted true m
  else m.

(** The ACTIVE state of a row: neither stashed nor permanently deleted. *)
Definition is_active (r : network_members) : bool :=
  negb (nm_deleted r) && negb (nm_permanentlyDeleted r).

(** From table [t] to table [t'] no row came back to ACTIVE: a row of [t]
    that is not active is, under its key, either gone from [t'] or still not
    active there, and still permanently deleted if it was. *)
Definition never_reactivated (t t' : list network_members) : Prop :=
  forall i n r,
    findFirst (has_key i n) t = Some r ->
    is_active r = false ->
    match findFirst (has_key i n) t' with
    | Some r' =>
        is_active r' = false
        /\ (nm_permanentlyDeleted r = true -> nm_permanentlyDeleted r' = true)
    | None => True
    end.

(** In network [nwid] every permanently deleted row is also flagged deleted:
    the state in which delete and bulkDeleteStashed, which set
    [permanentlyDeleted] on stashed rows only, leave a row. *)
Definition permanentlyDeleted_rows_are_stashed (d : DB) (nwid : string) : Prop :=
  forall r,
    In r (tbl_network_members d) ->
    nm_nwid r = nwid ->
    nm_permanentlyDeleted r = true ->
    nm_deleted r = true.

(** The global-naming setting that governs an Update call: the
    organization's for a call made for an organization, the session user's
    otherwise. *)
Definition global_naming (u : SessionUser) (input : UpdateInput) (d : DB)
  : bool :=
  match given (ui_organizationId input) with
  | Some org =>
      opt_flag os_renameNodeGlobally
        (findFirst (fun r => os_organizationId r =? org)
           (tbl_organizationSettings d))
  | None =>
      opt_flag uo_renameNodeGlobally
        (findFirst (fun r => uo_userId r =? user_id u) (tbl_userOptions d))
  end.

(** The ownership scope of an Update call: the networks of the organization,
    or the session user's networks that belong to no organization. *)
Definition ownership_scope (u : SessionUser) (input : UpdateInput)
  : network -> bool :=
  match given (ui_organizationId input) with
  | Some org => organization_scope org
  | None => personal_scope (user_id u)
  end.

(** The rows a global rename reaches: same member identifier, not stashed, in
    another network of the scope. *)
Definition renamed_elsewhere (u : SessionUser) (input : UpdateInput) (d : DB)
  : network_members -> bool :=
  other_networks_with_member (ui_memberId input) (ui_nwid input)
    (ownership_scope u input) (tbl_network d).

(** What the rename writes on a row: the name, and with it the description
    when the call is a personal one and carries a description. *)
Definition rename_row (name : string) (updateParams : UpdateParams)
  (with_description : bool) (m : network_members) : network_members :=
  if with_description
  then opt_apply (up_description updateParams)
         (fun d => set_description (Some d)) (set_name (Some name) m)
  else set_name (Some name) m.

Definition renamed_as (input : UpdateInput) (name : string)
  : network_members -> network_members :=
  rename_row name (ui_updateParams input)
    (negb (is_some (given (ui_organizationId input)))).

(** One turn of the loop over the other networks, seen from a row [m] of the
    table: [row] is the row of [networksWithMember] being handled. *)
Definition rename_hit (memberId : string) (m row : network_members) : bool :=
  (nm_id m =? memberId) && (nm_nwid m =? nm_nwid row) && negb (nm_deleted m).

Definition rename_step (memberId name : string) (updateParams : UpdateParams)
  (with_description : bool) (m row : network_members) : network_members :=
  if rename_hit memberId m row
  then rename_row name updateParams with_description m
  else m.

Definition rename_events (memberId : string) (updateParams : UpdateParams)
  (row : network_members) : list Event :=
  [EvControllerUpdate (nm_nwid row) memberId false (Plain updateParams) true;
   EvMemberWrite (WRenameOther memberId (nm_nwid row))].

(** An outward effect that concerns network [nwid] or no network at all. *)
Definition touches_only (nwid : string) (e : Event) : Prop :=
  match e with
  | EvControllerUpdate n _ _ _ _ => n = nwid
  | EvControllerDelete n _ _ _ => n = nwid
  | EvMemberWrite (WRenameOther _ _) => False
  | EvMemberWrite (WUpdateFields _ n) => n = nwid
  | _ => True
  end.

(** The controller accepts the updates of the fan-out: the update of member
    [memberId] with payload [p] in each network of [nwids] in turn, the first
    in controller state [c] and each later one in the state the one before
    it left. *)
Fixpoint accepts_fan_out {Controller CentralNetworks : Type}
  (E : Externals Controller CentralNetworks) (memberId : string)
  (p : UpdateParams) (nwids : list string) (c : Controller) : bool :=
  match nwids with
  | [] => true
  | nwid :: rest =>
      match zt_member_update E c nwid memberId false (Plain p) with
      | (inr _, c') => accepts_fan_out E memberId p rest c'
      | (inl _, _) => false
      end
  end.

(** A rewrite of rows that keeps keys and never clears a flag that is set. *)
Definition keeps_inactive (f : network_members -> network_members) : Prop :=
  forall r,
    (nm_id (f r) = nm_id r /\ nm_nwid (f r) = nm_nwid r)
    /\ (is_active r = false -> is_active (f r) = false)
    /\ (nm_permanentlyDeleted r = true -> nm_permanentlyDeleted (f r) = true).

(** Two worlds with the same store and the same controller; their traces may
    differ. *)
Definition same_state {Controller : Type} (w1 w2 : World Controller) : Prop :=
  db w1 = db w2 /\ zt w1 = zt w2.

(** Two computations that, from worlds in the same state, end with the same
    answer in worlds in the same state. *)
Definition agree {Controller A : Type} (m1 m2 : M Controller A) : Prop :=
  forall w1 w2,
    same_state w1 w2 ->
    fst (m1 w1) = fst (m2 w2) /\ same_state (snd (m1 w1)) (snd (m2 w2)).


(** A computation that writes neither the store nor the controller. *)
Definition quiet {Controller A : Type} (m : M Controller A) : Prop :=
  forall w, same_state w (snd (m w)).


(** A state change of an operation in the trace: a write on the member table,
    or a controller call that was accepted. *)
Definition is_state_change (e : Event) : bool :=
  match e with
  | EvMemberWrite _ => true
  | EvControllerUpdate _ _ _ _ ok => ok
  | EvControllerDelete _ _ _ ok => ok
  | _ => false
  end.

Definition is_email (e : Event) : bool :=
  match e with
  | EvAdminNotification _ _ => true
  | _ => false
  end.

Definition is_webhook (e : Event) : bool :=
  match e with
  | EvWebhook _ _ => true
  | _ => false
  end.

(** In the events [evs], read from the oldest on, every notification (an
    event that satisfies [note]) comes after a state change; [changed] tells
    whether one has been seen already. *)
Fixpoint notified_after_change (note : Event -> bool) (changed : bool)
  (evs : list Event) : bool :=
  match evs with
  | [] => true
  | e :: rest =>
      (if note e then changed else true)
      && notified_after_change note (changed || is_state_change e) rest
  end.

(** Externals with the same controller, role check and IP check: they
    differ in their senders at most. *)
Definition same_controller {Controller CentralNetworks : Type}
  (E1 E2 : Externals Controller CentralNetworks) : Prop :=
  zt_member_update E1 = zt_member_update E2
  /\ zt_member_delete E1 = zt_member_delete E2
  /\ ext_checkUserOrganizationRole E1 = ext_checkUserOrganizationRole E2
  /\ isValidIP E1 = isValidIP E2.

Definition is_notification (e : Event) : bool := is_email e || is_webhook e.


(** Where a merged member comes from: a store row of the network that is not
    flagged deleted, with the controller's record of the same identifier when
    there is one, or a controller record whose identifier no row of the
    network has and that is not in the permanently-deleted set. *)
Definition merged_origin (d : DB) (nwid : string) (ctrl : list MemberEntity)
  (m : MergedMember) : Prop :=
  match m with
  | Merged c r =>
      In r (allDatabaseMembers d nwid) /\ nm_deleted r = false
      /\ In c ctrl /\ me_id c = nm_id r
  | DatabaseOnly r =>
      In r (allDatabaseMembers d nwid) /\ nm_deleted r = false
  | ControllerOnly c =>
      In c ctrl
      /\ ~ In (me_id c) (map nm_id (allDatabaseMembers d nwid))
      /\ ~ In (me_id c) (permanentlyDeletedMemberIds d nwid)
  end.


(** How the merge lists a store row that is not flagged deleted: with the
    first controller record of the same identifier when there is one. *)
Definition merged_entry (ctrl : list MemberEntity) (r : network_members)
  : MergedMember :=
  match find (fun c => me_id c =? nm_id r) ctrl with
  | Some c => Merged c r
  | None => DatabaseOnly r
  end.

(** The keys of [mergedMembersMap] are the identifiers of its values, and no
    key is there twice. *)
Definition keyed_by_id (mm : list (string * MergedMember)) : Prop :=
  NoDup (map fst mm) /\ forall k v, In (k, v) mm -> merged_id v = k.


(** The key and the lifecycle flags of a row. *)
Definition lifecycle_of (r : network_members) : string * string * bool * bool :=
  (nm_id r, nm_nwid r, nm_deleted r, nm_permanentlyDeleted r).

(** Every row of the join table points to a [Notation] row. *)
Definition links_have_labels (a : Annotations) : Prop :=
  forall l,
    In l (tbl_networkMemberNotation a) ->
    is_some (findFirst (fun n => (nt_id n =? nmn_notationId l)%Z)
               (tbl_notation a)) = true.

(** Another member carries the notation. *)
Definition used_by_another_member (notationId nodeid : Z) (a : Annotations)
  : bool :=
  existsb (fun l => (nmn_notationId l =? notationId)%Z
                    && negb (nmn_nodeid l =? nodeid)%Z)
    (tbl_networkMemberNotation a).
(** * Properties *)

(** ** Tables *)

Lemma has_key_true i n m :
  has_key i n m = true <-> nm_id m = i /\ nm_nwid m = n.
Proof.
  unfold has_key. rewrite andb_true_iff, !String.eqb_eq. tauto.
Qed.

Lemma has_key_self m : has_key (nm_id m) (nm_nwid m) m = true.
Proof. apply has_key_true. split; reflexivity. Qed.

Lemma find_some_in {A} (p : A -> bool) t r :
  find p t = Some r -> In r t /\ p r = true.
Proof. apply find_some. Qed.

Lemma find_map_same {A} (p : A -> bool) (g : A -> A) t :
  (forall r, p (g r) = p r) ->
  find p (map g t) = option_map g (find p t).
Proof.
  intros Hg. induction t as [|r t IH]; simpl; [reflexivity|].
  rewrite Hg. destruct (p r); [reflexivity|exact IH].
Qed.

(** A rewrite of rows that keeps their keys moves no row: looking a key up
    afterwards finds the rewritten row. *)
Lemma find_updateMany i n p f t :
  (forall r, nm_id (f r) = nm_id r /\ nm_nwid (f r) = nm_nwid r) ->
  findFirst (has_key i n) (updateMany p f t)
  = option_map (fun r => if p r then f r else r) (findFirst (has_key i n) t).
Proof.
  intros Hf. unfold findFirst, updateMany. apply find_map_same.
  intros r. destruct (p r); [|reflexivity].
  unfold has_key. destruct (Hf r) as [-> ->]. reflexivity.
Qed.

Lemma find_filter_neg {A} (p q : A -> bool) t :
  (forall r, p r = true -> q r = true) ->
  find p (filter q t) = find p t.
Proof.
  intros H. induction t as [|r t IH]; simpl; [reflexivity|].
  destruct (q r) eqn:Hq; simpl.
  - rewrite IH. reflexivity.
  - destruct (p r) eqn:Hp; [|exact IH]. apply H in Hp. congruence.
Qed.

Lemma find_filter_none {A} (p q : A -> bool) t :
  (forall r, p r = true -> q r = false) ->
  find p (filter q t) = None.
Proof.
  intros H. induction t as [|r t IH]; simpl; [reflexivity|].
  destruct (q r) eqn:Hq; simpl; [|exact IH].
  destruct (p r) eqn:Hp; [|exact IH]. apply H in Hp. congruence.
Qed.

Lemma find_deleteMany_same i n t :
  findFirst (has_key i n) (deleteMany (has_key i n) t) = None.
Proof.
  apply find_filter_none. intros r ->. reflexivity.
Qed.

Lemma find_deleteMany_other i n i' n' t :
  (i', n') <> (i, n) ->
  findFirst (has_key i' n') (deleteMany (has_key i n) t)
  = findFirst (has_key i' n') t.
Proof.
  intros Hne. apply find_filter_neg. intros r Hr.
  apply has_key_true in Hr. destruct Hr as [<- <-].
  destruct (has_key i n r) eqn:Hk; [|reflexivity].
  apply has_key_true in Hk. destruct Hk as [<- <-]. congruence.
Qed.

Lemma count_rows_map {A} (p : A -> bool) (g : A -> A) t :
  (forall r, p (g r) = p r) ->
  count_rows p (map g t) = count_rows p t.
Proof.
  intros Hg. unfold count_rows. induction t as [|r t IH]; simpl; [reflexivity|].
  rewrite Hg. destruct (p r); simpl; rewrite IH; reflexivity.
Qed.

Lemma count_rows_updateMany i n p f t :
  (forall r, nm_id (f r) = nm_id r /\ nm_nwid (f r) = nm_nwid r) ->
  count_rows (has_key i n) (updateMany p f t) = count_rows (has_key i n) t.
Proof.
  intros Hf. apply count_rows_map. intros r.
  destruct (p r); [|reflexivity].
  unfold has_key. destruct (Hf r) as [-> ->]. reflexivity.
Qed.

Lemma count_rows_pos_find {A} (p : A -> bool) t :
  0 < count_rows p t -> exists r, find p t = Some r.
Proof.
  unfold count_rows. induction t as [|r t IH]; simpl; [lia|].
  destruct (p r); [eauto|exact IH].
Qed.

Lemma filter_length_le {A} (p : A -> bool) t :
  List.length (filter p t) <= List.length t.
Proof.
  induction t as [|r t IH]; simpl; [lia|]. destruct (p r); simpl; lia.
Qed.

Lemma filter_andb {A} (p q : A -> bool) t :
  filter (fun r => p r && q r) t = filter p (filter q t).
Proof.
  induction t as [|r t IH]; simpl; [reflexivity|].
  destruct (q r); simpl; rewrite ?andb_true_r, ?andb_false_r.
  - destruct (p r); rewrite IH; reflexivity.
  - exact IH.
Qed.

(** ** getUserNetworks: the member counts *)

Lemma filter_map_select (p : MemberSelect -> bool) rows :
  List.length
    (filter p
       (map (fun m => mk_select (nm_id m) (nm_deleted m) (nm_authorized m)) rows))
  = count_rows
      (fun m => p (mk_select (nm_id m) (nm_deleted m) (nm_authorized m))) rows.
Proof.
  unfold count_rows. induction rows as [|r rows IH]; simpl; [reflexivity|].
  destruct (p _); simpl; rewrite IH; reflexivity.
Qed.

Lemma count_rows_without_deleted (p : network_members -> bool) rows :
  (forall m, p m = true -> nm_deleted m = false) ->
  count_rows p (filter (fun m => negb (nm_deleted m)) rows) = count_rows p rows.
Proof.
  intros Hp. unfold count_rows. induction rows as [|r rows IH]; simpl; [reflexivity|].
  destruct (nm_deleted r) eqn:Hd; simpl.
  - destruct (p r) eqn:Hr; [apply Hp in Hr; congruence|exact IH].
  - destruct (p r); simpl; rewrite IH; reflexivity.
Qed.

Lemma count_members_of_rows d net :
  memberCounts_of nm_deleted d
    (mk_networkWithCount net (include_networkMembers d net)
       (count_members (include_networkMembers d net))).
Proof.
  unfold memberCounts_of, count_members, include_networkMembers. simpl.
  rewrite !filter_map_select. simpl.
  repeat split.
  - unfold count_rows. rewrite filter_andb. apply filter_length_le.
  - symmetry. apply count_rows_without_deleted.
    intros m Hm. apply andb_true_iff in Hm.
    destruct Hm as [_ Hm]. apply negb_true_iff in Hm. exact Hm.
  - symmetry. apply count_rows_without_deleted.
    intros m Hm. apply negb_true_iff in Hm. exact Hm.
Qed.


(** ** getNetworkById: the merged members *)

Lemma map_set_values {V} (k : string) (v v0 : V) m :
  In v (map_values (map_set k v0 m)) -> v = v0 \/ In v (map_values m).
Proof.
  unfold map_values. induction m as [|[k' v'] m IH]; simpl.
  - intros [H|[]]. left. congruence.
  - destruct (k' =? k); simpl.
    + intros [H|H]; [left; congruence|right; right; exact H].
    + intros [H|H]; [right; left; exact H|].
      destruct (IH H) as [H'|H']; [left; exact H'|right; right; exact H'].
Qed.

Lemma fold_left_invariant {A B} (P : B -> Prop) (f : B -> A -> B) l b :
  P b -> (forall b a, In a l -> P b -> P (f b a)) -> P (fold_left f l b).
Proof.
  revert b. induction l as [|a l IH]; simpl; intros b Hb Hf; [exact Hb|].
  apply IH; [apply Hf; [left; reflexivity|exact Hb]|].
  intros b' a' Hin. apply Hf. right. exact Hin.
Qed.

Lemma existsb_eqb_false (x : string) l :
  existsb (fun i => i =? x) l = false -> ~ In x l.
Proof.
  intros H Hin.
  assert (existsb (fun i => i =? x) l = true) as Ht.
  { apply existsb_exists. exists x. split; [exact Hin|apply String.eqb_refl]. }
  congruence.
Qed.

Lemma mergedMembers_origin d nwid ctrl m :
  In m (mergedMembers d nwid ctrl) -> merged_origin d nwid ctrl m.
Proof.
  unfold mergedMembers.
  set (all := allDatabaseMembers d nwid).
  set (P := fun mm : list (string * MergedMember) =>
              forall m, In m (map_values mm) -> merged_origin d nwid ctrl m).
  revert m. change (P (fold_left
                         (add_controller_member all
                            (permanentlyDeletedMemberIds d nwid))
                         ctrl
                         (fold_left (add_database_member ctrl) all []))).
  apply fold_left_invariant.
  - apply fold_left_invariant.
    + intros m [].
    + intros mm r Hr Hmm m. unfold add_database_member.
      destruct (find (fun c => me_id c =? nm_id r) ctrl) as [c|] eqn:Hc;
        destruct (nm_deleted r) eqn:Hd; cbn [negb]; try apply Hmm;
        intros Hm; apply map_set_values in Hm;
        destruct Hm as [->|Hm]; try (apply Hmm; exact Hm); cbn.
      * apply find_some in Hc. destruct Hc as [Hin Heq].
        apply String.eqb_eq in Heq. auto.
      * auto.
  - intros mm c Hc Hmm m. unfold add_controller_member.
    destruct (existsb (fun dbMember => nm_id dbMember =? me_id c) all) eqn:Hex;
      cbn [negb]; [apply Hmm|].
    destruct (existsb (fun i => i =? me_id c)
                (permanentlyDeletedMemberIds d nwid)) eqn:Hp;
      cbn [negb]; [apply Hmm|].
    intros Hm. apply map_set_values in Hm.
    destruct Hm as [->|Hm]; [|apply Hmm; exact Hm]. cbn.
    split; [exact Hc|]. split; [|apply existsb_eqb_false; exact Hp].
    intros Hin. apply in_map_iff in Hin. destruct Hin as (r & Hr & Hin).
    assert (existsb (fun dbMember => nm_id dbMember =? me_id c) all = true) as Ht.
    { apply existsb_exists. exists r. split; [exact Hin|].
      apply String.eqb_eq. exact Hr. }
    congruence.
Qed.

(** C1 (as amended): the merged member list of getNetworkById never holds a
    member whose store row has deleted = true; so, when every permanently
    deleted row of the network is flagged deleted, it never holds a member
    whose row has permanentlyDeleted = true, whether the controller reports
    the member or not.  A controller-reported member with no row in the
    network is in the list only if its identifier is not in the set of
    permanently-deleted identifiers. *)
Theorem mergedMembers_hide_permanentlyDeleted (d : DB) (nwid : string)
  (membersWithStatusAndPeers : list MemberEntity) (m : MergedMember) :
  permanentlyDeleted_rows_are_stashed d nwid ->
  In m (mergedMembers d nwid membersWithStatusAndPeers) ->
  match database_row m with
  | Some r =>
      In r (tbl_network_members d) /\ nm_nwid r = nwid
      /\ nm_deleted r = false /\ nm_permanentlyDeleted r = false
  | None =>
      ~ In (merged_id m) (map nm_id (allDatabaseMembers d nwid))
      /\ ~ In (merged_id m) (permanentlyDeletedMemberIds d nwid)
  end.
Proof.
  intros Hinv Hm. apply mergedMembers_origin in Hm.
  assert (Hrow : forall r,
             In r (allDatabaseMembers d nwid) -> nm_deleted r = false ->
             In r (tbl_network_members d) /\ nm_nwid r = nwid
             /\ nm_deleted r = false /\ nm_permanentlyDeleted r = false).
  { intros r Hin Hd. apply filter_In in Hin. destruct Hin as [Hin Hn].
    apply String.eqb_eq in Hn. repeat split; try assumption.
    destruct (nm_permanentlyDeleted r) eqn:Hp; [|reflexivity].
    rewrite (Hinv r Hin Hn Hp) in Hd. discriminate. }
  destruct m as [c r|r|c]; cbn in *.
  - destruct Hm as (Hin & Hd & _). apply Hrow; assumption.
  - destruct Hm as (Hin & Hd). apply Hrow; assumption.
  - destruct Hm as (_ & H1 & H2). split; assumption.
Qed.

(** ** getNetworkById: what the merged list holds *)

Lemma map_set_keys {V} (k : string) (v : V) m x :
  In x (map fst (map_set k v m)) <-> x = k \/ In x (map fst m).
Proof.
  induction m as [|[k' v'] m IH]; simpl.
  - intuition.
  - destruct (k' =? k) eqn:Hk; simpl.
    + apply String.eqb_eq in Hk. subst k'. intuition.
    + rewrite IH. intuition.
Qed.

Lemma map_set_NoDup {V} (k : string) (v : V) m :
  NoDup (map fst m) -> NoDup (map fst (map_set k v m)).
Proof.
  induction m as [|[k' v'] m IH]; simpl; intros Hnd.
  - constructor; [intros []|constructor].
  - inversion Hnd as [|? ? Hnotin Hnd']; subst.
    destruct (k' =? k) eqn:Hk; simpl.
    + apply String.eqb_eq in Hk. subst k'. constructor; assumption.
    + constructor; [|apply IH; exact Hnd'].
      rewrite map_set_keys. intros [->|Hin]; [|contradiction].
      rewrite String.eqb_refl in Hk. discriminate.
Qed.

Lemma map_set_in {V} (k : string) (v v0 : V) k0 m :
  In (k0, v0) (map_set k v m) -> (k0 = k /\ v0 = v) \/ In (k0, v0) m.
Proof.
  induction m as [|[k' v'] m IH]; simpl.
  - intros [H|[]]. left. split; congruence.
  - destruct (k' =? k); simpl.
    + intros [H|H]; [left; split; congruence|right; right; exact H].
    + intros [H|H]; [right; left; exact H|].
      destruct (IH H) as [H'|H']; [left; exact H'|right; right; exact H'].
Qed.

Lemma map_set_same {V} (k : string) (v : V) m : In (k, v) (map_set k v m).
Proof.
  induction m as [|[k' v'] m IH]; simpl; [left; reflexivity|].
  destruct (k' =? k); [left; reflexivity|right; exact IH].
Qed.

Lemma map_set_other {V} (k : string) (v : V) k0 v0 m :
  k0 <> k -> In (k0, v0) m -> In (k0, v0) (map_set k v m).
Proof.
  intros Hne. induction m as [|[k' v'] m IH]; simpl; [intros []|].
  destruct (k' =? k) eqn:Hk.
  - apply String.eqb_eq in Hk. subst k'.
    intros [H|H]; [congruence|right; exact H].
  - intros [H|H]; [left; exact H|right; apply IH; exact H].
Qed.

Lemma map_set_keyed k v mm :
  merged_id v = k -> keyed_by_id mm -> keyed_by_id (map_set k v mm).
Proof.
  intros Hv [Hnd Hid]. split; [apply map_set_NoDup; exact Hnd|].
  intros k0 v0 Hin. apply map_set_in in Hin.
  destruct Hin as [[-> ->]|Hin]; [exact Hv|apply Hid; exact Hin].
Qed.

Lemma mergedMembersMap_keyed d nwid ctrl :
  keyed_by_id
    (fold_left
       (add_controller_member (allDatabaseMembers d nwid)
          (permanentlyDeletedMemberIds d nwid))
       ctrl
       (fold_left (add_database_member ctrl) (allDatabaseMembers d nwid) [])).
Proof.
  apply fold_left_invariant.
  - apply fold_left_invariant.
    + split; [constructor|intros k v []].
    + intros mm r _ Hmm. unfold add_database_member.
      destruct (find (fun c => me_id c =? nm_id r) ctrl);
        destruct (nm_deleted r); cbn [negb]; try exact Hmm;
        apply map_set_keyed; auto.
  - intros mm c _ Hmm. unfold add_controller_member.
    destruct (existsb _ (allDatabaseMembers d nwid)); cbn [negb];
      [exact Hmm|].
    destruct (existsb _ (permanentlyDeletedMemberIds d nwid)); cbn [negb];
      [exact Hmm|].
    apply map_set_keyed; auto.
Qed.

(** The merged list names no member twice: the identifiers of its entries
    are pairwise different, whatever the store and the controller hold. *)
Theorem mergedMembers_ids_are_distinct (d : DB) (nwid : string)
  (membersWithStatusAndPeers : list MemberEntity) :
  NoDup (map merged_id (mergedMembers d nwid membersWithStatusAndPeers)).
Proof.
  unfold mergedMembers, map_values.
  destruct (mergedMembersMap_keyed d nwid membersWithStatusAndPeers)
    as [Hnd Hid].
  rewrite map_map.
  erewrite map_ext_in; [exact Hnd|].
  intros [k v] Hin. cbn. apply Hid. exact Hin.
Qed.

Lemma add_database_members_keep ctrl l mm k v :
  In (k, v) mm -> ~ In k (map nm_id l) ->
  In (k, v) (fold_left (add_database_member ctrl) l mm).
Proof.
  revert mm. induction l as [|r l IH]; cbn [fold_left map]; intros mm Hin Hk;
    [exact Hin|].
  apply IH; [|intros H; apply Hk; right; exact H].
  assert (k <> nm_id r) as Hne by (intros ->; apply Hk; left; reflexivity).
  unfold add_database_member.
  destruct (find (fun c => me_id c =? nm_id r) ctrl);
    destruct (nm_deleted r); cbn [negb]; try exact Hin;
    apply map_set_other; assumption.
Qed.

Lemma add_database_members_list ctrl l mm r :
  NoDup (map nm_id l) -> In r l -> nm_deleted r = false ->
  In (nm_id r, merged_entry ctrl r)
    (fold_left (add_database_member ctrl) l mm).
Proof.
  revert mm. induction l as [|r0 l IH]; cbn [fold_left map];
    intros mm Hnd Hin Hd; [destruct Hin|].
  inversion Hnd as [|? ? Hnotin Hnd']; subst.
  destruct Hin as [->|Hin]; [|apply IH; assumption].
  apply add_database_members_keep; [|exact Hnotin].
  unfold add_database_member, merged_entry. rewrite Hd. cbn [negb].
  destruct (find (fun c => me_id c =? nm_id r) ctrl); apply map_set_same.
Qed.

Lemma add_controller_members_keep all pd ctrl mm k v :
  In (k, v) mm -> In k (map nm_id all) ->
  In (k, v) (fold_left (add_controller_member all pd) ctrl mm).
Proof.
  intros Hin Hk. revert mm Hin.
  induction ctrl as [|c ctrl IH]; cbn [fold_left]; intros mm Hin; [exact Hin|].
  apply IH. unfold add_controller_member.
  destruct (existsb (fun dbMember => nm_id dbMember =? me_id c) all) eqn:Hex;
    cbn [negb]; [exact Hin|].
  destruct (existsb (fun i => i =? me_id c) pd); cbn [negb]; [exact Hin|].
  apply map_set_other; [|exact Hin]. intros ->.
  apply in_map_iff in Hk. destruct Hk as (r & Hr & Hrin).
  assert (existsb (fun dbMember => nm_id dbMember =? me_id c) all = true) as Ht.
  { apply existsb_exists. exists r. split; [exact Hrin|].
    apply String.eqb_eq. exact Hr. }
  congruence.
Qed.

(** Every row of the network that is not flagged deleted is in the merged
    list, as the store has it, together with the controller's record of the
    member when the controller reports one.  The rows of one network have
    pairwise different identifiers, as the unique key (id, nwid) has it. *)
Theorem mergedMembers_list_every_row_not_deleted (d : DB) (nwid : string)
  (membersWithStatusAndPeers : list MemberEntity) (r : network_members) :
  NoDup (map nm_id (allDatabaseMembers d nwid)) ->
  In r (allDatabaseMembers d nwid) ->
  nm_deleted r = false ->
  In (merged_entry membersWithStatusAndPeers r)
    (mergedMembers d nwid membersWithStatusAndPeers).
Proof.
  intros Hnd Hin Hd. unfold mergedMembers, map_values.
  apply in_map_iff. exists (nm_id r, merged_entry membersWithStatusAndPeers r).
  split; [reflexivity|].
  apply add_controller_members_keep.
  - apply add_database_members_list; assumption.
  - apply in_map. exact Hin.
Qed.

Lemma permanentlyDeletedMemberIds_have_rows d nwid i :
  In i (permanentlyDeletedMemberIds d nwid) ->
  In i (map nm_id (allDatabaseMembers d nwid)).
Proof.
  unfold permanentlyDeletedMemberIds, allDatabaseMembers, findMany.
  intros Hin. apply in_map_iff in Hin. destruct Hin as (r & <- & Hin).
  apply filter_In in Hin. destruct Hin as [Hin Hp].
  apply andb_true_iff in Hp. destruct Hp as [Hn _].
  apply in_map. apply filter_In. split; assumption.
Qed.

Lemma add_controller_members_list all pd ctrl mm c :
  (forall i, In i pd -> In i (map nm_id all)) ->
  In c ctrl -> ~ In (me_id c) (map nm_id all) ->
  exists c',
    In (me_id c, ControllerOnly c')
      (fold_left (add_controller_member all pd) ctrl mm)
    /\ In c' ctrl /\ me_id c' = me_id c.
Proof.
  intros Hpd Hin Hnot. revert mm.
  assert (Hstep : forall c0 mm,
             me_id c0 = me_id c ->
             add_controller_member all pd mm c0
             = map_set (me_id c0) (ControllerOnly c0) mm).
  { intros c0 mm Heq. unfold add_controller_member.
    destruct (existsb (fun dbMember => nm_id dbMember =? me_id c0) all) eqn:Hex.
    - exfalso. apply existsb_exists in Hex. destruct Hex as (r & Hr & Hk).
      apply String.eqb_eq in Hk. apply Hnot. rewrite <- Heq, <- Hk.
      apply in_map. exact Hr.
    - cbn [negb].
      destruct (existsb (fun i => i =? me_id c0) pd) eqn:Hp; [|reflexivity].
      exfalso. apply existsb_exists in Hp. destruct Hp as (i & Hi & Hk).
      apply String.eqb_eq in Hk. subst i. apply Hnot. rewrite <- Heq.
      apply Hpd. exact Hi. }
  assert (Hkeep : forall l mm c',
             me_id c' = me_id c ->
             In (me_id c, ControllerOnly c') mm ->
             exists c'',
               In (me_id c, ControllerOnly c'')
                 (fold_left (add_controller_member all pd) l mm)
               /\ (c'' = c' \/ In c'' l) /\ me_id c'' = me_id c).
  { induction l as [|c0 l IH]; cbn [fold_left]; intros mm c' Hid Hmm.
    - exists c'. split; [exact Hmm|]. split; [left; reflexivity|exact Hid].
    - destruct (String.eqb_spec (me_id c0) (me_id c)) as [Heq|Hne].
      + destruct (IH (add_controller_member all pd mm c0) c0 Heq)
          as (c'' & H1 & H2 & H3).
        { rewrite (Hstep c0 mm Heq), Heq. apply map_set_same. }
        exists c''. split; [exact H1|]. split; [|exact H3].
        right. destruct H2 as [->|H2]; [left; reflexivity|right; exact H2].
      + destruct (IH (add_controller_member all pd mm c0) c' Hid)
          as (c'' & H1 & H2 & H3).
        { unfold add_controller_member.
          destruct (existsb _ all); cbn [negb]; [exact Hmm|].
          destruct (existsb _ pd); cbn [negb]; [exact Hmm|].
          apply map_set_other; [congruence|exact Hmm]. }
        exists c''. split; [exact H1|]. split; [|exact H3].
        destruct H2 as [->|H2]; [left; reflexivity|right; right; exact H2]. }
  induction ctrl as [|c0 ctrl IH]; [destruct Hin|]. intros mm.
  cbn [fold_left]. destruct Hin as [->|Hin].
  - destruct (Hkeep ctrl (add_controller_member all pd mm c) c eq_refl)
      as (c'' & H1 & H2 & H3).
    { rewrite (Hstep c mm eq_refl). apply map_set_same. }
    exists c''. split; [exact H1|]. split; [|exact H3].
    destruct H2 as [->|H2]; [left; reflexivity|right; exact H2].
  - destruct (IH Hin (add_controller_member all pd mm c0))
      as (c' & H1 & H2 & H3).
    exists c'. split; [exact H1|]. split; [right; exact H2|exact H3].
Qed.

(** A member the controller reports and the network has no row for, whatever
    its flags, is in the merged list as a controller-only member: the device
    that has joined on its own shows up. *)
Theorem mergedMembers_list_every_unknown_controller_member (d : DB)
  (nwid : string) (membersWithStatusAndPeers : list MemberEntity)
  (c : MemberEntity) :
  In c membersWithStatusAndPeers ->
  ~ In (me_id c) (map nm_id (allDatabaseMembers d nwid)) ->
  exists c',
    In (ControllerOnly c') (mergedMembers d nwid membersWithStatusAndPeers)
    /\ In c' membersWithStatusAndPeers
    /\ me_id c' = me_id c.
Proof.
  intros Hin Hnot. unfold mergedMembers, map_values.
  destruct (add_controller_members_list (allDatabaseMembers d nwid)
              (permanentlyDeletedMemberIds d nwid) membersWithStatusAndPeers
              (fold_left (add_database_member membersWithStatusAndPeers)
                 (allDatabaseMembers d nwid) []) c
              (permanentlyDeletedMemberIds_have_rows d nwid) Hin Hnot)
    as (c' & H1 & H2 & H3).
  exists c'. split; [|split; assumption].
  apply in_map_iff. exists (me_id c, ControllerOnly c'). split; [reflexivity|exact H1].
Qed.

(** In a network whose rows have pairwise different identifiers, a row is
    known by its identifier. *)
Lemma unique_id_row (l : list network_members) r r' :
  NoDup (map nm_id l) -> In r l -> In r' l -> nm_id r' = nm_id r -> r' = r.
Proof.
  induction l as [|x l IH]; intros Hnd Hin Hin' Hid; [destruct Hin|].
  cbn [map] in Hnd. inversion Hnd as [|? ? Hnotin Hnd']; subst.
  destruct Hin as [->|Hin], Hin' as [->|Hin']; try reflexivity.
  - exfalso. apply Hnotin. rewrite <- Hid. apply in_map. exact Hin'.
  - exfalso. apply Hnotin. rewrite Hid. apply in_map. exact Hin.
  - apply IH; assumption.
Qed.

Lemma merged_row_is_not_deleted d nwid ctrl m r :
  NoDup (map nm_id (allDatabaseMembers d nwid)) ->
  In r (allDatabaseMembers d nwid) ->
  merged_origin d nwid ctrl m ->
  merged_id m = nm_id r ->
  nm_deleted r = false.
Proof.
  intros Hnd Hin Hm Heq. destruct m as [c r'|r'|c]; cbn in Hm, Heq.
  - destruct Hm as (Hin' & Hd' & _).
    rewrite (unique_id_row _ r r' Hnd Hin Hin' Heq) in Hd'. exact Hd'.
  - destruct Hm as (Hin' & Hd').
    rewrite (unique_id_row _ r r' Hnd Hin Hin' Heq) in Hd'. exact Hd'.
  - destruct Hm as (_ & Hnot & _). exfalso. apply Hnot. rewrite Heq.
    apply in_map. exact Hin.
Qed.

(** A member whose row in the network is flagged deleted, stashed or
    permanently deleted, is not in the merged list under any form, even when
    the controller goes on reporting it. *)
Theorem mergedMembers_hide_every_deleted_row (d : DB) (nwid : string)
  (membersWithStatusAndPeers : list MemberEntity) (r : network_members)
  (m : MergedMember) :
  NoDup (map nm_id (allDatabaseMembers d nwid)) ->
  In r (allDatabaseMembers d nwid) ->
  nm_deleted r = true ->
  In m (mergedMembers d nwid membersWithStatusAndPeers) ->
  merged_id m <> nm_id r.
Proof.
  intros Hnd Hin Hd Hm Heq.
  apply mergedMembers_origin in Hm.
  pose proof (merged_row_is_not_deleted d nwid membersWithStatusAndPeers m r
                Hnd Hin Hm Heq) as Hshown.
  rewrite Hd in Hshown. discriminate.
Qed.

Lemma keys_updateMany (p : network_members -> bool) f t :
  (forall r, nm_id (f r) = nm_id r /\ nm_nwid (f r) = nm_nwid r) ->
  map (fun r => (nm_id r, nm_nwid r)) (updateMany p f t)
  = map (fun r => (nm_id r, nm_nwid r)) t.
Proof.
  intros Hf. unfold updateMany. rewrite map_map. apply map_ext.
  intros r. destruct (p r); [|reflexivity].
  destruct (Hf r) as [-> ->]. reflexivity.
Qed.

Lemma keys_allDatabaseMembers nwid t t' :
  map (fun r => (nm_id r, nm_nwid r)) t'
  = map (fun r => (nm_id r, nm_nwid r)) t ->
  map nm_id (filter (fun m => nm_nwid m =? nwid) t')
  = map nm_id (filter (fun m => nm_nwid m =? nwid) t).
Proof.
  revert t'. induction t as [|r t IH]; intros [|r' t'] H; cbn in H;
    try discriminate; [reflexivity|].
  injection H as Hid Hnw Ht. cbn [filter]. rewrite Hnw.
  destruct (nm_nwid r =? nwid); cbn [map]; rewrite ?Hid, (IH t' Ht);
    reflexivity.
Qed.

(** ** getNetworkById: the routes *)

Lemma set_has_In s k : set_has s k = true <-> In k s.
Proof.
  unfold set_has. rewrite existsb_exists. split.
  - intros (x & Hin & Heq). apply String.eqb_eq in Heq. subst. exact Hin.
  - intros Hin. exists k. split; [exact Hin|apply String.eqb_refl].
Qed.

Lemma set_add_In s k x : In x (set_add s k) <-> In x s \/ x = k.
Proof.
  unfold set_add. destruct (set_has s k) eqn:Hk.
  - apply set_has_In in Hk. split; [auto|]. intros [H| ->]; assumption.
  - rewrite in_app_iff. cbn. intuition.
Qed.

Lemma set_add_NoDup s k : NoDup s -> NoDup (set_add s k).
Proof.
  intros Hnd. unfold set_add. destruct (set_has s k) eqn:Hk; [exact Hnd|].
  apply NoDup_app; [exact Hnd|constructor; [intros []|constructor]|].
  intros x Hin [<-|[]]. apply set_has_In in Hin. congruence.
Qed.

Lemma new_Set_spec values :
  NoDup (new_Set values) /\ forall x, In x (new_Set values) <-> In x values.
Proof.
  unfold new_Set.
  assert (H : forall s, NoDup s ->
                        NoDup (fold_left set_add values s)
                        /\ forall x, In x (fold_left set_add values s)
                                     <-> In x s \/ In x values).
  { induction values as [|k values IH]; intros s Hs; cbn [fold_left].
    - split; [exact Hs|]. intros x. cbn. intuition.
    - destruct (IH (set_add s k) (set_add_NoDup s k Hs)) as [Hnd Hin].
      split; [exact Hnd|]. intros x. rewrite Hin, set_add_In. cbn.
      intuition. }
  destruct (H [] (NoDup_nil _)) as [Hnd Hin]. split; [exact Hnd|].
  intros x. rewrite Hin. cbn. intuition.
Qed.

(** The routes are synchronised exactly when the store and the controller
    do not have the same set of route keys: [routesAreDifferent] is false if
    and only if every key of the store's routes is a key of the controller's
    and the other way round, whatever the order and the repetitions. *)
Theorem routesAreDifferent_compares_the_sets_of_keys
  (databaseRoutes controllerRoutes : option (list RoutesEntity)) :
  routesAreDifferent databaseRoutes controllerRoutes = false
  <-> (forall key,
          In key (route_keys databaseRoutes)
          <-> In key (route_keys controllerRoutes)).
Proof.
  unfold routesAreDifferent.
  destruct (new_Set_spec (route_keys databaseRoutes)) as [Hnd1 Hin1].
  destruct (new_Set_spec (route_keys controllerRoutes)) as [Hnd2 Hin2].
  set (s1 := new_Set (route_keys databaseRoutes)) in *.
  set (s2 := new_Set (route_keys controllerRoutes)) in *.
  rewrite orb_false_iff, !negb_false_iff, Nat.eqb_eq, forallb_forall.
  split.
  - intros [Hlen Hsub] key. rewrite <- Hin1, <- Hin2.
    assert (incl s1 s2) as Hincl
        by (intros x Hx; apply set_has_In; apply Hsub; exact Hx).
    split; [apply Hincl|].
    apply (NoDup_length_incl Hnd1); [lia|exact Hincl].
  - intros Hsame.
    assert (incl s1 s2) as H12
        by (intros x Hx; apply Hin2, Hsame, Hin1; exact Hx).
    assert (incl s2 s1) as H21
        by (intros x Hx; apply Hin1, Hsame, Hin2; exact Hx).
    split.
    + apply Nat.le_antisymm; apply NoDup_incl_length; assumption.
    + intros x Hx. apply set_has_In. apply H12. exact Hx.
Qed.

(** The duplicated targets reported for a network: each is listed once, and
    a target is listed exactly when it is a target of this network and of a
    route of one of the other networks the query returned. *)
Theorem uniqueDuplicatedIPs_are_the_shared_targets (targetIPs : list string)
  (duplicateRoutes : list DuplicateRoutes) :
  NoDup (uniqueDuplicatedIPs targetIPs duplicateRoutes)
  /\ forall ip,
      In ip (uniqueDuplicatedIPs targetIPs duplicateRoutes)
      <-> In ip targetIPs
          /\ exists network route,
              In network duplicateRoutes
              /\ In route (dr_routes network)
              /\ rt_target route = ip.
Proof.
  unfold uniqueDuplicatedIPs.
  match goal with
  | |- NoDup (new_Set ?l) /\ _ => destruct (new_Set_spec l) as [Hnd Hin]
  end.
  split; [exact Hnd|]. intros ip. rewrite Hin, in_flat_map. split.
  - intros (network & Hnet & Hip). apply in_map_iff in Hip.
    destruct Hip as (route & Ht & Hroute). apply filter_In in Hroute.
    destruct Hroute as [Hroute Hex]. apply existsb_exists in Hex.
    destruct Hex as (x & Hx & Heq). apply String.eqb_eq in Heq. subst.
    split; [exact Hx|eauto].
  - intros (Hip & network & route & Hnet & Hroute & Ht).
    exists network. split; [exact Hnet|]. apply in_map_iff.
    exists route. split; [exact Ht|]. apply filter_In.
    split; [exact Hroute|]. apply existsb_exists. exists ip.
    split; [exact Hip|]. subst. apply String.eqb_refl.
Qed.
Section Properties.

Context {Controller CentralNetworks : Type}.
Variable E : Externals Controller CentralNetworks.

Let World := World Controller.
Let M := M Controller.

(** ** Running a procedure

    [wp m Q w]: the run of [m] from [w] ends, with a value or an exception,
    in a world that satisfies [Q].  The rules below follow the shape of a
    procedure; a run is followed by applying them from the outside in. *)

Definition wp {A} (m : M A) (Q : Exn + A -> World -> Prop) (w : World) : Prop :=
  Q (fst (m w)) (snd (m w)).

Lemma wp_ret {A} (a : A) Q w : Q (inr a) w -> wp (ret a) Q w.
Proof. exact (fun H => H). Qed.

Lemma wp_throw {A} (e : Exn) (Q : Exn + A -> World -> Prop) w :
  Q (inl e) w -> wp (throw e) Q w.
Proof. exact (fun H => H). Qed.

Lemma wp_throwError {A} msg (Q : Exn + A -> World -> Prop) w :
  Q (inl (ThrownError msg)) w -> wp (throwError msg) Q w.
Proof. exact (fun H => H). Qed.

Lemma wp_bind {A B} (m : M A) (k : A -> M B) Q w :
  wp m (fun r w' =>
          match r with
          | inr a => wp (k a) Q w'
          | inl e => Q (inl e) w'
          end) w ->
  wp (bind m k) Q w.
Proof.
  unfold wp, bind. destruct (m w) as [[e|a] w']; exact (fun H => H).
Qed.

Lemma wp_try_catch {A} (m : M A) (h : Exn -> M A) Q w :
  wp m (fun r w' =>
          match r with
          | inr a => Q (inr a) w'
          | inl e => wp (h e) Q w'
          end) w ->
  wp (try_catch m h) Q w.
Proof.
  unfold wp, try_catch. destruct (m w) as [[e|a] w']; exact (fun H => H).
Qed.

Lemma wp_getDB Q (w : World) : Q (inr (db w)) w -> wp getDB Q w.
Proof. exact (fun H => H). Qed.

Lemma wp_modifyDB f Q (w : World) :
  Q (inr tt) (mk_world (f (db w)) (zt w) (trace w)) -> wp (modifyDB f) Q w.
Proof. exact (fun H => H). Qed.

Lemma wp_emit e Q (w : World) :
  Q (inr tt) (mk_world (db w) (zt w) (trace w ++ [e])) -> wp (emit e) Q w.
Proof. exact (fun H => H). Qed.

Lemma wp_console msg Q (w : World) :
  Q (inr tt) (mk_world (db w) (zt w) (trace w ++ [EvConsole msg])) ->
  wp (console msg) Q w.
Proof. exact (fun H => H). Qed.

Lemma wp_conseq {A} (m : M A) (Q Q' : Exn + A -> World -> Prop) w :
  wp m Q w -> (forall r w', Q r w' -> Q' r w') -> wp m Q' w.
Proof. unfold wp. intros H HQ. apply HQ, H. Qed.

(** The controller answers, one way or the other. *)
Lemma wp_member_update nwid memberId central p Q (w : World) :
  (forall r c,
      zt_member_update E (zt w) nwid memberId central p = (inr r, c) ->
      Q (inr r)
        (mk_world (db w) c
           (trace w ++ [EvControllerUpdate nwid memberId central p true]))) ->
  (forall msg c,
      zt_member_update E (zt w) nwid memberId central p = (inl msg, c) ->
      Q (inl (ExternalError msg))
        (mk_world (db w) c
           (trace w ++ [EvControllerUpdate nwid memberId central p false]))) ->
  wp (member_update E nwid memberId central p) Q w.
Proof.
  intros Hok Hko. unfold wp, member_update.
  destruct (zt_member_update E (zt w) nwid memberId central p) as [[msg|r] c];
    simpl; auto.
Qed.

Lemma wp_member_delete nwid memberId central Q (w : World) :
  (forall c,
      zt_member_delete E (zt w) nwid memberId central = (inr tt, c) ->
      Q (inr tt)
        (mk_world (db w) c
           (trace w ++ [EvControllerDelete nwid memberId central true]))) ->
  (forall msg c,
      zt_member_delete E (zt w) nwid memberId central = (inl msg, c) ->
      Q (inl (ExternalError msg))
        (mk_world (db w) c
           (trace w ++ [EvControllerDelete nwid memberId central false]))) ->
  wp (member_delete E nwid memberId central) Q w.
Proof.
  intros Hok Hko. unfold wp, member_delete.
  destruct (zt_member_delete E (zt w) nwid memberId central) as [[msg|[]] c];
    simpl; auto.
Qed.

Lemma wp_sendWebhook h Q (w : World) :
  (ext_sendWebhook E h = None ->
   Q (inr tt) (mk_world (db w) (zt w) (trace w ++ [EvWebhook h true]))) ->
  (forall msg, ext_sendWebhook E h = Some msg ->
   Q (inl (ExternalError msg))
     (mk_world (db w) (zt w) (trace w ++ [EvWebhook h false]))) ->
  wp (sendWebhook E h) Q w.
Proof.
  intros Hok Hko. unfold wp, sendWebhook.
  destruct (ext_sendWebhook E h) as [msg|]; simpl; auto.
Qed.

Lemma wp_webhook_or_throw h Q (w : World) :
  (ext_sendWebhook E h = None ->
   Q (inr tt) (mk_world (db w) (zt w) (trace w ++ [EvWebhook h true]))) ->
  (forall msg, ext_sendWebhook E h = Some msg ->
   Q (inl (ThrownError msg))
     (mk_world (db w) (zt w) (trace w ++ [EvWebhook h false]))) ->
  wp (webhook_or_throw E h) Q w.
Proof.
  intros Hok Hko. unfold webhook_or_throw.
  apply wp_try_catch, wp_sendWebhook; auto.
Qed.

Lemma wp_sendOrganizationAdminNotification n Q (w : World) :
  (ext_sendOrganizationAdminNotification E n = None ->
   Q (inr tt)
     (mk_world (db w) (zt w) (trace w ++ [EvAdminNotification n true]))) ->
  (forall msg, ext_sendOrganizationAdminNotification E n = Some msg ->
   Q (inl (ExternalError msg))
     (mk_world (db w) (zt w) (trace w ++ [EvAdminNotification n false]))) ->
  wp (sendOrganizationAdminNotification E n) Q w.
Proof.
  intros Hok Hko. unfold wp, sendOrganizationAdminNotification.
  destruct (ext_sendOrganizationAdminNotification E n) as [msg|]; simpl; auto.
Qed.

Ltac store_simpl :=
  cbn [db zt trace tbl_network_members tbl_network tbl_userOptions
       tbl_organizationSettings tbl_userOrganizationRole tbl_activityLog
       with_members with_activityLog with_organizationSettings
       opt_flag is_some negb fst snd].

Ltac store_simpl_in H :=
  cbn [db zt trace tbl_network_members tbl_network tbl_userOptions
       tbl_organizationSettings tbl_userOrganizationRole tbl_activityLog
       with_members with_activityLog with_organizationSettings
       opt_flag is_some negb fst snd] in H.

Ltac store_simpl_all :=
  cbn [db zt trace tbl_network_members tbl_network tbl_userOptions
       tbl_organizationSettings tbl_userOrganizationRole tbl_activityLog
       with_members with_activityLog with_organizationSettings
       opt_flag is_some negb fst snd] in *.

(** One step of a run. *)
Ltac wp_head :=
  lazymatch goal with
  | |- wp (bind _ _) _ _ => apply wp_bind
  | |- wp (try_catch _ _) _ _ => apply wp_try_catch
  | |- wp (ret _) _ _ => apply wp_ret
  | |- wp (throw _) _ _ => apply wp_throw
  | |- wp (throwError _) _ _ => apply wp_throwError
  | |- wp getDB _ _ => apply wp_getDB
  | |- wp (modifyDB _) _ _ => apply wp_modifyDB
  | |- wp (emit _) _ _ => apply wp_emit
  | |- wp (console _) _ _ => apply wp_console
  | |- wp (member_update _ _ _ _ _) _ _ =>
      apply wp_member_update;
      [ let H := fresh "Hzt" in intros ?r ?c H; store_simpl_in H
      | let H := fresh "Hzt" in intros ?msg ?c H; store_simpl_in H ]
  | |- wp (member_delete _ _ _ _) _ _ =>
      apply wp_member_delete;
      [ let H := fresh "Hzt" in intros ?c H; store_simpl_in H
      | let H := fresh "Hzt" in intros ?msg ?c H; store_simpl_in H ]
  | |- wp (webhook_or_throw _ _) _ _ =>
      apply wp_webhook_or_throw; [intros ?Hhook | intros ?msg ?Hhook]
  | |- wp (sendWebhook _ _) _ _ =>
      apply wp_sendWebhook; [intros ?Hhook | intros ?msg ?Hhook]
  | |- wp (sendOrganizationAdminNotification _ _) _ _ =>
      apply wp_sendOrganizationAdminNotification;
      [intros ?Hmail | intros ?msg ?Hmail]
  | |- wp (if ?b then _ else _) _ _ =>
      let H := fresh "Hcase" in
      destruct b eqn:H; store_simpl_in H;
      try rewrite H in *; cbn [opt_flag is_some negb] in *
  | |- wp (match ?x with _ => _ end) _ _ =>
      let H := fresh "Hcase" in
      destruct x eqn:H; store_simpl_in H;
      try rewrite H in *; cbn [opt_flag is_some negb] in *
  | |- wp (checkUserOrganizationRole _ _ _ _) _ _ =>
      unfold checkUserOrganizationRole
  | |- wp (activityLog_create _ _ _) _ _ => unfold activityLog_create
  | |- wp (members_findFirst _) _ _ => unfold members_findFirst
  | |- wp (members_findUnique _ _) _ _ => unfold members_findUnique
  | |- wp (members_findMany _) _ _ => unfold members_findMany
  | |- wp (members_update _ _ _ _) _ _ => unfold members_update
  | |- wp (members_updateMany _ _ _) _ _ => unfold members_updateMany
  | |- wp (members_create _ _) _ _ => unfold members_create
  | |- wp (members_delete _ _ _) _ _ => unfold members_delete
  | |- wp (network_findUnique _) _ _ => unfold network_findUnique
  | |- wp (userOptions_findFirst _) _ _ => unfold userOptions_findFirst
  | |- wp (organizationSettings_findUnique _) _ _ =>
      unfold organizationSettings_findUnique
  | |- wp (organizationSettings_upsert _) _ _ =>
      unfold organizationSettings_upsert
  end.

(** What is already known about a test decides it. *)
Ltac use_fact H x :=
  lazymatch x with
  | true => fail
  | false => fail
  | Some _ => fail
  | None => fail
  | _ => lazymatch goal with |- context [x] => rewrite H end
  end.

Ltac use_facts :=
  repeat match goal with
         | H : ?x = true |- _ => use_fact H x
         | H : ?x = false |- _ => use_fact H x
         | H : ?x = Some _ |- _ => use_fact H x
         | H : ?x = None |- _ => use_fact H x
         end.

Ltac wp_step := use_facts; cbn beta iota zeta; wp_head; store_simpl.

Ltac wp_run := repeat wp_step.

Ltac break_hyps :=
  repeat match goal with
         | H : _ /\ _ |- _ => destruct H
         | H : exists _, _ |- _ => destruct H
         end.

(** The two cases of the role check of a procedure. *)
Ltac role_cases H :=
  unfold role_ok in H;
  match type of H with
  | match given ?o with _ => _ end => destruct (given o) eqn:?
  end.

(** ** delete *)

Lemma app_events {A} (t : list A) a b : (t ++ [a]) ++ b = t ++ a :: b.
Proof. rewrite <- app_assoc. reflexivity. Qed.

Ltac trace_simpl := rewrite ?app_events, <- ?app_assoc; cbn [app].

Lemma set_permanentlyDeleted_key b r :
  nm_id (set_permanentlyDeleted b r) = nm_id r
  /\ nm_nwid (set_permanentlyDeleted b r) = nm_nwid r.
Proof. split; reflexivity. Qed.

Lemma count_rows_deleteMany_same {A} (p : A -> bool) t :
  count_rows p (deleteMany p t) = 0.
Proof.
  unfold count_rows, deleteMany. induction t as [|r t IH]; simpl; [reflexivity|].
  destruct (p r) eqn:Hp; simpl; [exact IH|]. rewrite Hp. exact IH.
Qed.

(** C2 (as amended): delete on a non-central network branches on the stored
    [deleted] flag.  A row with deleted = false: the removal from the
    controller is attempted first; when the controller accepts it, the row is
    deleted outright and no row with that key is left; when the controller
    refuses it, delete throws the controller's error and the member table is
    as it was, the row included.  A row with deleted = true: the controller
    is not called, the row is kept and its [permanentlyDeleted] is set; the
    answer is [{ deleted: true }]. *)
Theorem delete_branches_on_deleted_flag (u : SessionUser) (input : DeleteInput)
  (w : World) (r : network_members) :
  de_central input = false ->
  role_ok E u (de_organizationId input) (db w) ->
  findFirst (has_key (de_id input) (de_nwid input))
    (tbl_network_members (db w)) = Some r ->
  let key := has_key (de_id input) (de_nwid input) in
  let w' := snd (delete E u input w) in
  (nm_deleted r = false ->
   (forall c,
       zt_member_delete E (zt w) (de_nwid input) (de_id input) false
       = (inr tt, c) ->
       findFirst key (tbl_network_members (db w')) = None
       /\ count_rows key (tbl_network_members (db w')) = 0
       /\ zt w' = c
       /\ exists rest,
           trace w'
           = trace w
             ++ EvControllerDelete (de_nwid input) (de_id input) false true
             :: EvMemberWrite (WDelete (de_id input) (de_nwid input)) :: rest)
   /\ (forall msg c,
          zt_member_delete E (zt w) (de_nwid input) (de_id input) false
          = (inl msg, c) ->
          fst (delete E u input w) = inl (ExternalError msg)
          /\ tbl_network_members (db w') = tbl_network_members (db w)
          /\ findFirst key (tbl_network_members (db w')) = Some r
          /\ zt w' = c
          /\ trace w'
             = trace w
               ++ [EvControllerDelete (de_nwid input) (de_id input) false
                     false]))
  /\ (nm_deleted r = true ->
      fst (delete E u input w) = inr DeletedTrue
      /\ findFirst key (tbl_network_members (db w'))
         = Some (set_permanentlyDeleted true r)
      /\ count_rows key (tbl_network_members (db w'))
         = count_rows key (tbl_network_members (db w))
      /\ zt w' = zt w
      /\ exists rest,
          trace w'
          = trace w
            ++ EvMemberWrite
                 (WPermanentlyDelete (de_id input) (de_nwid input)) :: rest).
Proof.
  intros Hc Hrole Hfind key w'. subst key w'.
  destruct input as [org central nwid id].
  cbn [de_organizationId de_central de_nwid de_id] in *. subst central.
  split.
  - intros Hdel. split; [|intros msg c Hzt].
    2: {
      change (wp (delete E u (mk_deleteInput org false nwid id))
                (fun res w' =>
                   res = inl (ExternalError msg)
                   /\ tbl_network_members (db w') = tbl_network_members (db w)
                   /\ findFirst (has_key id nwid) (tbl_network_members (db w'))
                      = Some r
                   /\ zt w' = c
                   /\ trace w'
                      = trace w ++ [EvControllerDelete nwid id false false]) w).
      unfold delete, notify_permanently_deleted.
      cbn [de_organizationId de_central de_nwid de_id].
      role_cases Hrole; wp_run; try congruence.
      all: repeat split; congruence. }
    intros c Hzt.
    change (wp (delete E u (mk_deleteInput org false nwid id))
              (fun _ w' =>
                 findFirst (has_key id nwid) (tbl_network_members (db w')) = None
                 /\ count_rows (has_key id nwid) (tbl_network_members (db w')) = 0
                 /\ zt w' = c
                 /\ exists rest,
                     trace w'
                     = trace w ++ EvControllerDelete nwid id false true
                       :: EvMemberWrite (WDelete id nwid) :: rest) w).
    unfold delete, notify_permanently_deleted.
    cbn [de_organizationId de_central de_nwid de_id].
    role_cases Hrole; wp_run;
      try congruence;
      (split; [apply find_deleteMany_same|];
       split; [apply count_rows_deleteMany_same|];
       split; [congruence|]);
      trace_simpl; eexists; reflexivity.
  - intros Hdel.
    change (wp (delete E u (mk_deleteInput org false nwid id))
              (fun res w' =>
                 res = inr DeletedTrue
                 /\ findFirst (has_key id nwid) (tbl_network_members (db w'))
                    = Some (set_permanentlyDeleted true r)
                 /\ count_rows (has_key id nwid) (tbl_network_members (db w'))
                    = count_rows (has_key id nwid) (tbl_network_members (db w))
                 /\ zt w' = zt w
                 /\ exists rest,
                     trace w'
                     = trace w ++ EvMemberWrite (WPermanentlyDelete id nwid)
                       :: rest) w).
    unfold delete, notify_permanently_deleted.
    cbn [de_organizationId de_central de_nwid de_id].
    role_cases Hrole; wp_run;
      try congruence;
      (split; [reflexivity|];
       split; [rewrite find_updateMany by apply set_permanentlyDeleted_key;
               rewrite Hfind; cbn [option_map];
               destruct (has_key_true id nwid r) as [_ Hk];
               apply find_some_in in Hfind; destruct Hfind as [_ Hfind];
               rewrite Hfind; reflexivity|];
       split; [apply count_rows_updateMany, set_permanentlyDeleted_key|];
       split; [reflexivity|]);
      trace_simpl; eexists; reflexivity.
Qed.

(** ** create *)

Lemma databaseUpdateData_key payload updateParams r :
  nm_id (databaseUpdateData payload updateParams r) = nm_id r
  /\ nm_nwid (databaseUpdateData payload updateParams r) = nm_nwid r.
Proof.
  unfold databaseUpdateData.
  destruct (up_description updateParams), (up_authorized payload),
    (up_name payload); split; reflexivity.
Qed.

Lemma databaseUpdateData_flags payload updateParams r :
  nm_deleted (databaseUpdateData payload updateParams r) = nm_deleted r
  /\ nm_permanentlyDeleted (databaseUpdateData payload updateParams r)
     = nm_permanentlyDeleted r.
Proof.
  unfold databaseUpdateData.
  destruct (up_description updateParams), (up_authorized payload),
    (up_name payload); split; reflexivity.
Qed.

(** The setters leave the key of a row alone. *)
Ltac keeps_key :=
  intro; first [ split; reflexivity | apply databaseUpdateData_key ].

(** Looking a key up in a table that went through rewrites of rows. *)
Ltac find_simpl H :=
  rewrite ?find_updateMany by keeps_key; rewrite H; cbn [option_map].

Lemma updateMany_length {A} (p : A -> bool) f t :
  List.length (updateMany p f t) = List.length t.
Proof. apply length_map. Qed.

Lemma find_updateMany_hit i n f t r :
  (forall r, nm_id (f r) = nm_id r /\ nm_nwid (f r) = nm_nwid r) ->
  findFirst (has_key i n) t = Some r ->
  findFirst (has_key i n) (updateMany (has_key i n) f t) = Some (f r).
Proof.
  intros Hf Hfind. rewrite find_updateMany by exact Hf. rewrite Hfind.
  apply find_some_in in Hfind. destruct Hfind as [_ Hk].
  cbn [option_map]. rewrite Hk. reflexivity.
Qed.

(** The run of create for a pair that has its row: the row is rewritten in
    place, with both flags cleared, and answered. *)
Lemma create_existing_run (u : SessionUser) (input : CreateInput) (w : World)
  (r : network_members) :
  isValidZeroTierNetworkId (ci_id input) = true ->
  ci_central input = false ->
  role_ok E u (ci_organizationId input) (db w) ->
  findFirst (has_key (ci_id input) (ci_nwid input))
    (tbl_network_members (db w)) = Some r ->
  wp (create E u input)
    (fun res w' =>
       exists name,
         let r' := set_name name
                     (set_permanentlyDeleted false (set_deleted false r)) in
         res = inr (Unstashed r')
         /\ findFirst (has_key (ci_id input) (ci_nwid input))
              (tbl_network_members (db w')) = Some r'
         /\ count_rows (has_key (ci_id input) (ci_nwid input))
              (tbl_network_members (db w'))
            = count_rows (has_key (ci_id input) (ci_nwid input))
                (tbl_network_members (db w))
         /\ List.length (tbl_network_members (db w'))
            = List.length (tbl_network_members (db w))) w.
Proof.
  intros Hid Hc Hrole Hfind.
  destruct input as [org id nwid central].
  cbn [ci_organizationId ci_central ci_nwid ci_id] in *. subst central.
  unfold create, notify_node_added, global_name.
  cbn [ci_organizationId ci_central ci_nwid ci_id].
  rewrite Hid. cbn [negb].
  role_cases Hrole; wp_run; try congruence;
    (eexists; cbn zeta; split; [reflexivity|];
     split; [erewrite find_updateMany_hit; [reflexivity|keeps_key|eassumption]|];
     split; [apply count_rows_updateMany; keeps_key|];
     apply updateMany_length).
Qed.

(** C4: create on a non-central network for a (member, network) pair that has
    its row already: the row is rewritten in place with deleted = false, the
    handler answers that row, and no row is inserted: the pair still has
    exactly one row and the table has as many rows as before. *)
Theorem create_existing_row_is_unstashed (u : SessionUser) (input : CreateInput)
  (w : World) :
  isValidZeroTierNetworkId (ci_id input) = true ->
  ci_central input = false ->
  role_ok E u (ci_organizationId input) (db w) ->
  count_rows (has_key (ci_id input) (ci_nwid input))
    (tbl_network_members (db w)) = 1 ->
  let key := has_key (ci_id input) (ci_nwid input) in
  let w' := snd (create E u input w) in
  exists r',
    fst (create E u input w) = inr (Unstashed r')
    /\ findFirst key (tbl_network_members (db w')) = Some r'
    /\ nm_deleted r' = false
    /\ nm_permanentlyDeleted r' = false
    /\ count_rows key (tbl_network_members (db w')) = 1
    /\ List.length (tbl_network_members (db w'))
       = List.length (tbl_network_members (db w)).
Proof.
  intros Hid Hc Hrole Hcount key w'. subst key w'.
  destruct (count_rows_pos_find (has_key (ci_id input) (ci_nwid input))
              (tbl_network_members (db w))) as [r Hfind]; [lia|].
  destruct (create_existing_run u input w r Hid Hc Hrole Hfind)
    as (name & Hres & Hrow & Hcnt & Hlen).
  eexists. split; [exact Hres|]. split; [exact Hrow|].
  split; [reflexivity|]. split; [reflexivity|].
  split; [rewrite Hcnt; exact Hcount|exact Hlen].
Qed.

(** ** bulkDeleteStashed *)

Lemma existsb_id_of_filter (p : network_members -> bool) t m :
  In m t -> p m = true ->
  existsb (fun i => i =? nm_id m) (map nm_id (findMany p t)) = true.
Proof.
  intros Hin Hp. apply existsb_exists. exists (nm_id m). split.
  - apply in_map. apply filter_In. split; assumption.
  - apply String.eqb_refl.
Qed.

Lemma bulk_update_is_transition nwid t :
  updateMany
    (fun m => (nm_nwid m =? nwid)
              && existsb (fun i => i =? nm_id m)
                   (map nm_id
                      (findMany (fun m => (nm_nwid m =? nwid) && nm_deleted m) t))
              && nm_deleted m)
    (set_permanentlyDeleted true) t
  = map (permanently_delete_if_stashed nwid) t.
Proof.
  unfold updateMany. apply map_ext_in. intros m Hin.
  unfold permanently_delete_if_stashed.
  destruct ((nm_nwid m =? nwid) && nm_deleted m) eqn:Hp.
  - rewrite (existsb_id_of_filter _ t m Hin Hp).
    apply andb_true_iff in Hp. destruct Hp as [-> ->]. reflexivity.
  - destruct (nm_nwid m =? nwid); [|reflexivity].
    destruct (nm_deleted m); [discriminate|].
    rewrite andb_false_r. reflexivity.
Qed.

Lemma no_stashed_no_transition nwid t :
  findMany (fun m => (nm_nwid m =? nwid) && nm_deleted m) t = [] ->
  t = map (permanently_delete_if_stashed nwid) t.
Proof.
  intros Hnone. rewrite <- (map_id t) at 1. apply map_ext_in. intros m Hin.
  unfold permanently_delete_if_stashed.
  destruct ((nm_nwid m =? nwid) && nm_deleted m) eqn:Hp; [|reflexivity].
  assert (Hm : In m (findMany (fun m => (nm_nwid m =? nwid) && nm_deleted m) t))
    by (apply filter_In; split; assumption).
  rewrite Hnone in Hm. destruct Hm.
Qed.

Lemma permanently_delete_if_stashed_twice nwid t :
  map (permanently_delete_if_stashed nwid)
    (map (permanently_delete_if_stashed nwid) t)
  = map (permanently_delete_if_stashed nwid) t.
Proof.
  rewrite map_map. apply map_ext. intros m.
  unfold permanently_delete_if_stashed.
  destruct ((nm_nwid m =? nwid) && nm_deleted m) eqn:Hp; [|rewrite Hp; reflexivity].
  cbn [set_permanentlyDeleted nm_nwid nm_deleted]. rewrite Hp. reflexivity.
Qed.

Lemma length_zero_nil {A} (l : list A) :
  (List.length l =? 0)%nat = true -> l = [].
Proof. destruct l; [reflexivity|discriminate]. Qed.

(** One run of bulkDeleteStashed: it answers when the network is found with
    the caller's permission, and then every row went through the transition;
    it throws otherwise, and then no row changed.  The tables of the
    permission check are not written. *)
Lemma bulkDeleteStashed_run u input (w : World) :
  wp (bulkDeleteStashed E u input)
    (fun res w' =>
       tbl_network (db w') = tbl_network (db w)
       /\ tbl_userOrganizationRole (db w') = tbl_userOrganizationRole (db w)
       /\ match res with
          | inr result =>
              may_bulk_delete u input (db w)
              /\ tbl_network_members (db w')
                 = map (permanently_delete_if_stashed (bi_nwid input))
                     (tbl_network_members (db w))
              /\ deletedCount result
                 = count_rows (fun m => (nm_nwid m =? bi_nwid input)
                                        && nm_deleted m)
                     (tbl_network_members (db w))
          | inl _ =>
              ~ may_bulk_delete u input (db w)
              /\ tbl_network_members (db w') = tbl_network_members (db w)
          end) w.
Proof.
  destruct input as [nwid org]. unfold bulkDeleteStashed, may_bulk_delete.
  cbn [bi_nwid bi_organizationId].
  wp_run.
  all: split; [reflexivity|]; split; [reflexivity|].
  all: try (split; [solve [eauto]|]).
  all: try (split; [intros H; break_hyps; congruence|reflexivity]).
  all: try (match goal with
            | H : (List.length _ =? 0)%nat = true |- _ =>
                apply length_zero_nil in H;
                split; [apply no_stashed_no_transition; assumption|];
                unfold count_rows; unfold findMany in H; rewrite H;
                reflexivity
            end).
  all: split; [apply bulk_update_is_transition|].
  all: cbn [deletedCount]; unfold count_rows; f_equal;
    apply filter_ext_in; intros m Hin;
    destruct ((nm_nwid m =? nwid) && nm_deleted m) eqn:Hp;
    [rewrite (existsb_id_of_filter _ _ m Hin Hp);
     apply andb_true_iff in Hp; destruct Hp as [-> ->]; reflexivity
    |destruct (nm_nwid m =? nwid); [|reflexivity];
     destruct (nm_deleted m); [discriminate|apply andb_false_r]].
Qed.

(** C5: a permitted bulkDeleteStashed sets [permanentlyDeleted] on exactly
    the rows of the network that have deleted = true, whatever their
    [permanentlyDeleted] was, and leaves every other row, of this network or
    another, as it is; a second run answers again and leaves every member row
    as the first run left it. *)
Theorem bulkDeleteStashed_marks_stashed_rows_once (u : SessionUser)
  (input : BulkInput) (w : World) :
  may_bulk_delete u input (db w) ->
  let w1 := snd (bulkDeleteStashed E u input w) in
  let w2 := snd (bulkDeleteStashed E u input w1) in
  (exists result,
      fst (bulkDeleteStashed E u input w) = inr result
      /\ deletedCount result
         = count_rows (fun m => (nm_nwid m =? bi_nwid input) && nm_deleted m)
             (tbl_network_members (db w)))
  /\ tbl_network_members (db w1)
     = map (permanently_delete_if_stashed (bi_nwid input))
         (tbl_network_members (db w))
  /\ (exists result, fst (bulkDeleteStashed E u input w1) = inr result)
  /\ tbl_network_members (db w2) = tbl_network_members (db w1).
Proof.
  intros Hmay w1 w2.
  pose proof (bulkDeleteStashed_run u input w) as H1.
  pose proof (bulkDeleteStashed_run u input w1) as H2.
  unfold wp in H1, H2. fold w1 in H1. fold w2 in H2.
  destruct H1 as (Hnet & Hrole & H1). destruct H2 as (_ & _ & H2).
  destruct (fst (bulkDeleteStashed E u input w)) as [e|result];
    [destruct H1 as [H1 _]; contradiction|].
  destruct H1 as (_ & Hm1 & Hc1).
  assert (Hmay1 : may_bulk_delete u input (db w1)).
  { unfold may_bulk_delete in *. rewrite Hnet, Hrole. exact Hmay. }
  destruct (fst (bulkDeleteStashed E u input w1)) as [e|result2];
    [destruct H2 as [H2 _]; contradiction|].
  destruct H2 as (_ & Hm2 & _).
  split; [eauto|]. split; [exact Hm1|]. split; [eauto|].
  rewrite Hm2, Hm1. apply permanently_delete_if_stashed_twice.
Qed.

(** ** stash *)

Lemma find_updateMany_some i n p f t r :
  (forall r, nm_id (f r) = nm_id r /\ nm_nwid (f r) = nm_nwid r) ->
  findFirst (has_key i n) t = Some r ->
  findFirst (has_key i n) (updateMany p f t) = Some (if p r then f r else r).
Proof.
  intros Hf Hfind. rewrite find_updateMany by exact Hf. rewrite Hfind.
  reflexivity.
Qed.

Lemma found_has_key i n t r :
  findFirst (has_key i n) t = Some r -> nm_id r = i /\ nm_nwid r = n.
Proof.
  intros H. apply find_some_in in H. destruct H as [_ H].
  apply has_key_true in H. exact H.
Qed.

Lemma found_network n nets net :
  findFirst (fun r => nw_nwid r =? n) nets = Some net -> nw_nwid net = n.
Proof.
  intros H. apply find_some_in in H. destruct H as [_ H].
  apply String.eqb_eq in H. exact H.
Qed.

(** C9: stash de-authorizes the member on the controller first: the first
    thing it does to the world is a controller update of the member whose
    payload is exactly authorized = false with empty ipAssignments, tags and
    capabilities, and nothing else.  It marks the row deleted afterwards; the
    row ends with deleted = true whatever the controller answered, and
    whatever became of the webhooks and the e-mail. *)
Theorem stash_marks_deleted_whatever_the_controller_answers
  (u : SessionUser) (input : StashInput) (w : World)
  (net : network) (r : network_members) :
  role_ok E u (si_organizationId input) (db w) ->
  findFirst (fun n => nw_nwid n =? si_nwid input) (tbl_network (db w))
  = Some net ->
  findFirst (has_key (si_id input) (si_nwid input))
    (tbl_network_members (db w)) = Some r ->
  let w' := snd (stash E u input w) in
  (exists r',
      findFirst (has_key (si_id input) (si_nwid input))
        (tbl_network_members (db w')) = Some r'
      /\ nm_deleted r' = true)
  /\ exists ok rest,
      trace w'
      = trace w
        ++ EvControllerUpdate (si_nwid input) (si_id input) false
             (Plain
                {| up_name := None; up_description := None;
                   up_activeBridge := None; up_noAutoAssignIps := None;
                   up_ipAssignments := Some []; up_authorized := Some false;
                   up_capabilities := Some []; up_tags := Some [] |}) ok
           :: rest
      /\ In (EvMemberWrite (WStash (si_id input) (si_nwid input))) rest.
Proof.
  intros Hrole Hnet Hfind w'. subst w'.
  destruct input as [org nwid id].
  cbn [si_organizationId si_nwid si_id] in *.
  pose proof (found_has_key _ _ _ _ Hfind) as [Hid Hnw].
  pose proof (found_network _ _ _ Hnet) as Hn.
  change (wp (stash E u (mk_stashInput org nwid id))
            (fun _ w' =>
               (exists r',
                   findFirst (has_key id nwid) (tbl_network_members (db w'))
                   = Some r'
                   /\ nm_deleted r' = true)
               /\ exists ok rest,
                   trace w'
                   = trace w
                     ++ EvControllerUpdate nwid id false (Plain deauthorize) ok
                     :: rest
                   /\ In (EvMemberWrite (WStash id nwid)) rest) w).
  unfold stash, Update, update_current_network, global_name_update,
    prepare_payload, update_database,
    notify_node_deauthorized.
  cbn [si_organizationId si_nwid si_id ui_nwid ui_memberId ui_central
       ui_organizationId ui_updateParams].
  change (invalidIPs E deauthorize) with (@nil string).
  cbn [up_name up_authorized up_description deauthorize List.length Nat.ltb
       Nat.leb has_database_fields is_some orb negb].
  role_cases Hrole; wp_run; try congruence.
  all: split;
    [ find_simpl Hfind; eexists; split; [reflexivity|];
      unfold has_key; rewrite ?Hn; cbn [nm_id nm_nwid];
      rewrite ?(proj1 (databaseUpdateData_key _ _ _)),
        ?(proj2 (databaseUpdateData_key _ _ _)), ?Hid, ?Hnw, ?String.eqb_refl;
      cbn [andb]; rewrite ?(proj1 (databaseUpdateData_key _ _ _)),
        ?(proj2 (databaseUpdateData_key _ _ _)), ?Hid, ?Hnw, ?String.eqb_refl;
      reflexivity
    | trace_simpl; eexists; eexists; split; [reflexivity|];
      cbn [In]; tauto ].
Qed.

(** ** The lifecycle: what brings a row back to ACTIVE *)

Lemma never_reactivated_refl t : never_reactivated t t.
Proof.
  intros i n r Hfind Hr. rewrite Hfind. split; [exact Hr|exact (fun H => H)].
Qed.

Lemma never_reactivated_updateMany p f t t' :
  keeps_inactive f ->
  never_reactivated t t' -> never_reactivated t (updateMany p f t').
Proof.
  intros Hf H i n r Hfind Hr. specialize (H i n r Hfind Hr).
  rewrite find_updateMany by (intro x; apply (Hf x)).
  destruct (findFirst (has_key i n) t') as [r'|]; cbn [option_map]; [|exact I].
  destruct H as [Ha Hp]. destruct (p r'); [|split; assumption].
  destruct (Hf r') as (_ & Hfa & Hfp). split; auto.
Qed.

Lemma never_reactivated_deleteMany i0 n0 t t' :
  never_reactivated t t' ->
  never_reactivated t (deleteMany (has_key i0 n0) t').
Proof.
  intros H i n r Hfind Hr. specialize (H i n r Hfind Hr).
  destruct (String.eqb_spec i i0) as [->|Hi].
  - destruct (String.eqb_spec n n0) as [->|Hn].
    + rewrite find_deleteMany_same. exact I.
    + rewrite find_deleteMany_other by congruence. exact H.
  - rewrite find_deleteMany_other by congruence. exact H.
Qed.

Lemma keeps_inactive_set_deleted : keeps_inactive (set_deleted true).
Proof.
  intros r. split; [split; reflexivity|]. split; [reflexivity|].
  exact (fun H => H).
Qed.

Lemma keeps_inactive_set_permanentlyDeleted :
  keeps_inactive (set_permanentlyDeleted true).
Proof.
  intros r. split; [split; reflexivity|]. split; [|reflexivity].
  intros _. unfold is_active. cbn [set_permanentlyDeleted nm_permanentlyDeleted].
  apply andb_false_r.
Qed.

Lemma keeps_inactive_databaseUpdateData payload updateParams :
  keeps_inactive (databaseUpdateData payload updateParams).
Proof.
  intros r. split; [apply databaseUpdateData_key|].
  destruct (databaseUpdateData_flags payload updateParams r) as [Hd Hp].
  unfold is_active. rewrite Hd, Hp. split; exact (fun H => H).
Qed.

Ltac never_reactivated_tac :=
  repeat first
    [ apply never_reactivated_refl
    | apply never_reactivated_deleteMany
    | apply never_reactivated_updateMany;
      [ first [ apply keeps_inactive_set_deleted
              | apply keeps_inactive_set_permanentlyDeleted
              | apply keeps_inactive_databaseUpdateData ] | ] ].

Lemma stash_never_reactivates u input (w : World) :
  never_reactivated (tbl_network_members (db w))
    (tbl_network_members (db (snd (stash E u input w)))).
Proof.
  destruct input as [org nwid id].
  change (wp (stash E u (mk_stashInput org nwid id))
            (fun _ w' =>
               never_reactivated (tbl_network_members (db w))
                 (tbl_network_members (db w'))) w).
  unfold stash, Update, update_current_network, global_name_update,
    prepare_payload, update_database,
    notify_node_deauthorized.
  cbn [si_organizationId si_nwid si_id ui_nwid ui_memberId ui_central
       ui_organizationId ui_updateParams].
  change (invalidIPs E deauthorize) with (@nil string).
  cbn [up_name up_authorized up_description deauthorize List.length Nat.ltb
       Nat.leb has_database_fields is_some orb negb].
  wp_run; never_reactivated_tac.
Qed.

Lemma delete_never_reactivates u input (w : World) :
  never_reactivated (tbl_network_members (db w))
    (tbl_network_members (db (snd (delete E u input w)))).
Proof.
  destruct input as [org central nwid id].
  change (wp (delete E u (mk_deleteInput org central nwid id))
            (fun _ w' =>
               never_reactivated (tbl_network_members (db w))
                 (tbl_network_members (db w'))) w).
  unfold delete, notify_permanently_deleted.
  cbn [de_organizationId de_central de_nwid de_id].
  wp_run; never_reactivated_tac.
Qed.

Lemma bulkDeleteStashed_never_reactivates u input (w : World) :
  never_reactivated (tbl_network_members (db w))
    (tbl_network_members (db (snd (bulkDeleteStashed E u input w)))).
Proof.
  pose proof (bulkDeleteStashed_run u input w) as H. unfold wp in H.
  destruct H as (_ & _ & H).
  destruct (fst (bulkDeleteStashed E u input w)) as [e|result].
  - destruct H as [_ ->]. apply never_reactivated_refl.
  - destruct H as (_ & -> & _).
    change (map (permanently_delete_if_stashed (bi_nwid input))
              (tbl_network_members (db w)))
      with (updateMany (fun m => (nm_nwid m =? bi_nwid input) && nm_deleted m)
              (set_permanentlyDeleted true) (tbl_network_members (db w))).
    never_reactivated_tac.
Qed.

(** C3 (as amended): stash, delete and bulkDeleteStashed never bring a row
    that is stashed or permanently deleted back to ACTIVE, and a permanently
    deleted row they leave in the table is still permanently deleted.  The
    explicit re-add, create, is the one lifecycle operation that returns a row
    to ACTIVE, and it does so for the row it finds whatever its flags were, a
    permanently deleted row included. *)
Theorem only_create_returns_a_row_to_active (u : SessionUser) (w : World)
  (again : CreateInput) (r : network_members) :
  isValidZeroTierNetworkId (ci_id again) = true ->
  ci_central again = false ->
  role_ok E u (ci_organizationId again) (db w) ->
  findFirst (has_key (ci_id again) (ci_nwid again))
    (tbl_network_members (db w)) = Some r ->
  let t := tbl_network_members (db w) in
  (forall input,
      never_reactivated t (tbl_network_members (db (snd (stash E u input w)))))
  /\ (forall input,
         never_reactivated t
           (tbl_network_members (db (snd (delete E u input w)))))
  /\ (forall input,
         never_reactivated t
           (tbl_network_members (db (snd (bulkDeleteStashed E u input w)))))
  /\ exists r',
      findFirst (has_key (ci_id again) (ci_nwid again))
        (tbl_network_members (db (snd (create E u again w)))) = Some r'
      /\ is_active r' = true.
Proof.
  intros Hid Hc Hrole Hfind t. subst t.
  split; [intro; apply stash_never_reactivates|].
  split; [intro; apply delete_never_reactivates|].
  split; [intro; apply bulkDeleteStashed_never_reactivates|].
  destruct (create_existing_run u again w r Hid Hc Hrole Hfind)
    as (name & _ & Hrow & _).
  eexists. split; [exact Hrow|reflexivity].
Qed.

(** ** Update: the global rename *)

Lemma updateMany_id {A} (p : A -> bool) t : updateMany p (fun r => r) t = t.
Proof.
  unfold updateMany. rewrite <- (map_id t) at 2. apply map_ext.
  intros r. destruct (p r); reflexivity.
Qed.

Ltac touches_tac :=
  repeat first [ apply Forall_nil | apply Forall_cons; [cbn; auto|] ].

(** The part of Update for the edited network writes no row but the edited
    one and calls the controller for no other network. *)
Lemma update_current_network_run u input (w : World) :
  wp (update_current_network E u input)
    (fun _ w' =>
       (exists g,
           tbl_network_members (db w')
           = updateMany (has_key (ui_memberId input) (ui_nwid input)) g
               (tbl_network_members (db w)))
       /\ exists evs,
           trace w' = trace w ++ evs
           /\ Forall (touches_only (ui_nwid input)) evs) w.
Proof.
  destruct input as [nwid memberId central org updateParams].
  unfold update_current_network, prepare_payload, update_database,
    notify_node_deauthorized.
  cbn [ui_nwid ui_memberId ui_central ui_organizationId ui_updateParams].
  wp_run.
  all: split;
    [ first [ eexists; reflexivity
            | exists (fun r => r); rewrite updateMany_id; reflexivity ]
    | trace_simpl; eexists; split;
      [ first [ reflexivity | symmetry; apply app_nil_r ] | touches_tac ] ].
Qed.

(** With global naming off the name goes to no other network. *)
Lemma global_name_update_off u input (w : World) :
  global_naming u input (db w) = false ->
  wp (global_name_update E u input
        (findFirst (fun r => uo_userId r =? user_id u) (tbl_userOptions (db w))))
    (fun res w' =>
       res = inr tt
       /\ tbl_network_members (db w') = tbl_network_members (db w)
       /\ trace w' = trace w) w.
Proof.
  intros Hoff. destruct input as [nwid memberId central org updateParams].
  unfold global_naming in Hoff. unfold global_name_update.
  cbn [ui_nwid ui_memberId ui_central ui_organizationId ui_updateParams] in *.
  destruct (given org) eqn:Hg; wp_run; try discriminate; auto.
Qed.

Lemma rename_in_other_networks_run memberId updateParams name wd l :
  forall w : World,
    accepts_fan_out E memberId updateParams (map nm_nwid l) (zt w) = true ->
    wp (rename_in_other_networks E memberId updateParams name wd l)
      (fun res w' =>
         res = inr tt
         /\ tbl_network_members (db w')
            = map (fun m => fold_left (rename_step memberId name updateParams wd)
                              l m)
                (tbl_network_members (db w))
         /\ trace w'
            = trace w ++ flat_map (rename_events memberId updateParams) l) w.
Proof.
  unfold rename_in_other_networks.
  induction l as [|row l IH]; intros w Hacc; cbn [for_each].
  - apply wp_ret. split; [reflexivity|]. cbn [fold_left flat_map].
    rewrite map_id, app_nil_r. split; reflexivity.
  - cbn [map accepts_fan_out] in Hacc.
    apply wp_bind. wp_step. wp_step.
    + rewrite Hzt in Hacc. wp_run. eapply wp_conseq; [apply IH; exact Hacc|].
      cbn beta. intros res w' (-> & Hm & Ht). store_simpl_all.
      split; [reflexivity|]. split.
      * rewrite Hm. unfold updateMany. rewrite map_map. apply map_ext.
        intros m. cbn [fold_left].
        unfold rename_step at 2. unfold rename_hit, rename_row.
        destruct wd; reflexivity.
      * rewrite Ht. cbn [flat_map rename_events]. trace_simpl. reflexivity.
    + rewrite Hzt in Hacc. discriminate.
Qed.

Lemma rename_row_hit memberId name updateParams wd m row :
  rename_hit memberId (rename_row name updateParams wd m) row
  = rename_hit memberId m row.
Proof.
  unfold rename_hit, rename_row.
  destruct wd; [destruct (up_description updateParams)|]; reflexivity.
Qed.

Lemma rename_row_twice name updateParams wd m :
  rename_row name updateParams wd (rename_row name updateParams wd m)
  = rename_row name updateParams wd m.
Proof.
  unfold rename_row.
  destruct wd; [destruct (up_description updateParams)|]; reflexivity.
Qed.

Lemma rename_fold_renamed memberId name updateParams wd l m :
  fold_left (rename_step memberId name updateParams wd) l
    (rename_row name updateParams wd m)
  = rename_row name updateParams wd m.
Proof.
  induction l as [|row l IH]; cbn [fold_left]; [reflexivity|].
  unfold rename_step at 2. rewrite rename_row_hit, rename_row_twice.
  destruct (rename_hit memberId m row); exact IH.
Qed.

Lemma rename_fold_miss memberId name updateParams wd l m :
  (forall row, In row l -> rename_hit memberId m row = false) ->
  fold_left (rename_step memberId name updateParams wd) l m = m.
Proof.
  induction l as [|row l IH]; intros H; cbn [fold_left]; [reflexivity|].
  unfold rename_step at 2. rewrite (H row (or_introl eq_refl)). apply IH.
  intros row' Hin. apply H. right. exact Hin.
Qed.

Lemma rename_fold_hit memberId name updateParams wd l m :
  (exists row, In row l /\ rename_hit memberId m row = true) ->
  fold_left (rename_step memberId name updateParams wd) l m
  = rename_row name updateParams wd m.
Proof.
  induction l as [|row l IH]; intros (row' & Hin & Hhit); [destruct Hin|].
  cbn [fold_left]. unfold rename_step at 2.
  destruct (rename_hit memberId m row) eqn:Hrow.
  - apply rename_fold_renamed.
  - apply IH. exists row'. split; [|exact Hhit].
    destruct Hin as [->|Hin]; [congruence|exact Hin].
Qed.

(** The whole loop over the rows that [other_networks_with_member] selects
    rewrites exactly those rows. *)
Lemma rename_fold_selected memberId nwid scope nets name updateParams wd t :
  let selected := other_networks_with_member memberId nwid scope nets in
  map (fun m => fold_left (rename_step memberId name updateParams wd)
                  (findMany selected t) m) t
  = updateMany selected (rename_row name updateParams wd) t.
Proof.
  intros selected. unfold updateMany. apply map_ext_in. intros m Hin.
  destruct (selected m) eqn:Hsel.
  - apply rename_fold_hit. exists m. split.
    + apply filter_In. split; assumption.
    + unfold selected, other_networks_with_member in Hsel.
      apply andb_true_iff in Hsel. destruct Hsel as [Hsel _].
      apply andb_true_iff in Hsel. destruct Hsel as [Hsel _].
      apply andb_true_iff in Hsel. destruct Hsel as [Hid Hdel].
      unfold rename_hit. rewrite Hid, Hdel, String.eqb_refl. reflexivity.
  - apply rename_fold_miss. intros row Hrow.
    apply filter_In in Hrow. destruct Hrow as [_ Hrow].
    destruct (rename_hit memberId m row) eqn:Hhit; [|reflexivity].
    exfalso. unfold rename_hit in Hhit.
    apply andb_true_iff in Hhit. destruct Hhit as [Hhit Hdel].
    apply andb_true_iff in Hhit. destruct Hhit as [Hid Hnw].
    apply String.eqb_eq in Hnw.
    unfold selected, other_networks_with_member in Hsel, Hrow.
    unfold nwid_ref in Hsel, Hrow. rewrite Hnw, Hid, Hdel in Hsel.
    apply andb_true_iff in Hrow. destruct Hrow as [Hrow Hscope].
    apply andb_true_iff in Hrow. destruct Hrow as [_ Hother].
    rewrite Hother, Hscope in Hsel. discriminate.
Qed.

(** With global naming on, and a controller that accepts the updates of the
    fan-out, the name goes to every row that [renamed_elsewhere] selects,
    controller first. *)
Lemma global_name_update_on u input name (w : World) :
  up_name (ui_updateParams input) = Some name ->
  name <> "" ->
  global_naming u input (db w) = true ->
  accepts_fan_out E (ui_memberId input) (ui_updateParams input)
    (map nm_nwid
       (findMany (renamed_elsewhere u input (db w))
          (tbl_network_members (db w)))) (zt w) = true ->
  wp (global_name_update E u input
        (findFirst (fun r => uo_userId r =? user_id u) (tbl_userOptions (db w))))
    (fun res w' =>
       res = inr tt
       /\ tbl_network_members (db w')
          = updateMany (renamed_elsewhere u input (db w)) (renamed_as input name)
              (tbl_network_members (db w))
       /\ trace w'
          = trace w
            ++ flat_map
                 (rename_events (ui_memberId input) (ui_updateParams input))
                 (findMany (renamed_elsewhere u input (db w))
                    (tbl_network_members (db w)))) w.
Proof.
  intros Hname Hne Hon Hacc.
  destruct input as [nwid memberId central org updateParams].
  unfold global_naming in Hon.
  unfold renamed_elsewhere, ownership_scope in Hacc.
  unfold global_name_update, renamed_elsewhere, renamed_as, ownership_scope.
  cbn [ui_nwid ui_memberId ui_central ui_organizationId ui_updateParams] in *.
  rewrite Hname. apply String.eqb_neq in Hne. rewrite Hne.
  destruct (given org) eqn:Hg; wp_run; try discriminate.
  all: eapply wp_conseq;
    [ apply rename_in_other_networks_run; exact Hacc | ].
  all: cbn beta; intros res w' (-> & Hm & Ht); store_simpl_all.
  all: split; [reflexivity|]; split; [|exact Ht].
  all: rewrite Hm; apply rename_fold_selected.
Qed.

Lemma Update_after_log_off u input (w : World) :
  global_naming u input (db w) = false ->
  wp (bind (userOptions_findFirst (user_id u))
        (fun userOptions =>
           bind (global_name_update E u input userOptions)
             (fun _ => update_current_network E u input)))
    (fun _ w' =>
       (exists g,
           tbl_network_members (db w')
           = updateMany (has_key (ui_memberId input) (ui_nwid input)) g
               (tbl_network_members (db w)))
       /\ exists evs,
           trace w' = trace w ++ evs
           /\ Forall (touches_only (ui_nwid input)) evs) w.
Proof.
  intros Hoff. wp_run.
  eapply wp_conseq; [apply global_name_update_off; exact Hoff|].
  cbn beta. intros res w1 (-> & Hm & Ht).
  eapply wp_conseq; [apply update_current_network_run|].
  cbn beta. intros _ w2 ((g & Hg) & evs & Hevs & Hall).
  rewrite Hm in Hg. rewrite Ht in Hevs. eauto.
Qed.

Lemma in_flat_map_rename memberId updateParams l r :
  In r l ->
  In (EvControllerUpdate (nm_nwid r) memberId false (Plain updateParams) true)
    (flat_map (rename_events memberId updateParams) l)
  /\ In (EvMemberWrite (WRenameOther memberId (nm_nwid r)))
       (flat_map (rename_events memberId updateParams) l).
Proof.
  intros Hin. split; apply in_flat_map; exists r;
    (split; [exact Hin|cbn; auto]).
Qed.

Lemma Update_after_log_on u input name (w : World) :
  up_name (ui_updateParams input) = Some name ->
  name <> "" ->
  global_naming u input (db w) = true ->
  accepts_fan_out E (ui_memberId input) (ui_updateParams input)
    (map nm_nwid
       (findMany (renamed_elsewhere u input (db w))
          (tbl_network_members (db w)))) (zt w) = true ->
  wp (bind (userOptions_findFirst (user_id u))
        (fun userOptions =>
           bind (global_name_update E u input userOptions)
             (fun _ => update_current_network E u input)))
    (fun _ w' =>
       (exists g,
           tbl_network_members (db w')
           = updateMany (has_key (ui_memberId input) (ui_nwid input)) g
               (updateMany (renamed_elsewhere u input (db w))
                  (renamed_as input name) (tbl_network_members (db w))))
       /\ exists evs,
           trace w' = trace w ++ evs
           /\ forall r,
               In r (tbl_network_members (db w)) ->
               renamed_elsewhere u input (db w) r = true ->
               In (EvControllerUpdate (nm_nwid r) (ui_memberId input) false
                     (Plain (ui_updateParams input)) true) evs
               /\ In (EvMemberWrite
                        (WRenameOther (ui_memberId input) (nm_nwid r))) evs) w.
Proof.
  intros Hname Hne Hon Hacc. wp_run.
  eapply wp_conseq; [apply (global_name_update_on u input name); assumption|].
  cbn beta. intros res w1 (-> & Hm & Ht).
  eapply wp_conseq; [apply update_current_network_run|].
  cbn beta. intros _ w2 ((g & Hg) & evs & Hevs & _).
  rewrite Hm in Hg. rewrite Ht, <- app_assoc in Hevs.
  split; [eauto|]. eexists. split; [exact Hevs|].
  intros r Hin Hsel.
  destruct (in_flat_map_rename (ui_memberId input) (ui_updateParams input)
              (findMany (renamed_elsewhere u input (db w))
                 (tbl_network_members (db w))) r) as [H1 H2].
  { apply filter_In. split; assumption. }
  split; apply in_or_app; left; assumption.
Qed.

(** The run of Update up to the lookup of the user options. *)
Ltac wp_until_userOptions :=
  repeat lazymatch goal with
         | |- wp (bind (userOptions_findFirst _) _) _ _ => fail
         | |- _ => wp_step
         end.

(** C6 (as amended): an Update call that carries a non-empty name.  With the
    global-naming setting off, no row but the edited one is written and the
    controller is called for no other network.  With the setting on, and a
    controller that accepts the updates the fan-out makes (one per reached
    network, in turn, from the state the controller is in), every other
    network of the same ownership scope that has a non-stashed member of that
    identifier gets a controller update and then a store update that writes
    the name; the edited network is not among them, and every row outside
    them and outside the edited key is left as it was. *)
Theorem Update_rename_reaches_the_ownership_scope (u : SessionUser)
  (input : UpdateInput) (name : string) (w : World) :
  up_name (ui_updateParams input) = Some name ->
  name <> "" ->
  role_ok E u (ui_organizationId input) (db w) ->
  let t := tbl_network_members (db w) in
  let w' := snd (Update E u input w) in
  let key := has_key (ui_memberId input) (ui_nwid input) in
  (global_naming u input (db w) = false ->
   (exists g, tbl_network_members (db w') = updateMany key g t)
   /\ exists evs,
       trace w' = trace w ++ evs
       /\ Forall (touches_only (ui_nwid input)) evs)
  /\ (global_naming u input (db w) = true ->
      accepts_fan_out E (ui_memberId input) (ui_updateParams input)
        (map nm_nwid (findMany (renamed_elsewhere u input (db w)) t)) (zt w)
      = true ->
      (exists g,
          tbl_network_members (db w')
          = updateMany key g
              (updateMany (renamed_elsewhere u input (db w))
                 (renamed_as input name) t))
      /\ exists evs,
          trace w' = trace w ++ evs
          /\ forall r,
              In r t ->
              renamed_elsewhere u input (db w) r = true ->
              In (EvControllerUpdate (nm_nwid r) (ui_memberId input) false
                    (Plain (ui_updateParams input)) true) evs
              /\ In (EvMemberWrite
                       (WRenameOther (ui_memberId input) (nm_nwid r))) evs).
Proof.
  intros Hname Hne Hrole t w' key. subst t w' key. split.
  - intros Hoff.
    change (wp (Update E u input)
              (fun _ w' =>
                 (exists g,
                     tbl_network_members (db w')
                     = updateMany (has_key (ui_memberId input) (ui_nwid input)) g
                         (tbl_network_members (db w)))
                 /\ exists evs,
                     trace w' = trace w ++ evs
                     /\ Forall (touches_only (ui_nwid input)) evs) w).
    unfold Update.
    role_cases Hrole; wp_until_userOptions;
      match goal with
      | |- wp _ _ ?w0 => exact (Update_after_log_off u input w0 Hoff)
      end.
  - intros Hon Hacc.
    change (wp (Update E u input)
              (fun _ w' =>
                 (exists g,
                     tbl_network_members (db w')
                     = updateMany (has_key (ui_memberId input) (ui_nwid input)) g
                         (updateMany (renamed_elsewhere u input (db w))
                            (renamed_as input name)
                            (tbl_network_members (db w))))
                 /\ exists evs,
                     trace w' = trace w ++ evs
                     /\ forall r,
                         In r (tbl_network_members (db w)) ->
                         renamed_elsewhere u input (db w) r = true ->
                         In (EvControllerUpdate (nm_nwid r) (ui_memberId input)
                               false (Plain (ui_updateParams input)) true) evs
                         /\ In (EvMemberWrite
                                  (WRenameOther (ui_memberId input) (nm_nwid r)))
                              evs) w).
    unfold Update.
    role_cases Hrole; wp_until_userOptions;
      match goal with
      | |- wp _ _ ?w0 =>
          exact (Update_after_log_on u input name w0 Hname Hne Hon Hacc)
      end.
Qed.

(** ** Notifications: runs under another sender *)

Lemma same_state_refl (w : World) : same_state w w.
Proof. split; reflexivity. Qed.

Lemma agree_ret {A} (a : A) : agree (Controller:=Controller) (ret a) (ret a).
Proof. intros w1 w2 H. split; [reflexivity|exact H]. Qed.

Lemma agree_throw {A} (e : Exn) :
  agree (Controller:=Controller) (A:=A) (throw e) (throw e).
Proof. intros w1 w2 H. split; [reflexivity|exact H]. Qed.

Lemma agree_bind {A B} (m1 m2 : M A) (k1 k2 : A -> M B) :
  agree m1 m2 -> (forall a, agree (k1 a) (k2 a)) ->
  agree (bind m1 k1) (bind m2 k2).
Proof.
  intros Hm Hk w1 w2 H. unfold bind. destruct (Hm w1 w2 H) as [Hr Hs].
  destruct (m1 w1) as [[e1|a1] w1'], (m2 w2) as [[e2|a2] w2'];
    cbn in Hr, Hs |- *; try discriminate.
  - injection Hr as ->. split; [reflexivity|exact Hs].
  - injection Hr as ->. apply Hk. exact Hs.
Qed.

Lemma agree_try_catch {A} (m1 m2 : M A) (h1 h2 : Exn -> M A) :
  agree m1 m2 -> (forall e, agree (h1 e) (h2 e)) ->
  agree (try_catch m1 h1) (try_catch m2 h2).
Proof.
  intros Hm Hh w1 w2 H. unfold try_catch. destruct (Hm w1 w2 H) as [Hr Hs].
  destruct (m1 w1) as [[e1|a1] w1'], (m2 w2) as [[e2|a2] w2'];
    cbn in Hr, Hs |- *; try discriminate.
  - injection Hr as ->. apply Hh. exact Hs.
  - split; [exact Hr|exact Hs].
Qed.

Lemma agree_getDB : agree (Controller:=Controller) getDB getDB.
Proof. intros w1 w2 H. split; [cbn; f_equal; apply H|exact H]. Qed.

Lemma agree_modifyDB f : agree (Controller:=Controller) (modifyDB f) (modifyDB f).
Proof.
  intros w1 w2 [Hd Hz]. split; [reflexivity|]. split; cbn; congruence.
Qed.

Lemma agree_emit e1 e2 : agree (Controller:=Controller) (emit e1) (emit e2).
Proof. intros w1 w2 H. split; [reflexivity|exact H]. Qed.

Lemma agree_member_update (E1 E2 : Externals Controller CentralNetworks)
  nwid memberId central p :
  same_controller E1 E2 ->
  agree (member_update E1 nwid memberId central p)
    (member_update E2 nwid memberId central p).
Proof.
  intros (Hu & _) w1 w2 [Hd Hz]. unfold member_update. rewrite Hu, Hz.
  destruct (zt_member_update E2 (zt w2) nwid memberId central p) as [[msg|r] c];
    (split; [reflexivity|split; [exact Hd|reflexivity]]).
Qed.

Lemma agree_member_delete (E1 E2 : Externals Controller CentralNetworks)
  nwid memberId central :
  same_controller E1 E2 ->
  agree (member_delete E1 nwid memberId central)
    (member_delete E2 nwid memberId central).
Proof.
  intros (_ & Hu & _) w1 w2 [Hd Hz]. unfold member_delete. rewrite Hu, Hz.
  destruct (zt_member_delete E2 (zt w2) nwid memberId central) as [[msg|r] c];
    (split; [reflexivity|split; [exact Hd|reflexivity]]).
Qed.

(** Lockstep through two copies of a procedure. *)
Ltac agree_head :=
  lazymatch goal with
  | |- agree (bind _ _) (bind _ _) => apply agree_bind; [|intro]
  | |- agree (try_catch _ _) (try_catch _ _) => apply agree_try_catch; [|intro]
  | |- agree (ret _) (ret _) => apply agree_ret
  | |- agree (throw _) (throw _) => apply agree_throw
  | |- agree (throwError _) (throwError _) => apply agree_throw
  | |- agree getDB getDB => apply agree_getDB
  | |- agree (modifyDB _) (modifyDB _) => apply agree_modifyDB
  | |- agree (emit _) (emit _) => apply agree_emit
  | |- agree (console _) (console _) => apply agree_emit
  | |- agree (member_update _ _ _ _ _) (member_update _ _ _ _ _) =>
      apply agree_member_update; assumption
  | |- agree (member_delete _ _ _ _) (member_delete _ _ _ _) =>
      apply agree_member_delete; assumption
  | |- agree (if ?b then _ else _) (if ?b then _ else _) => destruct b
  | |- agree (match ?x with _ => _ end) (match ?x with _ => _ end) =>
      destruct x
  | |- agree (activityLog_create _ _ _) _ => unfold activityLog_create
  | |- agree (members_findFirst _) _ => unfold members_findFirst
  | |- agree (members_findUnique _ _) _ => unfold members_findUnique
  | |- agree (members_findMany _) _ => unfold members_findMany
  | |- agree (members_update _ _ _ _) _ => unfold members_update
  | |- agree (members_updateMany _ _ _) _ => unfold members_updateMany
  | |- agree (members_create _ _) _ => unfold members_create
  | |- agree (members_delete _ _ _) _ => unfold members_delete
  | |- agree (network_findUnique _) _ => unfold network_findUnique
  | |- agree (userOptions_findFirst _) _ => unfold userOptions_findFirst
  | |- agree (organizationSettings_findUnique _) _ =>
      unfold organizationSettings_findUnique
  | |- agree (organizationSettings_upsert _) _ =>
      unfold organizationSettings_upsert
  | |- agree (global_name _ _ _ _ _) _ => unfold global_name
  | |- agree (update_database _ _) _ => unfold update_database
  end.



















(** *** The state alone, whatever the senders do *)


Lemma same_state_trans (w1 w2 w3 : World) :
  same_state w1 w2 -> same_state w2 w3 -> same_state w1 w3.
Proof. intros [H1 H2] [H3 H4]. split; congruence. Qed.








Lemma quiet_throw {A} e : quiet (Controller:=Controller) (A:=A) (throw e).
Proof. intro w. apply same_state_refl. Qed.



Lemma quiet_try_catch {A} (m : M A) h :
  quiet m -> (forall e, quiet (h e)) -> quiet (try_catch m h).
Proof.
  intros Hm Hh w. unfold try_catch. pose proof (Hm w) as Hs.
  destruct (m w) as [[e|a] w']; cbn in Hs |- *; [|exact Hs].
  eapply same_state_trans; [exact Hs|apply Hh].
Qed.


Lemma quiet_of_agree {A} (m m' : M A) : agree m m' -> quiet m -> quiet m'.
Proof.
  intros Ha Hq w. destruct (Ha w w (same_state_refl w)) as [_ Hs].
  eapply same_state_trans; [apply Hq|exact Hs].
Qed.







(** ** Notifications: after the state change *)














Lemma notified_mail_only c evs :
  notified_after_change is_notification c evs = true ->
  notified_after_change is_email c evs = true.
Proof.
  revert c. induction evs as [|e evs IH]; intros c; cbn; [reflexivity|].
  intros H. apply andb_true_iff in H. destruct H as [He H].
  rewrite (IH _ H), andb_true_r.
  unfold is_notification in He. destruct (is_email e); [exact He|reflexivity].
Qed.


(** ** getUserNetworks *)

(** C10 (as amended): every network of the answer of getUserNetworks carries
    member counts that leave out the rows flagged deleted: [authorized] is the
    number of the network's rows with authorized = true and deleted = false,
    [total] the number of its rows with deleted = false, the display string is
    [authorized (total)], authorized <= total, and a row flagged deleted,
    stashed or permanently deleted, is counted in neither figure.  The query
    answers and leaves the world as it is. *)
Theorem getUserNetworks_memberCounts (u : SessionUser) (w : World) :
  exists networks,
    getUserNetworks E u false w = (inr (StoreNetworks networks), w)
    /\ Forall (memberCounts_of nm_deleted (db w)) networks.
Proof.
  eexists. split; [reflexivity|].
  apply Forall_forall. intros n Hn. apply in_map_iff in Hn.
  destruct Hn as (net & <- & _). apply count_members_of_rows.
Qed.

(** * Further properties of the procedures *)

(** ** Update: validation and refusal *)






(** ** Update: the lifecycle flags *)

Lemma lifecycle_updateMany p f t :
  (forall r, lifecycle_of (f r) = lifecycle_of r) ->
  map lifecycle_of (updateMany p f t) = map lifecycle_of t.
Proof.
  intros Hf. unfold updateMany. rewrite map_map. apply map_ext.
  intros r. destruct (p r); [apply Hf|reflexivity].
Qed.

Lemma lifecycle_databaseUpdateData payload updateParams r :
  lifecycle_of (databaseUpdateData payload updateParams r) = lifecycle_of r.
Proof.
  unfold lifecycle_of.
  destruct (databaseUpdateData_key payload updateParams r) as [-> ->].
  destruct (databaseUpdateData_flags payload updateParams r) as [-> ->].
  reflexivity.
Qed.

Lemma lifecycle_rename name updateParams wd r :
  lifecycle_of
    (let m' := set_name (Some name) r in
     if wd : bool
     then opt_apply (up_description updateParams)
            (fun d => set_description (Some d)) m'
     else m')
  = lifecycle_of r.
Proof.
  cbn zeta. destruct wd; [destruct (up_description updateParams)|];
    reflexivity.
Qed.

Lemma rename_in_other_networks_lifecycle memberId updateParams name wd l :
  forall w : World,
    wp (rename_in_other_networks E memberId updateParams name wd l)
      (fun _ w' =>
         map lifecycle_of (tbl_network_members (db w'))
         = map lifecycle_of (tbl_network_members (db w))) w.
Proof.
  unfold rename_in_other_networks.
  induction l as [|row l IH]; intros w; cbn [for_each].
  - apply wp_ret. reflexivity.
  - apply wp_bind. wp_step. wp_step; [|reflexivity].
    wp_run. eapply wp_conseq; [apply IH|].
    cbn beta. intros res w' ->. store_simpl.
    apply lifecycle_updateMany. intros x. apply lifecycle_rename.
Qed.

Lemma global_name_update_lifecycle u input userOptions (w : World) :
  wp (global_name_update E u input userOptions)
    (fun _ w' =>
       map lifecycle_of (tbl_network_members (db w'))
       = map lifecycle_of (tbl_network_members (db w))) w.
Proof.
  unfold global_name_update.
  destruct (up_name (ui_updateParams input)) as [name|];
    [|apply wp_ret; reflexivity].
  wp_run; try reflexivity.
  all: eapply wp_conseq; [apply rename_in_other_networks_lifecycle|].
  all: cbn beta; intros res w' ->; reflexivity.
Qed.

Lemma update_current_network_lifecycle u input (w : World) :
  wp (update_current_network E u input)
    (fun _ w' =>
       map lifecycle_of (tbl_network_members (db w'))
       = map lifecycle_of (tbl_network_members (db w))) w.
Proof.
  unfold update_current_network, prepare_payload, update_database,
    notify_node_deauthorized.
  wp_run; try reflexivity.
  all: apply lifecycle_updateMany; intros x;
    apply lifecycle_databaseUpdateData.
Qed.

(** Update never stashes, deletes, restores, adds or removes a row: after
    any Update, accepted or not, the member table has the same rows in the
    same order with the same keys, [deleted] and [permanentlyDeleted]. *)
Theorem Update_keeps_keys_and_lifecycle_flags (u : SessionUser)
  (input : UpdateInput) (w : World) :
  map lifecycle_of (tbl_network_members (db (snd (Update E u input w))))
  = map lifecycle_of (tbl_network_members (db w)).
Proof.
  change (wp (Update E u input)
            (fun _ w' =>
               map lifecycle_of (tbl_network_members (db w'))
               = map lifecycle_of (tbl_network_members (db w))) w).
  unfold Update.
  wp_until_userOptions; try reflexivity.
  all: wp_run.
  all: eapply wp_conseq; [apply global_name_update_lifecycle|].
  all: cbn beta; intros res w1 H1; destruct res as [e|[]]; [exact H1|].
  all: eapply wp_conseq; [apply update_current_network_lifecycle|].
  all: cbn beta; intros res w2 H2; rewrite H2; exact H1.
Qed.

(** ** create: a member that has no row *)

Lemma global_name_quiet u org id exclude memberName (w : World) :
  wp (global_name u org id exclude memberName)
    (fun res w' => (exists name, res = inr name) /\ w' = w) w.
Proof.
  unfold global_name. wp_run; split; try reflexivity; eexists; reflexivity.
Qed.

(** create for a pair that has no row, on a network of the store, with the
    NETWORK_JOIN webhook delivered: one row is appended for the pair, not
    authorized, neither stashed nor permanently deleted, with the member
    identifier as its address; no other row changes and the controller is
    not called. *)
Theorem create_appends_one_row_for_a_new_member (u : SessionUser)
  (input : CreateInput) (net : network) (w : World) :
  isValidZeroTierNetworkId (ci_id input) = true ->
  ci_central input = false ->
  role_ok E u (ci_organizationId input) (db w) ->
  findFirst (has_key (ci_id input) (ci_nwid input))
    (tbl_network_members (db w)) = None ->
  findFirst (fun n => nw_nwid n =? ci_nwid input) (tbl_network (db w))
  = Some net ->
  ext_sendWebhook E
    (NETWORK_JOIN (ci_organizationId input) (ci_id input) (ci_nwid input))
  = None ->
  fst (create E u input w) = inr CreatedNew
  /\ (exists name,
         tbl_network_members (db (snd (create E u input w)))
         = tbl_network_members (db w)
           ++ [mk_member (ci_id input) (ci_nwid input) false false false name
                 None (Some (ci_id input))])
  /\ zt (snd (create E u input w)) = zt w.
Proof.
  intros Hvalid Hcentral Hrole Hnone Hnet Hhook.
  destruct input as [org id nwid central].
  cbn [ci_organizationId ci_id ci_nwid ci_central] in *. subst central.
  change (wp (create E u (mk_createInput org id nwid false))
            (fun res w' =>
               res = inr CreatedNew
               /\ (exists name,
                      tbl_network_members (db w')
                      = tbl_network_members (db w)
                        ++ [mk_member id nwid false false false name None
                              (Some id)])
               /\ zt w' = zt w) w).
  unfold create, notify_node_added, members_create.
  cbn [ci_organizationId ci_id ci_nwid ci_central nm_id nm_nwid].
  rewrite Hvalid. cbn [negb].
  role_cases Hrole; wp_run; try congruence.
  all: try (eapply wp_conseq; [apply global_name_quiet|];
            cbn beta; intros res w' ((name & ->) & ->); wp_run;
            try congruence).
  all: try (split; [reflexivity|]; split; [eexists; reflexivity|reflexivity]).
Qed.

(** create for a pair that has no row, with the NETWORK_JOIN webhook
    failing: the failure is thrown again with its message before the row is
    inserted, and the member table and the controller are as they were. *)
Theorem create_inserts_nothing_when_the_webhook_fails (u : SessionUser)
  (input : CreateInput) (msg : string) (w : World) :
  isValidZeroTierNetworkId (ci_id input) = true ->
  ci_central input = false ->
  role_ok E u (ci_organizationId input) (db w) ->
  findFirst (has_key (ci_id input) (ci_nwid input))
    (tbl_network_members (db w)) = None ->
  ext_sendWebhook E
    (NETWORK_JOIN (ci_organizationId input) (ci_id input) (ci_nwid input))
  = Some msg ->
  fst (create E u input w) = inl (ThrownError msg)
  /\ tbl_network_members (db (snd (create E u input w)))
     = tbl_network_members (db w)
  /\ zt (snd (create E u input w)) = zt w.
Proof.
  intros Hvalid Hcentral Hrole Hnone Hhook.
  destruct input as [org id nwid central].
  cbn [ci_organizationId ci_id ci_nwid ci_central] in *. subst central.
  change (wp (create E u (mk_createInput org id nwid false))
            (fun res w' =>
               res = inl (ThrownError msg)
               /\ tbl_network_members (db w') = tbl_network_members (db w)
               /\ zt w' = zt w) w).
  unfold create, notify_node_added.
  cbn [ci_organizationId ci_id ci_nwid ci_central].
  rewrite Hvalid. cbn [negb].
  role_cases Hrole; wp_run; try congruence.
  all: repeat split; congruence.
Qed.

(** ** The lifecycle, one operation after the other *)

(** What stash leaves behind: the row of the member flagged deleted, its
    [permanentlyDeleted] as it was, and the tables the next role check reads
    as they were. *)
Lemma stash_run (u : SessionUser) (input : StashInput) (w : World)
  (net : network) (r : network_members) :
  role_ok E u (si_organizationId input) (db w) ->
  findFirst (fun n => nw_nwid n =? si_nwid input) (tbl_network (db w))
  = Some net ->
  findFirst (has_key (si_id input) (si_nwid input))
    (tbl_network_members (db w)) = Some r ->
  wp (stash E u input)
    (fun _ w' =>
       tbl_userOrganizationRole (db w') = tbl_userOrganizationRole (db w)
       /\ List.length (tbl_network_members (db w'))
          = List.length (tbl_network_members (db w))
       /\ exists r',
           findFirst (has_key (si_id input) (si_nwid input))
             (tbl_network_members (db w')) = Some r'
           /\ nm_deleted r' = true
           /\ nm_permanentlyDeleted r' = nm_permanentlyDeleted r) w.
Proof.
  intros Hrole Hnet Hfind.
  destruct input as [org nwid id].
  cbn [si_organizationId si_nwid si_id] in *.
  pose proof (found_has_key _ _ _ _ Hfind) as [Hid Hnw].
  pose proof (found_network _ _ _ Hnet) as Hn.
  unfold stash, Update, update_current_network, global_name_update,
    prepare_payload, update_database,
    notify_node_deauthorized.
  cbn [si_organizationId si_nwid si_id ui_nwid ui_memberId ui_central
       ui_organizationId ui_updateParams].
  change (invalidIPs E deauthorize) with (@nil string).
  cbn [up_name up_authorized up_description deauthorize List.length Nat.ltb
       Nat.leb has_database_fields is_some orb negb].
  role_cases Hrole; wp_run; try congruence.
  all: split; [reflexivity|];
    split; [rewrite ?updateMany_length; reflexivity|].
  all: find_simpl Hfind; eexists; split; [reflexivity|].
  all: unfold has_key; rewrite ?Hn; cbn [nm_id nm_nwid];
    rewrite ?(proj1 (databaseUpdateData_key _ _ _)),
      ?(proj2 (databaseUpdateData_key _ _ _)), ?Hid, ?Hnw, ?String.eqb_refl;
    cbn [andb];
    rewrite ?(proj1 (databaseUpdateData_key _ _ _)),
      ?(proj2 (databaseUpdateData_key _ _ _)), ?Hid, ?Hnw, ?String.eqb_refl;
    cbn [andb set_deleted nm_deleted nm_permanentlyDeleted];
    rewrite ?(proj2 (databaseUpdateData_flags _ _ _));
    split; reflexivity.
Qed.

(** delete of a row that is flagged deleted: the row stays, permanently
    deleted, and the controller is left alone. *)
Lemma delete_stashed_run (u : SessionUser) (input : DeleteInput) (w : World)
  (r : network_members) :
  de_central input = false ->
  role_ok E u (de_organizationId input) (db w) ->
  findFirst (has_key (de_id input) (de_nwid input))
    (tbl_network_members (db w)) = Some r ->
  nm_deleted r = true ->
  wp (delete E u input)
    (fun res w' =>
       res = inr DeletedTrue
       /\ findFirst (has_key (de_id input) (de_nwid input))
            (tbl_network_members (db w'))
          = Some (set_permanentlyDeleted true r)
       /\ zt w' = zt w) w.
Proof.
  intros Hc Hrole Hfind Hdel.
  destruct input as [org central nwid id].
  cbn [de_organizationId de_central de_nwid de_id] in *. subst central.
  unfold delete, notify_permanently_deleted.
  cbn [de_organizationId de_central de_nwid de_id].
  role_cases Hrole; wp_run; try congruence.
  all: split; [reflexivity|]; split; [|reflexivity].
  all: erewrite find_updateMany_hit; [reflexivity|keeps_key|eassumption].
Qed.

(** Stashing a member and deleting it then leaves its row in the table,
    flagged deleted and permanently deleted; the delete answers
    [{ deleted: true }] and does not call the controller.  This holds whatever
    the controller, the webhook and the e-mail did during the stash. *)
Theorem stash_then_delete_keeps_the_row_permanently_deleted
  (u : SessionUser) (organizationId : option string) (nwid id : string)
  (net : network) (r : network_members) (w : World) :
  role_ok E u organizationId (db w) ->
  findFirst (fun n => nw_nwid n =? nwid) (tbl_network (db w)) = Some net ->
  findFirst (has_key id nwid) (tbl_network_members (db w)) = Some r ->
  let w1 := snd (stash E u (mk_stashInput organizationId nwid id) w) in
  let gone := delete E u (mk_deleteInput organizationId false nwid id) w1 in
  fst gone = inr DeletedTrue
  /\ (exists r',
         findFirst (has_key id nwid) (tbl_network_members (db (snd gone)))
         = Some r'
         /\ nm_deleted r' = true
         /\ nm_permanentlyDeleted r' = true)
  /\ zt (snd gone) = zt w1.
Proof.
  intros Hrole Hnet Hfind w1 gone. subst w1 gone.
  destruct (stash_run u (mk_stashInput organizationId nwid id) w net r
              Hrole Hnet Hfind) as (Hroles & _ & r1 & Hfind1 & Hdel1 & _).
  cbn [si_id si_nwid] in Hfind1.
  set (w1 := snd (stash E u (mk_stashInput organizationId nwid id) w)) in *.
  assert (Hrole1 : role_ok E u organizationId (db w1)).
  { unfold role_ok in *. rewrite Hroles. exact Hrole. }
  destruct (delete_stashed_run u (mk_deleteInput organizationId false nwid id)
              w1 r1 eq_refl Hrole1 Hfind1 Hdel1) as (Hres & Hrow & Hzt).
  split; [exact Hres|]. split; [|exact Hzt].
  eexists. split; [exact Hrow|]. split; [exact Hdel1|reflexivity].
Qed.

(** Stashing a member and adding it again returns its row to ACTIVE: create
    answers the row, with [deleted] and [permanentlyDeleted] false, and the
    pair has as many rows as before the stash. *)
Theorem stash_then_create_restores_the_row
  (u : SessionUser) (organizationId : option string) (nwid id : string)
  (net : network) (r : network_members) (w : World) :
  isValidZeroTierNetworkId id = true ->
  role_ok E u organizationId (db w) ->
  findFirst (fun n => nw_nwid n =? nwid) (tbl_network (db w)) = Some net ->
  findFirst (has_key id nwid) (tbl_network_members (db w)) = Some r ->
  let w1 := snd (stash E u (mk_stashInput organizationId nwid id) w) in
  let back := create E u (mk_createInput organizationId id nwid false) w1 in
  exists r',
    fst back = inr (Unstashed r')
    /\ findFirst (has_key id nwid) (tbl_network_members (db (snd back)))
       = Some r'
    /\ is_active r' = true
    /\ List.length (tbl_network_members (db (snd back)))
       = List.length (tbl_network_members (db w)).
Proof.
  intros Hvalid Hrole Hnet Hfind w1 back. subst w1 back.
  destruct (stash_run u (mk_stashInput organizationId nwid id) w net r
              Hrole Hnet Hfind) as (Hroles & Hlen1 & r1 & Hfind1 & _).
  cbn [si_id si_nwid] in Hfind1.
  set (w1 := snd (stash E u (mk_stashInput organizationId nwid id) w)) in *.
  assert (Hrole1 : role_ok E u organizationId (db w1)).
  { unfold role_ok in *. rewrite Hroles. exact Hrole. }
  destruct (create_existing_run u (mk_createInput organizationId id nwid false)
              w1 r1 Hvalid eq_refl Hrole1 Hfind1)
    as (name & Hres & Hrow & _ & Hlen).
  eexists. split; [exact Hres|]. split; [exact Hrow|].
  split; [reflexivity|]. rewrite Hlen. exact Hlen1.
Qed.

(** ** bulkDeleteStashed: access and senders *)

(** bulkDeleteStashed without access to the network (no role in the
    organization, a network of another organization or of another author, or
    no such network) is refused with UNAUTHORIZED or NOT_FOUND, and nothing
    at all has happened by then: no row, no log entry, no outward effect. *)
Theorem bulkDeleteStashed_without_access_does_nothing (u : SessionUser)
  (input : BulkInput) (w : World) :
  ~ may_bulk_delete u input (db w) ->
  (exists code message,
      fst (bulkDeleteStashed E u input w) = inl (TRPCError code message)
      /\ (code = UNAUTHORIZED \/ code = NOT_FOUND))
  /\ snd (bulkDeleteStashed E u input w) = w.
Proof.
  intros Hno.
  change (wp (bulkDeleteStashed E u input)
            (fun res w' =>
               (exists code message,
                   res = inl (TRPCError code message)
                   /\ (code = UNAUTHORIZED \/ code = NOT_FOUND))
               /\ w' = w) w).
  destruct input as [nwid org]. unfold bulkDeleteStashed.
  unfold may_bulk_delete in Hno. cbn [bi_nwid bi_organizationId] in *.
  wp_run.
  all: try (split; [eexists; eexists; split; [reflexivity|auto]|reflexivity]).
  all: exfalso; apply Hno; eauto.
Qed.

Lemma agree_webhook_logged (E1 E2 : Externals Controller CentralNetworks)
  h message :
  agree (Controller:=Controller)
    (try_catch (sendWebhook E1 h) (fun _ => console message))
    (try_catch (sendWebhook E2 h) (fun _ => console message)).
Proof.
  intros w1 w2 [Hd Hz].
  unfold try_catch, sendWebhook, bind, console, emit, throw.
  destruct (ext_sendWebhook E1 h), (ext_sendWebhook E2 h); cbn;
    repeat split; assumption.
Qed.

(** bulkDeleteStashed answers the same, and leaves the same store and the
    same controller, under any two installations: it calls neither the
    controller nor the role check, and the failure of its webhook is logged
    and goes no further. *)
Theorem bulkDeleteStashed_ignores_a_failing_webhook
  (E' : Externals Controller CentralNetworks) (u : SessionUser)
  (input : BulkInput) (w : World) :
  fst (bulkDeleteStashed E u input w) = fst (bulkDeleteStashed E' u input w)
  /\ same_state (snd (bulkDeleteStashed E u input w))
       (snd (bulkDeleteStashed E' u input w)).
Proof.
  assert (agree (bulkDeleteStashed E u input) (bulkDeleteStashed E' u input))
    as H.
  { unfold bulkDeleteStashed.
    repeat (cbn beta iota zeta;
            first [ apply agree_webhook_logged | agree_head ]). }
  apply H. apply same_state_refl.
Qed.

(** ** UpdateDatabaseOnly *)

(** UpdateDatabaseOnly on a row of the store writes that row and no other:
    [deleted] and [description] take the values the call carries, a field the
    call leaves out keeps its value, and [permanentlyDeleted], the name and
    the authorization are never written.  The controller is not called.  The
    write is done whether or not the webhook that follows is delivered. *)
Theorem UpdateDatabaseOnly_writes_the_one_row (u : SessionUser)
  (input : DbOnlyInput) (net : network) (r : network_members) (w : World) :
  role_ok E u (di_organizationId input) (db w) ->
  findFirst (fun n => nw_nwid n =? di_nwid input) (tbl_network (db w))
  = Some net ->
  findFirst (has_key (di_id input) (di_nwid input))
    (tbl_network_members (db w)) = Some r ->
  let w' := snd (UpdateDatabaseOnly E u input w) in
  (exists r',
      findFirst (has_key (di_id input) (di_nwid input))
        (tbl_network_members (db w')) = Some r'
      /\ nm_deleted r'
         = match dp_deleted (di_updateParams input) with
           | Some b => b
           | None => nm_deleted r
           end
      /\ nm_description r'
         = match dp_description (di_updateParams input) with
           | Some d => Some d
           | None => nm_description r
           end
      /\ nm_permanentlyDeleted r' = nm_permanentlyDeleted r
      /\ nm_name r' = nm_name r
      /\ nm_authorized r' = nm_authorized r)
  /\ (exists f,
         tbl_network_members (db w')
         = updateMany (has_key (di_id input) (di_nwid input)) f
             (tbl_network_members (db w)))
  /\ zt w' = zt w.
Proof.
  intros Hrole Hnet Hfind w'. subst w'.
  destruct input as [nwid id org [deleted description]].
  cbn [di_organizationId di_nwid di_id di_updateParams dp_deleted
       dp_description] in *.
  change (wp (UpdateDatabaseOnly E u
                (mk_dbOnlyInput nwid id org
                   (mk_dbOnlyParams deleted description)))
            (fun _ w' =>
               (exists r',
                   findFirst (has_key id nwid) (tbl_network_members (db w'))
                   = Some r'
                   /\ nm_deleted r'
                      = match deleted with
                        | Some b => b
                        | None => nm_deleted r
                        end
                   /\ nm_description r'
                      = match description with
                        | Some d => Some d
                        | None => nm_description r
                        end
                   /\ nm_permanentlyDeleted r' = nm_permanentlyDeleted r
                   /\ nm_name r' = nm_name r
                   /\ nm_authorized r' = nm_authorized r)
               /\ (exists f,
                      tbl_network_members (db w')
                      = updateMany (has_key id nwid) f
                          (tbl_network_members (db w)))
               /\ zt w' = zt w) w).
  unfold UpdateDatabaseOnly.
  cbn [di_organizationId di_nwid di_id di_updateParams dp_deleted
       dp_description].
  role_cases Hrole; wp_run; try congruence.
  all: split; [|split; [eexists; reflexivity|reflexivity]].
  all: eexists; split;
    [ erewrite find_updateMany_hit; [reflexivity| |eassumption];
      intros x; destruct deleted, description; split; reflexivity | ].
  all: destruct deleted, description; cbn; repeat split; reflexivity.
Qed.

(** UpdateDatabaseOnly for a member that has no row in the store throws,
    and the member table and the controller are as they were. *)
Theorem UpdateDatabaseOnly_of_a_missing_row_throws (u : SessionUser)
  (input : DbOnlyInput) (w : World) :
  role_ok E u (di_organizationId input) (db w) ->
  findFirst (has_key (di_id input) (di_nwid input))
    (tbl_network_members (db w)) = None ->
  (exists message,
      fst (UpdateDatabaseOnly E u input w) = inl (PrismaError message))
  /\ tbl_network_members (db (snd (UpdateDatabaseOnly E u input w)))
     = tbl_network_members (db w)
  /\ zt (snd (UpdateDatabaseOnly E u input w)) = zt w
  /\ trace (snd (UpdateDatabaseOnly E u input w)) = trace w.
Proof.
  intros Hrole Hnone.
  change (wp (UpdateDatabaseOnly E u input)
            (fun res w' =>
               (exists message, res = inl (PrismaError message))
               /\ tbl_network_members (db w') = tbl_network_members (db w)
               /\ zt w' = zt w
               /\ trace w' = trace w) w).
  unfold UpdateDatabaseOnly.
  role_cases Hrole; wp_run; try congruence.
  all: split; [eexists; reflexivity|]; repeat split; reflexivity.
Qed.

(** ** delete: a member that has no row *)

(** delete for a member that has no row in the store, on a non-central
    network: the controller is asked to remove the member all the same, and
    when it has done so the store's delete throws; the member table is as it
    was.  The member is gone from the controller and the caller gets an
    error. *)
Theorem delete_of_a_missing_row_throws_after_the_controller
  (u : SessionUser) (input : DeleteInput) (c : Controller) (w : World) :
  de_central input = false ->
  role_ok E u (de_organizationId input) (db w) ->
  findFirst (has_key (de_id input) (de_nwid input))
    (tbl_network_members (db w)) = None ->
  zt_member_delete E (zt w) (de_nwid input) (de_id input) false = (inr tt, c) ->
  (exists message, fst (delete E u input w) = inl (PrismaError message))
  /\ tbl_network_members (db (snd (delete E u input w)))
     = tbl_network_members (db w)
  /\ zt (snd (delete E u input w)) = c
  /\ trace (snd (delete E u input w))
     = trace w ++ [EvControllerDelete (de_nwid input) (de_id input) false true].
Proof.
  intros Hc Hrole Hnone Hzt.
  destruct input as [org central nwid id].
  cbn [de_organizationId de_central de_nwid de_id] in *. subst central.
  change (wp (delete E u (mk_deleteInput org false nwid id))
            (fun res w' =>
               (exists message, res = inl (PrismaError message))
               /\ tbl_network_members (db w') = tbl_network_members (db w)
               /\ zt w' = c
               /\ trace w'
                  = trace w ++ [EvControllerDelete nwid id false true]) w).
  unfold delete, notify_permanently_deleted.
  cbn [de_organizationId de_central de_nwid de_id].
  role_cases Hrole; wp_run; try congruence.
  all: split; [eexists; reflexivity|]; repeat split; congruence.
Qed.

(** ** The notations of members *)

Lemma removeMemberAnotations_prelude u input (w : World) :
  role_ok E u (ra_organizationId input) (db w) ->
  bind
    (match given (ra_organizationId input) with
     | Some org => checkUserOrganizationRole E u org USER
     | None => ret tt
     end)
    (fun _ =>
       activityLog_create
         (LogRemovedNotation (ra_notationId input) (ra_nodeid input)) u
         (given (ra_organizationId input))) w
  = (inr tt,
     mk_world
       (with_activityLog
          (fun t =>
             t ++ [mk_activityLog
                     (LogRemovedNotation (ra_notationId input)
                        (ra_nodeid input))
                     (user_id u) (given (ra_organizationId input))])
          (db w))
       (zt w) (trace w)).
Proof.
  intros Hrole. unfold role_ok in Hrole.
  destruct (given (ra_organizationId input)) as [org|]; [|reflexivity].
  unfold bind, checkUserOrganizationRole, getDB. cbn. rewrite Hrole.
  reflexivity.
Qed.

Lemma others_left notationId nodeid links :
  (List.length
     (findMany (fun l => (nmn_notationId l =? notationId)%Z)
        (deleteMany (notationId_nodeid notationId nodeid) links)) =? 0)%nat
  = negb (existsb (fun l => (nmn_notationId l =? notationId)%Z
                            && negb (nmn_nodeid l =? nodeid)%Z) links).
Proof.
  unfold findMany, deleteMany, notationId_nodeid.
  induction links as [|l links IH]; [reflexivity|].
  cbn [filter existsb].
  destruct (nmn_notationId l =? notationId)%Z eqn:Hn;
    destruct (nmn_nodeid l =? nodeid)%Z eqn:Hd; cbn [andb negb orb filter];
    rewrite ?Hn; cbn [List.length Nat.eqb orb negb]; try exact IH.
  reflexivity.
Qed.

Lemma deleteMany_none {A} (p : A -> bool) t :
  findFirst p t = None -> deleteMany p t = t.
Proof.
  unfold findFirst, deleteMany. induction t as [|r t IH]; [reflexivity|].
  cbn [find filter]. destruct (p r); [discriminate|].
  intros H. cbn [negb]. rewrite (IH H). reflexivity.
Qed.

Lemma find_deleteMany_gone {A} (p : A -> bool) t :
  findFirst p (deleteMany p t) = None.
Proof.
  unfold findFirst, deleteMany. induction t as [|r t IH]; [reflexivity|].
  cbn [filter]. destruct (p r) eqn:Hp; cbn [negb find]; [exact IH|].
  rewrite Hp. exact IH.
Qed.

(** removeMemberAnotations takes the notation off the member and collects
    the notation when it is left unused: the link (notationId, nodeid) is
    removed and no other link is; when another member still carries the
    notation, the [Notation] row stays; when none does, the [Notation] row is
    deleted.  The call answers, unless the row to collect is missing. *)
Theorem removeMemberAnotations_collects_an_unused_notation
  (u : SessionUser) (input : RemoveAnotationInput) (a : Annotations)
  (l : NetworkMemberNotation) (w : World) :
  role_ok E u (ra_organizationId input) (db w) ->
  findFirst (notationId_nodeid (ra_notationId input) (ra_nodeid input))
    (tbl_networkMemberNotation a) = Some l ->
  let res := removeMemberAnotations E u input a w in
  let a' := fst (snd res) in
  let label := fun n => (nt_id n =? ra_notationId input)%Z in
  tbl_networkMemberNotation a'
  = deleteMany (notationId_nodeid (ra_notationId input) (ra_nodeid input))
      (tbl_networkMemberNotation a)
  /\ findFirst (notationId_nodeid (ra_notationId input) (ra_nodeid input))
       (tbl_networkMemberNotation a') = None
  /\ (used_by_another_member (ra_notationId input) (ra_nodeid input) a = true ->
      fst res = inr tt /\ tbl_notation a' = tbl_notation a)
  /\ (used_by_another_member (ra_notationId input) (ra_nodeid input) a = false ->
      tbl_notation a' = deleteMany label (tbl_notation a)
      /\ findFirst label (tbl_notation a') = None
      /\ (is_some (findFirst label (tbl_notation a)) = true ->
          fst res = inr tt)).
Proof.
  intros Hrole Hlink res a' label. subst res a' label.
  unfold removeMemberAnotations, used_by_another_member.
  rewrite (removeMemberAnotations_prelude u input w Hrole).
  rewrite Hlink. cbn [is_some]. rewrite others_left.
  destruct (existsb _ (tbl_networkMemberNotation a)) eqn:Hused;
    cbn [negb].
  - cbn. split; [reflexivity|]. split; [apply find_deleteMany_gone|].
    split; [auto|discriminate].
  - destruct (findFirst (fun n => (nt_id n =? ra_notationId input)%Z)
                (tbl_notation a)) as [n|] eqn:Hlabel; cbn.
    + split; [reflexivity|]. split; [apply find_deleteMany_gone|].
      split; [discriminate|]. intros _.
      split; [reflexivity|]. split; [apply find_deleteMany_gone|reflexivity].
    + split; [reflexivity|]. split; [apply find_deleteMany_gone|].
      split; [discriminate|]. intros _.
      split; [symmetry; apply deleteMany_none; exact Hlabel|].
      split; [exact Hlabel|discriminate].
Qed.

(** removeMemberAnotations for a link that is not in the join table throws,
    and both tables are as they were. *)
Theorem removeMemberAnotations_of_a_missing_link_throws
  (u : SessionUser) (input : RemoveAnotationInput) (a : Annotations)
  (w : World) :
  role_ok E u (ra_organizationId input) (db w) ->
  findFirst (notationId_nodeid (ra_notationId input) (ra_nodeid input))
    (tbl_networkMemberNotation a) = None ->
  (exists message,
      fst (removeMemberAnotations E u input a w) = inl (PrismaError message))
  /\ fst (snd (removeMemberAnotations E u input a w)) = a.
Proof.
  intros Hrole Hlink. unfold removeMemberAnotations.
  rewrite (removeMemberAnotations_prelude u input w Hrole).
  rewrite Hlink. cbn. split; [eexists; reflexivity|reflexivity].
Qed.

Lemma none_left_other_ids notationId nodeid links l :
  existsb (fun l => (nmn_notationId l =? notationId)%Z
                    && negb (nmn_nodeid l =? nodeid)%Z) links = false ->
  In l (deleteMany (notationId_nodeid notationId nodeid) links) ->
  (nmn_notationId l =? notationId)%Z = false.
Proof.
  intros Hnone Hin. unfold deleteMany in Hin. apply filter_In in Hin.
  destruct Hin as [Hin Hkey]. unfold notationId_nodeid in Hkey.
  destruct (nmn_notationId l =? notationId)%Z eqn:Hn; [|reflexivity].
  exfalso. cbn [andb] in Hkey.
  assert (existsb (fun l => (nmn_notationId l =? notationId)%Z
                            && negb (nmn_nodeid l =? nodeid)%Z) links = true)
    as Ht.
  { apply existsb_exists. exists l. split; [exact Hin|].
    rewrite Hn. exact Hkey. }
  congruence.
Qed.

(** removeMemberAnotations keeps the join table sound: when every link
    pointed to a [Notation] row before the call, every link does after it,
    whatever the input and however the call ends.  A notation is collected
    only when no link is left that points to it. *)
Theorem removeMemberAnotations_leaves_no_dangling_link
  (u : SessionUser) (input : RemoveAnotationInput) (a : Annotations)
  (w : World) :
  links_have_labels a ->
  links_have_labels (fst (snd (removeMemberAnotations E u input a w))).
Proof.
  intros Hsound. unfold removeMemberAnotations.
  destruct (bind _ _ w) as [[e|[]] w1]; [exact Hsound|].
  destruct (findFirst (notationId_nodeid (ra_notationId input)
                         (ra_nodeid input)) (tbl_networkMemberNotation a));
    cbn [is_some]; [|exact Hsound].
  rewrite others_left.
  assert (Hkept : forall l,
             In l (deleteMany (notationId_nodeid (ra_notationId input)
                                 (ra_nodeid input))
                     (tbl_networkMemberNotation a)) ->
             is_some (findFirst (fun n => (nt_id n =? nmn_notationId l)%Z)
                        (tbl_notation a)) = true).
  { intros l Hin. apply Hsound. unfold deleteMany in Hin.
    apply filter_In in Hin. apply Hin. }
  destruct (existsb _ (tbl_networkMemberNotation a)) eqn:Hused; cbn [negb].
  - exact Hkept.
  - destruct (findFirst (fun n => (nt_id n =? ra_notationId input)%Z)
                (tbl_notation a)); cbn [is_some]; [|exact Hkept].
    intros l Hin. cbn [fst snd tbl_networkMemberNotation tbl_notation] in *.
    pose proof (none_left_other_ids _ _ _ l Hused Hin) as Hne.
    unfold findFirst, deleteMany. rewrite find_filter_neg.
    + apply Hkept. exact Hin.
    + intros x Hx. apply Z.eqb_eq in Hx. rewrite Hx, Hne. reflexivity.
Qed.


(** ** stash, seen from getNetworkById *)

Lemma stash_keeps_keys u input (w : World) :
  map (fun r => (nm_id r, nm_nwid r))
    (tbl_network_members (db (snd (stash E u input w))))
  = map (fun r => (nm_id r, nm_nwid r)) (tbl_network_members (db w)).
Proof.
  destruct input as [org nwid id].
  change (wp (stash E u (mk_stashInput org nwid id))
            (fun _ w' =>
               map (fun r => (nm_id r, nm_nwid r)) (tbl_network_members (db w'))
               = map (fun r => (nm_id r, nm_nwid r))
                   (tbl_network_members (db w))) w).
  unfold stash, Update, update_current_network, global_name_update,
    prepare_payload, update_database,
    notify_node_deauthorized.
  cbn [si_organizationId si_nwid si_id ui_nwid ui_memberId ui_central
       ui_organizationId ui_updateParams].
  change (invalidIPs E deauthorize) with (@nil string).
  cbn [up_name up_authorized up_description deauthorize List.length Nat.ltb
       Nat.leb has_database_fields is_some orb negb].
  wp_run; rewrite ?keys_updateMany by keeps_key; reflexivity.
Qed.

(** After stash the member is out of the merged list of its network, under
    any form and whatever the controller reports, and, unless its row was
    permanently deleted already, its row is among the zombie members.  The
    rows of the network have pairwise different identifiers. *)
Theorem stash_moves_the_member_to_the_zombies
  (u : SessionUser) (organizationId : option string) (nwid id : string)
  (net : network) (r : network_members) (w : World) :
  role_ok E u organizationId (db w) ->
  findFirst (fun n => nw_nwid n =? nwid) (tbl_network (db w)) = Some net ->
  findFirst (has_key id nwid) (tbl_network_members (db w)) = Some r ->
  NoDup (map nm_id (allDatabaseMembers (db w) nwid)) ->
  let w1 := snd (stash E u (mk_stashInput organizationId nwid id) w) in
  (forall membersWithStatusAndPeers m,
      In m (mergedMembers (db w1) nwid membersWithStatusAndPeers) ->
      merged_id m <> id)
  /\ (nm_permanentlyDeleted r = false ->
      exists r', In r' (zombieMembers (db w1) nwid) /\ nm_id r' = id).
Proof.
  intros Hrole Hnet Hfind Hnd w1.
  destruct (stash_run u (mk_stashInput organizationId nwid id) w net r
              Hrole Hnet Hfind) as (_ & _ & r1 & Hfind1 & Hdel1 & Hperm1).
  cbn [si_id si_nwid] in Hfind1. fold w1 in Hfind1.
  pose proof (stash_keeps_keys u (mk_stashInput organizationId nwid id) w)
    as Hkeys. fold w1 in Hkeys.
  pose proof (found_has_key _ _ _ _ Hfind1) as [Hid1 Hnw1].
  assert (Hin1 : In r1 (allDatabaseMembers (db w1) nwid)).
  { apply filter_In. split.
    - apply find_some_in in Hfind1. apply Hfind1.
    - rewrite Hnw1. apply String.eqb_refl. }
  assert (Hnd1 : NoDup (map nm_id (allDatabaseMembers (db w1) nwid))).
  { unfold allDatabaseMembers, findMany.
    rewrite (keys_allDatabaseMembers nwid _ _ Hkeys). exact Hnd. }
  split.
  - intros ctrl m Hm Heq. rewrite <- Hid1 in Heq.
    apply mergedMembers_origin in Hm.
    pose proof (merged_row_is_not_deleted (db w1) nwid ctrl m r1 Hnd1 Hin1 Hm
                  Heq) as Hshown.
    rewrite Hdel1 in Hshown. discriminate.
  - intros Hp. exists r1. split; [|exact Hid1].
    apply filter_In. split; [exact Hin1|].
    rewrite Hdel1, Hperm1, Hp. reflexivity.
Qed.

End Properties.

(** * The theorems at work on the example installation *)

Import Example.

(** C1, at work: the laptop was stashed and deleted in N1; the controller
    still reports it, and an unknown device with it: the unknown device is
    listed as a controller-only member, which the theorem places outside the
    store's rows and outside the permanently-deleted set. *)
Lemma mergedMembers_hide_permanentlyDeleted_witness :
  ~ In "ffffffffff" (map nm_id (allDatabaseMembers (db (gone false)) "N1"))
  /\ ~ In "ffffffffff" (permanentlyDeletedMemberIds (db (gone false)) "N1").
Proof.
  apply (mergedMembers_hide_permanentlyDeleted (db (gone false)) "N1" reported
           (ControllerOnly (mk_entity "ffffffffff" false [] [] [] None true))).
  - intros r Hin Hn Hp. vm_compute in Hin.
    destruct Hin as [<-|[<-|[<-|[]]]]; try reflexivity; discriminate.
  - vm_compute. left. reflexivity.
Defined.

(** C1, the claim as stated fails: after UpdateDatabaseOnly has cleared
    [deleted] on the permanently deleted row, the merged list shows the
    member, with its row still permanently deleted. *)
Lemma mergedMembers_show_a_permanentlyDeleted_row :
  exists m r,
    In m (mergedMembers (db shown_again) "N1" reported)
    /\ database_row m = Some r
    /\ nm_permanentlyDeleted r = true.
Proof.
  exists (Merged (mk_entity laptop true [] [] [] None true)
            (laptop_row "N1" false false true)).
  exists (laptop_row "N1" false false true).
  split; [vm_compute; left; reflexivity|]. split; reflexivity.
Qed.

(** C2, at work: the laptop is deleted in N1 while ACTIVE, and the row is
    gone; stashed first and deleted then, the row stays, permanently
    deleted; ACTIVE and lost by the controller, delete throws. *)
Lemma delete_branches_on_deleted_flag_witness :
  findFirst (has_key laptop "N1")
    (tbl_network_members
       (db (snd (delete (externals true true) alice
                   (mk_deleteInput None false "N1" laptop) (home false)))))
  = None
  /\ fst (delete (externals true true) alice
            (mk_deleteInput None false "N1" laptop) (stashed false))
     = inr DeletedTrue
  /\ findFirst (has_key laptop "N1") (tbl_network_members (db (gone false)))
     = Some (laptop_row "N1" false true true)
  /\ fst (delete (externals true true) alice
            (mk_deleteInput None false "N1" laptop) forgotten)
     = inl (ExternalError "404 member not found").
Proof.
  split; [|split; [|split]].
  - destruct (delete_branches_on_deleted_flag (externals true true) alice
                (mk_deleteInput None false "N1" laptop) (home false)
                (laptop_row "N1" true false false) eq_refl I)
      as [H _]; [vm_compute; reflexivity|].
    destruct (H eq_refl) as [Hok _].
    destruct (Hok [("N2", laptop); ("N3", laptop)]) as [H1 _];
      [vm_compute; reflexivity | exact H1].
  - destruct (delete_branches_on_deleted_flag (externals true true) alice
                (mk_deleteInput None false "N1" laptop) (stashed false)
                (laptop_row "N1" false true false) eq_refl I)
      as [_ H]; [vm_compute; reflexivity|].
    destruct (H eq_refl) as (H1 & _). exact H1.
  - destruct (delete_branches_on_deleted_flag (externals true true) alice
                (mk_deleteInput None false "N1" laptop) (stashed false)
                (laptop_row "N1" false true false) eq_refl I)
      as [_ H]; [vm_compute; reflexivity|].
    destruct (H eq_refl) as (_ & H2 & _). exact H2.
  - destruct (delete_branches_on_deleted_flag (externals true true) alice
                (mk_deleteInput None false "N1" laptop) forgotten
                (laptop_row "N1" true false false) eq_refl I)
      as [H _]; [vm_compute; reflexivity|].
    destruct (H eq_refl) as [_ Hko].
    destruct (Hko "404 member not found" []) as [H1 _];
      [vm_compute; reflexivity | exact H1].
Defined.

(** C2, the claim as stated fails: the laptop's row in N1 has
    deleted = false and the controller has lost the laptop; delete throws the
    controller's error and the row is still there. *)
Lemma delete_keeps_the_row_when_the_controller_refuses :
  findFirst (has_key laptop "N1") (tbl_network_members (db forgotten))
  = Some (laptop_row "N1" true false false)
  /\ fst (delete (externals true true) alice
            (mk_deleteInput None false "N1" laptop) forgotten)
     = inl (ExternalError "404 member not found")
  /\ findFirst (has_key laptop "N1")
       (tbl_network_members
          (db (snd (delete (externals true true) alice
                      (mk_deleteInput None false "N1" laptop) forgotten))))
     = Some (laptop_row "N1" true false false).
Proof. repeat split; vm_compute; reflexivity. Qed.

(** C3, at work: on the store where the laptop is permanently deleted in N1,
    create brings its row back to ACTIVE. *)
Lemma only_create_returns_a_row_to_active_witness :
  exists r',
    findFirst (has_key laptop "N1")
      (tbl_network_members
         (db (snd (create (externals true true) alice
                     (mk_createInput None laptop "N1" false) (gone false)))))
    = Some r'
    /\ is_active r' = true.
Proof.
  destruct (only_create_returns_a_row_to_active (externals true true) alice
              (gone false) (mk_createInput None laptop "N1" false)
              (laptop_row "N1" false true true))
    as (_ & _ & _ & H);
    [vm_compute; reflexivity | reflexivity | exact I | vm_compute; reflexivity
    | exact H].
Defined.

(** C3, the claim as stated fails: the row create finds is permanently
    deleted, and create leaves it with both flags cleared. *)
Lemma create_reactivates_a_permanentlyDeleted_row :
  exists r r',
    findFirst (has_key laptop "N1") (tbl_network_members (db (gone false)))
    = Some r
    /\ nm_permanentlyDeleted r = true
    /\ findFirst (has_key laptop "N1")
         (tbl_network_members
            (db (snd (create (externals true true) alice
                        (mk_createInput None laptop "N1" false) (gone false)))))
       = Some r'
    /\ nm_deleted r' = false
    /\ nm_permanentlyDeleted r' = false.
Proof.
  exists (laptop_row "N1" false true true), (laptop_row "N1" false false false).
  repeat split; vm_compute; reflexivity.
Qed.

(** C4, at work: the stashed laptop is added again to N1. *)
Lemma create_existing_row_is_unstashed_witness :
  exists r',
    fst (create (externals true true) alice
           (mk_createInput None laptop "N1" false) (stashed false))
    = inr (Unstashed r')
    /\ nm_deleted r' = false
    /\ count_rows (has_key laptop "N1")
         (tbl_network_members
            (db (snd (create (externals true true) alice
                        (mk_createInput None laptop "N1" false)
                        (stashed false))))) = 1.
Proof.
  destruct (create_existing_row_is_unstashed (externals true true) alice
              (mk_createInput None laptop "N1" false) (stashed false))
    as (r' & H1 & _ & H3 & _ & H5 & _);
    [vm_compute; reflexivity | reflexivity | exact I | vm_compute; reflexivity
    | ].
  exists r'. split; [exact H1|]. split; [exact H3|exact H5].
Defined.

(** C5, at work: bulkDeleteStashed on N1 with the laptop stashed there. *)
Lemma bulkDeleteStashed_marks_stashed_rows_once_witness :
  tbl_network_members
    (db (snd (bulkDeleteStashed (externals true true) alice
                (mk_bulkInput "N1" None) (stashed false))))
  = map (permanently_delete_if_stashed "N1")
      (tbl_network_members (db (stashed false))).
Proof.
  destruct (bulkDeleteStashed_marks_stashed_rows_once (externals true true)
              alice (mk_bulkInput "N1" None) (stashed false))
    as (_ & H & _).
  - exists (personal_network "N1"). vm_compute. reflexivity.
  - exact H.
Defined.

(** C6, at work: with global naming on, renaming the laptop in N1 calls the
    controller for N2 and writes N2's row; N3 belongs to the organization and
    is outside the personal scope. *)
Lemma Update_rename_reaches_the_ownership_scope_witness :
  exists evs,
    trace (snd (Update (externals true true) alice
                  (rename "N1" "desktop" None) (home true)))
    = trace (home true) ++ evs
    /\ In (EvControllerUpdate "N2" laptop false
             (Plain (ui_updateParams (rename "N1" "desktop" None))) true) evs.
Proof.
  destruct (Update_rename_reaches_the_ownership_scope (externals true true)
              alice (rename "N1" "desktop" None) "desktop" (home true) eq_refl)
    as [_ H]; [discriminate | exact I | ].
  destruct H as (_ & evs & Ht & Hin).
  - vm_compute. reflexivity.
  - vm_compute. reflexivity.
  - exists evs. split; [exact Ht|].
    apply (Hin (laptop_row "N2" true false false)).
    + vm_compute. right. left. reflexivity.
    + vm_compute. reflexivity.
Defined.

(** C6, the claim as stated fails, twice.  With global naming on, an Update
    that sets the name to the empty string writes it to N1 and to no other
    network, although N2's row is one the rename reaches.  And when the
    controller has lost the laptop in N2, an Update that renames it in N1
    throws the controller's error at the fan-out, and N2's row keeps its
    name. *)
Lemma global_rename_is_not_always_propagated :
  (let w' := snd (Update (externals true true) alice (rename "N1" "" None)
                    (home true)) in
   global_naming alice (rename "N1" "" None) (db (home true)) = true
   /\ renamed_elsewhere alice (rename "N1" "" None) (db (home true))
        (laptop_row "N2" true false false) = true
   /\ option_map nm_name
        (findFirst (has_key laptop "N1") (tbl_network_members (db w')))
      = Some (Some "")
   /\ option_map nm_name
        (findFirst (has_key laptop "N2") (tbl_network_members (db w')))
      = Some (Some "laptop"))
  /\ (let w' := snd (Update (externals true true) alice
                       (rename "N1" "desktop" None) unplugged) in
      global_naming alice (rename "N1" "desktop" None) (db unplugged) = true
      /\ renamed_elsewhere alice (rename "N1" "desktop" None) (db unplugged)
           (laptop_row "N2" true false false) = true
      /\ fst (Update (externals true true) alice (rename "N1" "desktop" None)
                unplugged)
         = inl (ExternalError "404 member not found")
      /\ option_map nm_name
           (findFirst (has_key laptop "N2") (tbl_network_members (db w')))
         = Some (Some "laptop")).
Proof. repeat split; vm_compute; reflexivity. Qed.



(** C8, the code at the failing input: global naming is on and the call
    carries a name and an address that is no IP address.  Update throws
    BAD_REQUEST, and by then the controller has been called for N2 with the
    unchecked payload and N2's row carries the new name. *)
Theorem Update_fans_out_before_it_validates :
  let input := rename "N1" "desktop" (Some ["not-an-ip"]) in
  let w' := snd (Update (externals true true) alice input (home true)) in
  fst (Update (externals true true) alice input (home true))
  = inl (TRPCError BAD_REQUEST "Invalid IP addresses provided")
  /\ option_map nm_name
       (findFirst (has_key laptop "N2") (tbl_network_members (db w')))
     = Some (Some "desktop")
  /\ In (EvControllerUpdate "N2" laptop false (Plain (ui_updateParams input))
           true) (trace w')
  /\ option_map nm_name
       (findFirst (has_key laptop "N1") (tbl_network_members (db w')))
     = Some (Some "laptop").
Proof.
  repeat split; try (vm_compute; reflexivity).
  vm_compute. left. reflexivity.
Qed.

(** C9, at work: the controller has lost the laptop, so the de-authorization
    fails; the row is marked deleted all the same. *)
Lemma stash_marks_deleted_whatever_the_controller_answers_witness :
  exists r',
    findFirst (has_key laptop "N1")
      (tbl_network_members
         (db (snd (stash (externals true true) alice
                     (mk_stashInput None "N1" laptop) forgotten))))
    = Some r'
    /\ nm_deleted r' = true.
Proof.
  destruct (stash_marks_deleted_whatever_the_controller_answers
              (externals true true) alice (mk_stashInput None "N1" laptop)
              forgotten (personal_network "N1")
              (laptop_row "N1" true false false) I)
    as [H _]; [vm_compute; reflexivity | vm_compute; reflexivity | exact H].
Defined.

(** C10, the claim as stated fails: the one row of N1 is permanently deleted
    and not flagged deleted, and it is counted in [total]. *)
Lemma memberCounts_count_a_permanentlyDeleted_row :
  exists networks,
    getUserNetworks (externals true true) alice false shown_again
    = (inr (StoreNetworks networks), shown_again)
    /\ ~ Forall
           (memberCounts_of (fun m => nm_deleted m || nm_permanentlyDeleted m)
              (db shown_again)) networks.
Proof.
  eexists. split; [reflexivity|]. intros H.
  apply Forall_inv in H. unfold memberCounts_of in H.
  destruct H as (_ & _ & _ & _ & _ & H). vm_compute in H. discriminate.
Qed.

(** * The further properties at work *)

(** At work: the laptop, ACTIVE in N1 and reported by the controller, is in
    the merged list with its row. *)
Lemma mergedMembers_list_every_row_not_deleted_witness :
  In (merged_entry reported (laptop_row "N1" true false false))
    (mergedMembers (db (home false)) "N1" reported).
Proof.
  apply (mergedMembers_list_every_row_not_deleted (db (home false)) "N1"
           reported (laptop_row "N1" true false false)).
  - vm_compute. constructor; [intros []|constructor].
  - vm_compute. left. reflexivity.
  - reflexivity.
Defined.

(** At work: the device the controller reports and N1 has no row for is
    listed as a controller-only member. *)
Lemma mergedMembers_list_every_unknown_controller_member_witness :
  exists c',
    In (ControllerOnly c') (mergedMembers (db (home false)) "N1" reported)
    /\ In c' reported
    /\ me_id c' = "ffffffffff".
Proof.
  apply (mergedMembers_list_every_unknown_controller_member (db (home false))
           "N1" reported (mk_entity "ffffffffff" false [] [] [] None true)).
  - vm_compute. right. left. reflexivity.
  - vm_compute. intros [H|[]]. discriminate.
Defined.

(** At work: with the laptop stashed in N1, the one entry of the merged list
    is not the laptop. *)
Lemma mergedMembers_hide_every_deleted_row_witness :
  (merged_id (ControllerOnly (mk_entity "ffffffffff" false [] [] [] None true))
   =? nm_id (laptop_row "N1" false true false)) = false.
Proof.
  apply String.eqb_neq.
  apply (mergedMembers_hide_every_deleted_row (db (stashed false)) "N1"
           reported (laptop_row "N1" false true false)
           (ControllerOnly (mk_entity "ffffffffff" false [] [] [] None true))).
  - vm_compute. constructor; [intros []|constructor].
  - vm_compute. left. reflexivity.
  - reflexivity.
  - vm_compute. left. reflexivity.
Defined.



(** At work: a device that has no row is added to N1. *)
Lemma create_appends_one_row_for_a_new_member_witness :
  fst (create (externals true true) alice
         (mk_createInput None newcomer "N1" false) (home false))
  = inr CreatedNew.
Proof.
  destruct (create_appends_one_row_for_a_new_member (externals true true)
              alice (mk_createInput None newcomer "N1" false)
              (personal_network "N1") (home false)) as [H _].
  - vm_compute. reflexivity.
  - reflexivity.
  - exact I.
  - vm_compute. reflexivity.
  - vm_compute. reflexivity.
  - reflexivity.
  - exact H.
Defined.

(** At work: the same with the webhook endpoint down. *)
Lemma create_inserts_nothing_when_the_webhook_fails_witness :
  tbl_network_members
    (db (snd (create (externals false true) alice
                (mk_createInput None newcomer "N1" false) (home false))))
  = tbl_network_members (db (home false)).
Proof.
  destruct (create_inserts_nothing_when_the_webhook_fails
              (externals false true) alice
              (mk_createInput None newcomer "N1" false)
              "webhook endpoint unreachable" (home false)) as (_ & H & _).
  - vm_compute. reflexivity.
  - reflexivity.
  - exact I.
  - vm_compute. reflexivity.
  - reflexivity.
  - exact H.
Defined.

(** At work: the laptop is stashed in N1 and deleted then. *)
Lemma stash_then_delete_keeps_the_row_permanently_deleted_witness :
  fst (delete (externals true true) alice
         (mk_deleteInput None false "N1" laptop)
         (snd (stash (externals true true) alice
                 (mk_stashInput None "N1" laptop) (home false))))
  = inr DeletedTrue.
Proof.
  destruct (stash_then_delete_keeps_the_row_permanently_deleted
              (externals true true) alice None "N1" laptop
              (personal_network "N1") (laptop_row "N1" true false false)
              (home false) I) as [H _].
  - vm_compute. reflexivity.
  - vm_compute. reflexivity.
  - exact H.
Defined.

(** At work: the laptop is stashed in N1 and added again. *)
Lemma stash_then_create_restores_the_row_witness :
  exists r',
    fst (create (externals true true) alice
           (mk_createInput None laptop "N1" false)
           (snd (stash (externals true true) alice
                   (mk_stashInput None "N1" laptop) (home false))))
    = inr (Unstashed r')
    /\ is_active r' = true.
Proof.
  destruct (stash_then_create_restores_the_row
              (externals true true) alice None "N1" laptop
              (personal_network "N1") (laptop_row "N1" true false false)
              (home false)) as (r' & H1 & _ & H3 & _).
  - vm_compute. reflexivity.
  - exact I.
  - vm_compute. reflexivity.
  - vm_compute. reflexivity.
  - exists r'. split; [exact H1|exact H3].
Defined.

(** At work: Bob, who is not the author of N1, asks for the bulk delete. *)
Lemma bulkDeleteStashed_without_access_does_nothing_witness :
  snd (bulkDeleteStashed (externals true true) bob (mk_bulkInput "N1" None)
         (stashed false))
  = stashed false.
Proof.
  destruct (bulkDeleteStashed_without_access_does_nothing
              (externals true true) bob (mk_bulkInput "N1" None)
              (stashed false)) as [_ H].
  - intros Hmay. vm_compute in Hmay. destruct Hmay as [n Hn]. discriminate.
  - exact H.
Defined.

(** At work: the laptop is flagged deleted in N1 through UpdateDatabaseOnly.
    *)
Lemma UpdateDatabaseOnly_writes_the_one_row_witness :
  exists r',
    findFirst (has_key laptop "N1")
      (tbl_network_members
         (db (snd (UpdateDatabaseOnly (externals true true) alice
                     (mk_dbOnlyInput "N1" laptop None
                        (mk_dbOnlyParams (Some true) None))
                     (home false)))))
    = Some r'
    /\ nm_deleted r' = true
    /\ nm_permanentlyDeleted r' = false.
Proof.
  destruct (UpdateDatabaseOnly_writes_the_one_row (externals true true) alice
              (mk_dbOnlyInput "N1" laptop None
                 (mk_dbOnlyParams (Some true) None))
              (personal_network "N1") (laptop_row "N1" true false false)
              (home false) I) as [(r' & H1 & H2 & _ & H4 & _) _].
  - vm_compute. reflexivity.
  - vm_compute. reflexivity.
  - exists r'. split; [exact H1|]. split; [exact H2|exact H4].
Defined.

(** At work: UpdateDatabaseOnly for a device that has no row. *)
Lemma UpdateDatabaseOnly_of_a_missing_row_throws_witness :
  tbl_network_members
    (db (snd (UpdateDatabaseOnly (externals true true) alice
                (mk_dbOnlyInput "N1" newcomer None
                   (mk_dbOnlyParams (Some true) None))
                (home false))))
  = tbl_network_members (db (home false)).
Proof.
  destruct (UpdateDatabaseOnly_of_a_missing_row_throws (externals true true)
              alice
              (mk_dbOnlyInput "N1" newcomer None
                 (mk_dbOnlyParams (Some true) None))
              (home false) I) as (_ & H & _).
  - vm_compute. reflexivity.
  - exact H.
Defined.

(** At work: the controller knows a device in N1 that has no row; after
    delete the controller has forgotten it. *)
Lemma delete_of_a_missing_row_throws_after_the_controller_witness :
  zt (snd (delete (externals true true) alice
             (mk_deleteInput None false "N1" newcomer) joined))
  = [].
Proof.
  destruct (delete_of_a_missing_row_throws_after_the_controller
              (externals true true) alice
              (mk_deleteInput None false "N1" newcomer) [] joined eq_refl I)
    as (_ & _ & H & _).
  - vm_compute. reflexivity.
  - vm_compute. reflexivity.
  - exact H.
Defined.

(** At work: notation 2 is carried by member 10 alone, and goes with its
    last link. *)
Lemma removeMemberAnotations_collects_an_unused_notation_witness :
  tbl_notation
    (fst (snd (removeMemberAnotations (externals true true) alice
                 (mk_removeAnotationInput None 2 10) labels (home false))))
  = [mk_notation 1 "servers" None "N1"].
Proof.
  destruct (removeMemberAnotations_collects_an_unused_notation
              (externals true true) alice (mk_removeAnotationInput None 2 10)
              labels (mk_memberNotation 2 10) (home false) I)
    as (_ & _ & _ & H).
  - vm_compute. reflexivity.
  - destruct (H eq_refl) as [H1 _]. rewrite H1. reflexivity.
Defined.

(** At work: member 11 does not carry notation 2. *)
Lemma removeMemberAnotations_of_a_missing_link_throws_witness :
  fst (snd (removeMemberAnotations (externals true true) alice
              (mk_removeAnotationInput None 2 11) labels (home false)))
  = labels.
Proof.
  destruct (removeMemberAnotations_of_a_missing_link_throws
              (externals true true) alice (mk_removeAnotationInput None 2 11)
              labels (home false) I) as [_ H].
  - vm_compute. reflexivity.
  - exact H.
Defined.

(** At work: after notation 2 has been collected, the link of member 11
    still has its notation. *)
Lemma removeMemberAnotations_leaves_no_dangling_link_witness :
  is_some
    (findFirst (fun n => (nt_id n =? 1)%Z)
       (tbl_notation
          (fst (snd (removeMemberAnotations (externals true true) alice
                       (mk_removeAnotationInput None 2 10) labels
                       (home false))))))
  = true.
Proof.
  apply (removeMemberAnotations_leaves_no_dangling_link (externals true true)
           alice (mk_removeAnotationInput None 2 10) labels (home false))
    with (l := mk_memberNotation 1 11).
  - intros l Hin. vm_compute in Hin.
    destruct Hin as [<-|[<-|[<-|[]]]]; reflexivity.
  - vm_compute. right. left. reflexivity.
Defined.


(** At work: the laptop, stashed in N1, is among the zombie members. *)
Lemma stash_moves_the_member_to_the_zombies_witness :
  exists r',
    In r' (zombieMembers (db (stashed false)) "N1") /\ nm_id r' = laptop.
Proof.
  destruct (stash_moves_the_member_to_the_zombies (externals true true) alice
              None "N1" laptop (personal_network "N1")
              (laptop_row "N1" true false false) (home false) I)
    as [_ H].
  - vm_compute. reflexivity.
  - vm_compute. reflexivity.
  - vm_compute. constructor; [intros []|constructor].
  - apply H. reflexivity.
Defined.
